(** * SNData: a shallow embedding of the data-access layer

    The development follows the Python sources of the package:
    [sndata/_utils.py], the release classes [csp.DR1], [des.SN3YR],
    [essence.Narayan16], the function based module [jla.betoule14] and the
    older function based modules [SNData.csp.dr3] and [SNData.csp.dr1].

    Conventions of the embedding.
    - Python numbers are exact: an [int] is a [Z], a [float] is a rational
      [Q] (rounding of binary floating point is not modelled).
    - A [str] is a [string]; the string methods used by the sources
      ([split], [lstrip], [rstrip], slices) are written out below.
    - An exception is a value of [exn]; a computation that may raise returns
      a [res].  Code that touches the disk, the network or the warning
      stream runs in the monad [M] over an explicit [world].
    - An astropy [Table] is a list of named columns plus a [meta] dict. *)

From Stdlib Require Import ZArith QArith Qminmax Lia Lqa Ascii String List Bool
  Sorted.
From stdpp Require Import base option list strings pretty gmap.

Local Open Scope string_scope.
Local Open Scope list_scope.

(** ** Exceptions and results *)

Module Py.

Inductive exn : Type :=
| ValueError (msg : string)
| RuntimeError (msg : string)
| KeyError (key : string)
| IndexError
| TypeError (msg : string)
| UnboundLocalError (var : string)
| FileNotFoundError
| IOError
| ConnectionError
| HTTPError
| InconsistentTableError
| StopIteration
| InvalidObjId
| NoDownloadedData.

Inductive res (A : Type) : Type :=
| Ok (a : A)
| Raise (e : exn).
Arguments Ok {A} a.
Arguments Raise {A} e.

Definition rbind {A B} (r : res A) (k : A -> res B) : res B :=
  match r with
  | Ok a => k a
  | Raise e => Raise e
  end.

Definition is_ok {A} (r : res A) : bool :=
  match r with Ok _ => true | Raise _ => false end.

(** *** The [str] methods the sources use *)

Definition chr_in (a : ascii) (chars : string) : bool :=
  existsb (Ascii.eqb a) (list_ascii_of_string chars).

(** [s.lstrip(chars)]: drop leading characters that belong to [chars]. *)
Fixpoint lstrip (chars s : string) : string :=
  match s with
  | EmptyString => EmptyString
  | String a r => if chr_in a chars then lstrip chars r else s
  end.

Definition str_rev (s : string) : string :=
  string_of_list_ascii (rev (list_ascii_of_string s)).

(** [s.rstrip(chars)] *)
Definition rstrip (chars s : string) : string :=
  str_rev (lstrip chars (str_rev s)).

(** [s.split(sep)] for a one character separator: every occurrence splits,
    so the result is never empty. *)
Fixpoint split (sep : ascii) (s : string) : list string :=
  match s with
  | EmptyString => [EmptyString]
  | String a r =>
      if Ascii.eqb a sep then EmptyString :: split sep r
      else match split sep r with
           | h :: t => String a h :: t
           | [] => [String a EmptyString]
           end
  end.

(** the ASCII characters [str.split()] and [str.strip()] treat as space *)
Definition whitespace : string :=
  String " " (String "009" (String "010" (String "011" (String "012"
    (String "013" (String "028" (String "029" (String "030"
      (String "031" EmptyString))))))))).

Definition is_space (a : ascii) : bool := chr_in a whitespace.

(** [s.split()]: split on runs of whitespace, no empty fields. *)
Fixpoint split_ws_aux (cur : string) (s : string) : list string :=
  match s with
  | EmptyString =>
      match cur with EmptyString => [] | _ => [str_rev cur] end
  | String a r =>
      if is_space a
      then match cur with
           | EmptyString => split_ws_aux EmptyString r
           | _ => str_rev cur :: split_ws_aux EmptyString r
           end
      else split_ws_aux (String a cur) r
  end.

Definition split_ws (s : string) : list string := split_ws_aux EmptyString s.

(** [s.startswith(p)] *)
Definition startswith (p s : string) : bool := String.prefix p s.

(** [s[n:]] for [0 <= n] *)
Definition drop_str (n : nat) (s : string) : string :=
  String.substring n (String.length s - n) s.

(** [s[-n:]] for [0 < n] *)
Definition last_str (n : nat) (s : string) : string :=
  drop_str (String.length s - n) s.

(** [s[:-n]] for [0 < n] *)
Definition drop_last_str (n : nat) (s : string) : string :=
  String.substring 0 (String.length s - n) s.

(** [s.split(sep)[0]]: [split] never returns an empty list. *)
Definition first_field (sep : ascii) (s : string) : string :=
  match split sep s with
  | h :: _ => h
  | [] => EmptyString
  end.

(** [s.split(sep)[-1]] *)
Definition last_field (sep : ascii) (s : string) : string :=
  List.last (split sep s) EmptyString.

(** [l[i]] on a list: [IndexError] out of range. *)
Definition item {A} (l : list A) (i : nat) : res A :=
  match l !! i with
  | Some a => Ok a
  | None => Raise IndexError
  end.

(** [x in l] for a list of strings *)
Definition str_in (x : string) (l : list string) : bool :=
  existsb (String.eqb x) l.

(** [sorted(l)] on strings: ascending in code point order (insertion sort,
    which is stable as Python's sort is). *)
Fixpoint insert_sorted (x : string) (l : list string) : list string :=
  match l with
  | [] => [x]
  | y :: t => if String.ltb y x || String.eqb y x
              then y :: insert_sorted x t else x :: l
  end.

Definition sorted (l : list string) : list string :=
  fold_right insert_sorted [] (rev l).

(** ascending, and strictly ascending, in code point order *)
Definition str_le (a b : string) : Prop :=
  String.ltb a b || String.eqb a b = true.
Definition str_lt (a b : string) : Prop := String.ltb a b = true.

(** [set(l)] followed by an iteration: the distinct elements (a Python set
    iterates in an unspecified order; every use below sorts the result). *)
Fixpoint set_of (l : list string) : list string :=
  match l with
  | [] => []
  | x :: t => if str_in x t then set_of t else x :: set_of t
  end.

End Py.
Export Py.

Notation "'let?' x ':=' r 'in' k" := (Py.rbind r (fun x => k))
  (at level 10, x pattern, r at level 100, k at level 200).

(** ** [sndata/_utils.py]: the pure conversions *)

Module Utils.

(** [convert_to_jd]: the scalar function under [np.vectorize]. *)
Definition snoopy_offset : Q := 53000.
Definition mjd_offset : Q := 2400000.5.

Definition convert_to_jd (date : Q) : Q :=
  let date := if Qlt_le_dec date snoopy_offset
              then (date + snoopy_offset)%Q else date in
  let date := if Qlt_le_dec date mjd_offset
              then (date + mjd_offset)%Q else date in
  date.

(** [np.vectorize] applies the scalar function to every element. *)
Definition convert_to_jd_vec (dates : list Q) : list Q :=
  map convert_to_jd dates.

(** [hourangle_to_degrees].  The right ascension goes through astropy's
    [Angle((rah, ram, ras), unit='hourangle').to('deg')], which is not code
    of the package: it is the parameter [angle_to_deg]. *)
Definition dec_of (dec_sign : string) (decd decm decs : Q) : Q :=
  let sign : Q := if String.eqb dec_sign "-" then (-1)%Q else 1%Q in
  (sign * decd + decm / 60 + decs / 60 / 60)%Q.

Definition hourangle_to_degrees (angle_to_deg : Q -> Q -> Q -> Q)
    (rah ram ras : Q) (dec_sign : string) (decd decm decs : Q) : Q * Q :=
  let ra := angle_to_deg rah ram ras in
  let dec := dec_of dec_sign decd decm decs in
  (ra, dec).

End Utils.

(** ** Tables

    An astropy [Table]: named columns in order, all of the same length, and
    a [meta] dictionary. *)

Module Tbl.

Inductive column : Type :=
| FloatCol (l : list Q)
| IntCol (l : list Z)
| StrCol (l : list string).

Definition col_len (c : column) : nat :=
  match c with
  | FloatCol l => length l
  | IntCol l => length l
  | StrCol l => length l
  end.

Inductive metaval : Type :=
| MNone
| MFloat (q : Q)
| MStr (s : string)
| MComments (l : list string).

Record Table : Type := mkTable {
  columns : list (string * column);
  meta : gmap string metaval
}.

(** [Table()] *)
Definition empty_table : Table := mkTable [] ∅.

Definition colnames (t : Table) : list string := map fst (columns t).

(** [len(t)]: the number of rows. *)
Definition len (t : Table) : nat :=
  match columns t with
  | [] => 0
  | (_, c) :: _ => col_len c
  end.

Fixpoint assoc (name : string) (cols : list (string * column)) : option column :=
  match cols with
  | [] => None
  | (n, c) :: r => if String.eqb n name then Some c else assoc name r
  end.

(** [t[name]] *)
Definition getitem (t : Table) (name : string) : res column :=
  match assoc name (columns t) with
  | Some c => Ok c
  | None => Raise (KeyError name)
  end.

Fixpoint replace_col (name : string) (c : column)
    (cols : list (string * column)) : list (string * column) :=
  match cols with
  | [] => []
  | (n, c') :: r =>
      if String.eqb n name then (n, c) :: r else (n, c') :: replace_col name c r
  end.

(** [t[name] = c]: the first column fixes the number of rows; afterwards a
    column of another length is refused. *)
Definition setitem (t : Table) (name : string) (c : column) : res Table :=
  match columns t with
  | [] => Ok (mkTable [(name, c)] (meta t))
  | _ =>
      if Nat.eqb (col_len c) (len t)
      then match assoc name (columns t) with
           | Some _ => Ok (mkTable (replace_col name c (columns t)) (meta t))
           | None => Ok (mkTable (columns t ++ [(name, c)]) (meta t))
           end
      else Raise (ValueError "Inconsistent data column lengths")
  end.

(** [t.rename_column(old, new)]: [old] must exist, and [new] must not
    unless it is [old] itself. *)
Definition rename_column (t : Table) (old new : string) : res Table :=
  match assoc old (columns t) with
  | None => Raise (KeyError old)
  | Some _ =>
      if String.eqb old new then Ok t
      else if str_in new (colnames t) then Raise (KeyError new)
      else Ok (mkTable
                 (map (fun nc => if String.eqb (fst nc) old
                                 then (new, snd nc) else nc) (columns t))
                 (meta t))
  end.

(** [t.remove_column(name)] *)
Definition remove_column (t : Table) (name : string) : res Table :=
  match assoc name (columns t) with
  | None => Raise (KeyError name)
  | Some _ =>
      Ok (mkTable (filter (fun nc => fst nc ≠ name) (columns t)) (meta t))
  end.

(** [t.meta[k] = v] *)
Definition meta_set (t : Table) (k : string) (v : metaval) : Table :=
  mkTable (columns t) (<[k := v]> (meta t)).

(** [del t.meta[k]] *)
Definition meta_del (t : Table) (k : string) : res Table :=
  match meta t !! k with
  | Some _ => Ok (mkTable (columns t) (delete k (meta t)))
  | None => Raise (KeyError k)
  end.

(** [t.meta.pop(k)] *)
Definition meta_pop (t : Table) (k : string) : res (metaval * Table) :=
  match meta t !! k with
  | Some v => Ok (v, mkTable (columns t) (delete k (meta t)))
  | None => Raise (KeyError k)
  end.

(** [t.meta = m] *)
Definition with_meta (t : Table) (m : gmap string metaval) : Table :=
  mkTable (columns t) m.

(** [np.full(n, v)] *)
Definition full_int (n : nat) (v : Z) : column := IntCol (replicate n v).
Definition full_float (n : nat) (v : Q) : column := FloatCol (replicate n v).
Definition full_str (n : nat) (v : string) : column := StrCol (replicate n v).

(** A column used as numbers: an integer column is promoted, a column of
    strings is refused by the comparison or the reduction applied to it. *)
Definition as_floats (c : column) : res (list Q) :=
  match c with
  | FloatCol l => Ok l
  | IntCol l => Ok (map inject_Z l)
  | StrCol _ => Raise (TypeError "'<' not supported between 'str' and 'int'")
  end.

(** A column read as strings, for ['prefix' + s for s in col]. *)
Definition as_strs (c : column) : res (list string) :=
  match c with
  | StrCol l => Ok l
  | _ => Raise (TypeError "can only concatenate str to str")
  end.

(** [np.max([a, b], axis=0)]: the element wise maximum of two columns of
    the same length. *)
Definition max_cols (a b : list Q) : res (list Q) :=
  if Nat.eqb (length a) (length b)
  then Ok (zip_with Qmax a b)
  else Raise (ValueError "setting an array element with a sequence")
.

(** [vstack([t1, t2])] for two tables with the same column names (the only
    use in the package): rows of [t2] below rows of [t1], columns in the
    order of [t1]; the comment lists of the two [meta] are concatenated and
    on any other key the later table wins. *)
Definition concat_col (c1 c2 : column) : res column :=
  match c1, c2 with
  | FloatCol a, FloatCol b => Ok (FloatCol (a ++ b))
  | IntCol a, IntCol b => Ok (IntCol (a ++ b))
  | StrCol a, StrCol b => Ok (StrCol (a ++ b))
  | FloatCol a, IntCol b => Ok (FloatCol (a ++ map inject_Z b))
  | IntCol a, FloatCol b => Ok (FloatCol (map inject_Z a ++ b))
  | _, _ => Raise (ValueError "TableMergeError")
  end.

Fixpoint vstack_cols (cols1 : list (string * column)) (t2 : Table)
    : res (list (string * column)) :=
  match cols1 with
  | [] => Ok []
  | (n, c1) :: r =>
      let? c2 := getitem t2 n in
      let? c := concat_col c1 c2 in
      let? r' := vstack_cols r t2 in
      Ok ((n, c) :: r')
  end.

Definition merge_metaval (a b : metaval) : option metaval :=
  match a, b with
  | MComments x, MComments y => Some (MComments (x ++ y))
  | _, _ => Some b
  end.

Definition vstack (t1 t2 : Table) : res Table :=
  if negb (Nat.eqb (length (columns t1)) (length (columns t2)))
  then Raise (ValueError "TableMergeError")
  else
    let? cols := vstack_cols (columns t1) t2 in
    Ok (mkTable cols (union_with merge_metaval (meta t1) (meta t2))).

(** The common output schema. *)
Definition sncosmo_columns : list string :=
  ["time"; "band"; "flux"; "fluxerr"; "zp"; "zpsys"].
Definition standard_meta_keys : list string :=
  ["obj_id"; "ra"; "dec"; "z"; "z_err"].

Definition has_columns (t : Table) (names : list string) : Prop :=
  Forall (fun c => c ∈ colnames t) names.
Definition has_meta_keys (t : Table) (keys : list string) : Prop :=
  Forall (fun k => is_Some (meta t !! k)) keys.

(** All columns have [len t] rows. *)
Definition wf_table (t : Table) : bool :=
  forallb (fun nc => Nat.eqb (col_len (snd nc)) (len t)) (columns t).

End Tbl.
Export Tbl.

(** ** The world: disk, network, warning stream

    A path is the list of its components below the root.  The disk is an
    association list from paths to nodes; its order is the order in which
    the operating system lists directory entries, which [glob] exposes. *)

Module IO.

Definition path : Type := list string.
Definition content : Type := list string.

Inductive node : Type :=
| Dir
| File (data : content) (readonly : bool).

Inductive response : Type :=
| Unreachable
| Reply (status_ok : bool) (body : content).

Inductive event : Type :=
| EStat (p : path)
| EList (p : path) (pattern : string)
| ERead (p : path)
| EWrite (p : path)
| EUnlink (p : path)
| EGet (url : string)
| EWarn (msg : string)
| EPrint (msg : string).

Record world : Type := mkWorld {
  fs : list (path * node);
  net : string -> response;
  trace : list event
}.

Definition M (A : Type) : Type := world -> res A * world.

Definition ret {A} (a : A) : M A := fun w => (Ok a, w).
Definition raise {A} (e : exn) : M A := fun w => (Raise e, w).
Definition bind {A B} (m : M A) (k : A -> M B) : M B :=
  fun w => match m w with
           | (Ok a, w') => k a w'
           | (Raise e, w') => (Raise e, w')
           end.
Definition lift {A} (r : res A) : M A := fun w => (r, w).

(** [try: m except e: h] for one exception class, decided by [catches]. *)
Definition try_except {A} (m : M A) (catches : exn -> bool) (h : M A) : M A :=
  fun w => match m w with
           | (Ok a, w') => (Ok a, w')
           | (Raise e, w') => if catches e then h w' else (Raise e, w')
           end.

Definition log (ev : event) : M unit :=
  fun w => (Ok tt, mkWorld (fs w) (net w) (trace w ++ [ev])).

Definition get_fs : M (list (path * node)) := fun w => (Ok (fs w), w).
Definition put_fs (f : list (path * node)) : M unit :=
  fun w => (Ok tt, mkWorld f (net w) (trace w)).

End IO.
Export IO.

Notation "'let!' x ':=' m 'in' k" := (IO.bind m (fun x => k))
  (at level 10, x pattern, m at level 100, k at level 200).
Notation "'do!' m 'in' k" := (IO.bind m (fun _ => k))
  (at level 10, m at level 100, k at level 200).

Module Disk.

Definition path_eqb (p q : path) : bool := bool_decide (p = q).

Fixpoint lookup_fs (p : path) (f : list (path * node)) : option node :=
  match f with
  | [] => None
  | (q, n) :: r => if path_eqb q p then Some n else lookup_fs p r
  end.

(** The root always exists. *)
Definition exists_in (f : list (path * node)) (p : path) : bool :=
  match p with
  | [] => true
  | _ => match lookup_fs p f with Some _ => true | None => false end
  end.

Fixpoint store_fs (p : path) (n : node) (f : list (path * node))
    : list (path * node) :=
  match f with
  | [] => [(p, n)]
  | (q, m) :: r =>
      if path_eqb q p then (q, n) :: r else (q, m) :: store_fs p n r
  end.

Definition remove_fs (p : path) (f : list (path * node))
    : list (path * node) :=
  filter (fun qn => fst qn ≠ p) f.

(** [p.parent], [p.name], [p / name] *)
Definition parent (p : path) : path := removelast p.
Definition name (p : path) : string := List.last p "".
Definition child (p : path) (n : string) : path := p ++ [n].

(** [p.stem]: the name without its last suffix; a name that starts with its
    only dot, or ends with a dot, has no suffix. *)
Definition stem (p : path) : string :=
  let n := name p in
  match rev (split "." n) with
  | suffix :: (_ :: _) as front =>
      let s := String.concat "." (rev front) in
      if String.eqb s "" || String.eqb suffix "" then n else s
  | _ => n
  end.

(** [str(p)] *)
Definition path_str (p : path) : string :=
  String.append "/" (String.concat "/" p).

(** [fnmatch] with the wildcards [*] and [?]. *)
Fixpoint fnmatch (pat s : string) : bool :=
  match pat with
  | EmptyString => match s with EmptyString => true | _ => false end
  | String c pat' =>
      if Ascii.eqb c "*" then
        (fix star (s : string) : bool :=
           fnmatch pat' s
           || match s with
              | EmptyString => false
              | String _ s' => star s'
              end) s
      else match s with
           | EmptyString => false
           | String d s' =>
               (Ascii.eqb c "?" || Ascii.eqb c d) && fnmatch pat' s'
           end
  end.

(** [p.exists()] *)
Definition path_exists (p : path) : M bool :=
  do! log (EStat p) in
  let! f := get_fs in
  ret (exists_in f p).

(** [p.glob(pattern)] for a pattern without a directory part: the entries
    of [p] that match, in listing order; nothing if [p] is missing. *)
Definition glob (p : path) (pattern : string) : M (list path) :=
  do! log (EList p pattern) in
  let! f := get_fs in
  ret (filter (fun q => bool_decide (parent q = p ∧ q ≠ [])
                        && fnmatch pattern (name q)) (map fst f)).

(** [p.rglob(pattern)]: the same below [p] at any depth. *)
Definition rglob (p : path) (pattern : string) : M (list path) :=
  do! log (EList p pattern) in
  let! f := get_fs in
  ret (filter (fun q => bool_decide (p `prefix_of` parent q ∧ q ≠ [])
                        && fnmatch pattern (name q)) (map fst f)).

(** [glob.glob(os.path.join(p, pattern))]: as [glob], but a name that
    starts with a dot only matches a pattern that starts with a dot. *)
Definition glob_glob (p : path) (pattern : string) : M (list path) :=
  let! l := glob p pattern in
  ret (filter (fun q => negb (startswith "." (name q))
                        || startswith "." pattern) l).

(** [open(p).readlines()] *)
Definition read_lines (p : path) : M content :=
  do! log (ERead p) in
  let! f := get_fs in
  match lookup_fs p f with
  | Some (File data _) => ret data
  | Some Dir => raise IOError
  | None => raise FileNotFoundError
  end.

(** [p.mkdir(parents=True, exist_ok=True)] *)
Fixpoint mkdir_from (base : path) (rest : path) (f : list (path * node))
    : res (list (path * node)) :=
  match rest with
  | [] => Ok f
  | c :: rest' =>
      let here := base ++ [c] in
      match lookup_fs here f with
      | Some Dir => mkdir_from here rest' f
      | Some (File _ _) => Raise IOError
      | None => mkdir_from here rest' (f ++ [(here, Dir)])
      end
  end.

Definition mkdir_parents (p : path) : M unit :=
  let! f := get_fs in
  let! f' := lift (mkdir_from [] p f) in
  put_fs f'.

(** [open(p, 'wb')] followed by a write of [data]: creates or truncates.
    A directory, a read only file, and a parent that is missing or is a
    file refuse. *)
Definition write_file (p : path) (data : content) : M unit :=
  do! log (EWrite p) in
  let! f := get_fs in
  match lookup_fs p f with
  | Some Dir => raise IOError
  | Some (File _ true) => raise IOError
  | Some (File _ false) => put_fs (store_fs p (File data false) f)
  | None =>
      match parent p, lookup_fs (parent p) f with
      | [], _ | _, Some Dir => put_fs (store_fs p (File data false) f)
      | _, Some (File _ _) => raise IOError
      | _, None => raise FileNotFoundError
      end
  end.

(** [p.unlink()] *)
Definition unlink (p : path) : M unit :=
  do! log (EUnlink p) in
  let! f := get_fs in
  match lookup_fs p f with
  | Some (File _ _) => put_fs (remove_fs p f)
  | Some Dir => raise IOError
  | None => raise FileNotFoundError
  end.

(** [requests.get(url)] *)
Definition requests_get (url : string) : M (bool * content) :=
  do! log (EGet url) in
  fun w => match net w url with
           | Unreachable => (Raise ConnectionError, w)
           | Reply ok body => (Ok (ok, body), w)
           end.

(** [response.raise_for_status()] *)
Definition raise_for_status (r : bool * content) : M unit :=
  if fst r then ret tt else raise HTTPError.

Definition warn (msg : string) : M unit := log (EWarn msg).
Definition print (msg : string) : M unit := log (EPrint msg).

End Disk.
Export Disk.

(** ** More of the disk: joining names, removing trees *)

Module Tree.

(** The parts of a name given to [/]: empty parts and [.] are dropped. *)
Definition parts (s : string) : path :=
  filter (fun c => c ≠ "" ∧ c ≠ ".") (split "/" s).

(** [p / s]: a name that starts with a slash replaces [p]. *)
Definition join (p : path) (s : string) : path :=
  if startswith "/" s then parts s else p ++ parts s.

(** [shutil.rmtree(p)]: a directory goes with everything below it; a
    missing path and a path that is a file are refused. *)
Definition rmtree (p : path) : M unit :=
  do! log (EUnlink p) in
  let! f := get_fs in
  match p, lookup_fs p f with
  | [], _ => raise IOError
  | _, Some Dir =>
      put_fs (filter (fun qn => negb (bool_decide (p `prefix_of` fst qn))) f)
  | _, Some (File _ _) => raise IOError
  | _, None => raise FileNotFoundError
  end.

(** [s.lower()] and [s.replace(a, b)] for single characters, on ASCII *)
Definition lower_char (a : ascii) : ascii :=
  let n := nat_of_ascii a in
  if (65 <=? n)%nat && (n <=? 90)%nat then ascii_of_nat (n + 32) else a.

Fixpoint lower (s : string) : string :=
  match s with
  | EmptyString => EmptyString
  | String a r => String (lower_char a) (lower r)
  end.

Fixpoint replace_char (a b : ascii) (s : string) : string :=
  match s with
  | EmptyString => EmptyString
  | String c r => String (if Ascii.eqb c a then b else c) (replace_char a b r)
  end.

End Tree.

(** ** [sndata/_utils.py]: disk and network *)

Module Fetch.

Definition is_connection_error (e : exn) : bool :=
  match e with ConnectionError => true | _ => false end.

Definition is_io_error (e : exn) : bool :=
  match e with IOError | FileNotFoundError => true | _ => false end.

(** [check_url] *)
Definition check_url (url : string) : M bool :=
  try_except
    (do! requests_get url in ret true)
    is_connection_error
    (do! warn (String.append "Could not connect to " url) in ret false).

(** The test [(force or not path.exists()) and check_url(url)], with
    Python's short circuit order. *)
Definition should_download (force : bool) (p : path) (url : string) : M bool :=
  let! wanted := (if force then ret true
                  else let! e := path_exists p in ret (negb e)) in
  if wanted then check_url url else ret false.

(** [download_file].  [file_obj] is the contents of an open temporary file
    when one is passed; the function then returns its new contents. *)
Definition download_file (url : string) (path_arg : option path)
    (file_obj : option content) (force : bool) : M (option content) :=
  match file_obj with
  | None =>
      match path_arg with
      | None => raise (ValueError "Must specify either ``path`` or ``file_obj``")
      | Some p =>
          let! go := should_download force p url in
          if negb go then ret None
          else
            do! mkdir_parents (parent p) in
            do! write_file p [] in
            let! response := requests_get url in
            do! raise_for_status response in
            do! write_file p (snd response) in
            ret None
      end
  | Some buf =>
      let! response := requests_get url in
      do! raise_for_status response in
      ret (Some (buf ++ snd response))
  end.

(** What a member of an archive is: a regular file with its data, or a
    directory.  Links, devices and fifos are not part of this model, whose
    disk holds directories and regular files only. *)
Inductive member_kind : Type :=
| RegFile (data : content)
| Directory.

(** a member: its name, as the archive spells it, and what it is *)
Definition member : Type := string * member_kind.

(** [os.mkdir(p)] with [FileExistsError] passed over, the way
    [TarFile.makedir] calls it *)
Definition mkdir_exist_ok (p : path) : M unit :=
  let! f := get_fs in
  if exists_in f p then ret tt else put_fs (f ++ [(p, Dir)]).

Section Tar.

(** [tarfile.open(fileobj=..., mode=...)]: the members of the archive in
    the order of the archive.  Decoding an archive is not code of the
    package. *)
Variable tar_open : option string -> content -> res (list member).

(** [os.path.join(out_dir, name)] and [out_dir / name]: where a member
    goes.  An absolute name replaces [out_dir].  A [..] in a name is kept
    as a part, which the disk of this model does not resolve. *)
Definition target (out_dir : path) (ffile : member) : path :=
  Tree.join out_dir (fst ffile).

(** [data_archive.extract(ffile, path=out_dir)]: the directories above the
    target are created, then the file is written or the directory made. *)
Definition extract (out_dir : path) (ffile : member) : M unit :=
  let dst := target out_dir ffile in
  do! mkdir_parents (parent dst) in
  match snd ffile with
  | RegFile data => write_file dst data
  | Directory => mkdir_exist_ok dst
  end.

Fixpoint extract_all (out_dir : path) (members : list member) : M unit :=
  match members with
  | [] => ret tt
  | ffile :: rest =>
      do! try_except (extract out_dir ffile) is_io_error
            (do! unlink (target out_dir ffile) in extract out_dir ffile) in
      extract_all out_dir rest
  end.

(** [download_tar] *)
Definition download_tar (url : string) (out_dir : path)
    (mode : option string) (force : bool) : M unit :=
  let! go := should_download force out_dir url in
  if negb go then ret tt
  else
    let! temp_file := download_file url None (Some []) false in
    do! mkdir_parents out_dir in
    let! data_archive := lift (tar_open mode (default [] temp_file)) in
    extract_all out_dir data_archive.

End Tar.

(** [require_data_path] *)
Fixpoint require_data_path (data_dirs : list path) : M unit :=
  match data_dirs with
  | [] => ret tt
  | data_dir :: rest =>
      let! e := path_exists data_dir in
      if negb e then raise NoDownloadedData
      else require_data_path rest
  end.

(** Modelled from the spec: the decorator form [@utils.require_data_path(dir)]
    which [jla/betoule14/_data_parsing.py] applies to its functions; the
    [_utils.py] of these sources only has the plain function above.  After
    the spec's "missing local data (explicit not downloaded signal)", a
    decorated function runs the check of [require_data_path] and then its
    body. *)
Definition requires_data {A} (data_dirs : list path) (body : M A) : M A :=
  do! require_data_path data_dirs in body.

End Fetch.

(** ** Reading files into tables

    Parsing text into numbers and columns is done by astropy, numpy and the
    Python runtime, not by the package: these are the parameters below.
    What the package decides (file names, column names, metadata keys, the
    order of checks) is written out. *)

Module Readers.

(** The keyword arguments of a [Table.read] call other than [names]. *)
Record read_opts : Type := mkOpts {
  format : string;
  data_start : option Z;
  data_end : option Z;
  comment : option string;
  delimiter : option string
}.

Definition ascii_opts : read_opts := mkOpts "ascii" None None None None.

Record parsers : Type := mkParsers {
  (** the data columns of a text table, in file order, and its comment
      lines *)
  ascii_parse : read_opts -> content -> res (list column * list string);
  (** [ascii.read(table, format='cds', readme=...)] *)
  cds_parse : content -> content -> res Table;
  (** [Table(fits.open(...)[0].data)] *)
  fits_parse : content -> res Table;
  (** [np.genfromtxt(path, dtype=str)] *)
  genfromtxt_str : content -> res (list string);
  (** [float(s)] and [int(s)] *)
  py_float : string -> res Q;
  py_int : string -> res Z
}.

Definition comments_meta (comments : list string) : gmap string metaval :=
  match comments with
  | [] => ∅
  | _ => {[ "comments" := MComments comments ]}
  end.

(** [Table.read(lines, names=names, ...)] on lines already in memory: the
    reader refuses a file whose number of columns differs from [names]. *)
Definition table_of_lines (P : parsers) (opts : read_opts)
    (lines : content) (names : list string) : res Table :=
  let? parsed := ascii_parse P opts lines in
  if Nat.eqb (length (fst parsed)) (length names)
  then Ok (mkTable (zip names (fst parsed)) (comments_meta (snd parsed)))
  else Raise InconsistentTableError.

(** [Table.read(path, names=names, ...)] *)
Definition table_read (P : parsers) (opts : read_opts)
    (p : path) (names : list string) : M Table :=
  let! lines := read_lines p in
  lift (table_of_lines P opts lines names).

(** [convert_to_jd(column)]: [np.vectorize] maps the scalar function over
    the column; without [otypes] it refuses an input of size zero. *)
Definition convert_to_jd_col (c : column) : res column :=
  let? dates := as_floats c in
  match dates with
  | [] => Raise (ValueError "cannot call `vectorize` on size 0 inputs")
  | _ => Ok (FloatCol (Utils.convert_to_jd_vec dates))
  end.

(** [f'{n:08d}'] *)
Definition fmt_08d (n : Z) : string :=
  let digits := pretty (Z.abs n) in
  let width := if (n <? 0)%Z then 7 else 8 in
  let pad := string_of_list_ascii
               (replicate (width - String.length digits) "0"%char) in
  String.append (if (n <? 0)%Z then "-" else "") (String.append pad digits).

End Readers.
Export Readers.

(** ** [sndata/essence/_narayan16.py] *)

Module Narayan16.

(** [_format_table] *)
Definition _format_table (data_table : Table) : res Table :=
  let out_table := empty_table in
  let out_table := with_meta out_table (meta data_table) in
  let? jd := getitem data_table "JD" in
  let? out_table := setitem out_table "time" jd in
  let? passband := getitem data_table "Passband" in
  let? bands := as_strs passband in
  let? out_table :=
    setitem out_table "band" (StrCol (map (String.append "csp_dr3_") bands)) in
  let? out_table := setitem out_table "zp" (full_int (len data_table) 25) in
  let? out_table := setitem out_table "zpsys" (full_str (len data_table) "ab") in
  let? flux := getitem data_table "Flux" in
  let? out_table := setitem out_table "flux" flux in
  let? hi := getitem data_table "Fluxerr_hi" in
  let? hi := as_floats hi in
  let? lo := getitem data_table "Fluxerr_lo" in
  let? lo := as_floats lo in
  let? err := max_cols hi lo in
  let? out_table := setitem out_table "fluxerr" (FloatCol err) in
  Ok out_table.

Definition band_names : list string :=
  ["essence_narayan16_R"; "essence_narayan16_I"].
Definition lambda_effective : list Z := [6440; 8050]%Z.
Definition zero_point : list Q := map (fun _ => 27.5%Q) band_names.

Section Release.

Variable P : parsers.
(** [self.data_dir] *)
Variable data_dir : path.

Definition _table_dir : path := child data_dir "vizier".
Definition _photometry_dir : path := child _table_dir "lcs".
Definition _filter_dir : path := child data_dir "filters".

(** [_get_available_ids] *)
Definition _get_available_ids : M (list string) :=
  do! Fetch.require_data_path [_photometry_dir] in
  let! files := glob _photometry_dir "*.dat" in
  let ids := map (fun f => first_field "." (name f)) files in
  ret (sorted ids).

(** Modelled from the spec: the public [get_available_ids] of the base class
    [DataRelease] ([sndata/_base.py], not among these sources).  The spec's
    standard retrieval interface lists the identifiers of a release; the
    public method is taken to return what the private one returns. *)
Definition get_available_ids : M (list string) := _get_available_ids.

Fixpoint meta_update (t : Table) (kvs : list (string * string)) : Table :=
  match kvs with
  | [] => t
  | (k, v) :: r => meta_update (meta_set t k (MStr v)) r
  end.

(** [_get_data_for_id] *)
Definition _get_data_for_id (obj_id : string) (format_table : bool)
    : M Table :=
  let! ids := get_available_ids in
  if negb (str_in obj_id ids) then raise InvalidObjId
  else
    let p := child _photometry_dir
               (String.append obj_id ".W6yr.clean.nn2.Wstd.dat") in
    let! data_table :=
      table_read P ascii_opts p
        ["Observation"; "MJD"; "Passband"; "Flux"; "Fluxerr_lo"; "Fluxerr_hi"] in
    let! mjd := lift (getitem data_table "MJD") in
    let! jd := lift (convert_to_jd_col mjd) in
    let! data_table := lift (setitem data_table "JD" jd) in
    let! infile := read_lines p in
    let keys := split_ws (lstrip "# " (infile !!! 0)) in
    let vals := split_ws (lstrip "# " (infile !!! 1)) in
    let data_table := meta_update data_table (zip keys vals) in
    let! popped := lift (meta_pop data_table "objid") in
    let data_table := meta_set (snd popped) "obj_id" (fst popped) in
    let! data_table := lift (meta_del data_table "comments") in
    if format_table then lift (_format_table data_table)
    else ret data_table.

End Release.

End Narayan16.

(** ** [sndata/des/_sn3yr.py] *)

Module SN3YR.

(** [_format_sncosmo_table] *)
Definition _format_sncosmo_table (data_table : Table) : res Table :=
  let out_table := empty_table in
  let out_table := with_meta out_table (meta data_table) in
  let? jd := getitem data_table "JD" in
  let? out_table := setitem out_table "time" jd in
  let? band := getitem data_table "BAND" in
  let? bands := as_strs band in
  let? out_table :=
    setitem out_table "band" (StrCol (map (String.append "des_sn3yr_") bands)) in
  let? flux := getitem data_table "FLUXCAL" in
  let? out_table := setitem out_table "flux" flux in
  let? fluxerr := getitem data_table "FLUXCALERR" in
  let? out_table := setitem out_table "fluxerr" fluxerr in
  let? out_table := setitem out_table "zp" (full_float (len data_table) 27.5) in
  let? out_table := setitem out_table "zpsys" (full_str (len data_table) "ab") in
  Ok out_table.

Definition band_names : list string :=
  ["des_sn3yr_g"; "des_sn3yr_r"; "des_sn3yr_i"; "des_sn3yr_z"; "des_sn3yr_y"].
Definition zero_point : list Q := map (fun _ => 27.5%Q) band_names.

Definition fitres_names : list string :=
  ["dummy_col"; "CID"; "CIDint"; "IDSURVEY"; "TYPE"; "FIELD";
   "CUTFLAG_SNANA"; "zHEL"; "zHELERR"; "zCMB"; "zCMBERR";
   "zHD"; "zHDERR"; "VPEC"; "VPECERR"; "HOST_LOGMASS";
   "HOST_LOGMASS_ERR"; "SNRMAX1"; "SNRMAX2"; "SNRMAX3";
   "PKMJD";
   "PKMJDERR"; "x1"; "x1ERR"; "c"; "cERR"; "mB"; "mBERR"; "x0";
   "x0ERR"; "COV_x1_c"; "COV_x1_x0"; "COV_c_x0"; "NDOF";
   "FITCHI2"; "FITPROB"; "RA"; "DECL"; "TGAPMAX"; "TrestMIN";
   "TrestMAX"; "MWEBV"; "m0obs_i"; "m0obs_r"; "em0obs_i";
   "em0obs_r";
   "MU"; "MUMODEL"; "MUERR"; "MUERR_RAW"; "MURES"; "MUPULL";
   "M0DIF";
   "ERRCODE"; "biasCor_mu"; "biasCorErr_mu"; "biasCor_mB";
   "biasCor_x1"; "biasCor_c"; "biasScale_muCOV"; "IDSAMPLE"].

Definition photometry_names : list string :=
  ["VARLIST:"; "MJD"; "BAND"; "FIELD"; "FLUXCAL"; "FLUXCALERR";
   "ZPFLUX"; "PSF"; "SKYSIG"; "GAIN"; "PHOTFLAG"; "PHOTPROB"].

Section Release.

Variable P : parsers.
Variable data_dir : path.

Definition _filter_dir : path := data_dir ++ ["01-FILTERS"; "DECam"].
Definition _photometry_dir : path :=
  data_dir ++ ["02-DATA_PHOTOMETRY"; "DES-SN3YR_DES"].
Definition _fits_dir : path := child data_dir "04-BBCFITS".

(** [_get_available_tables] *)
Definition _get_available_tables : M (list string) :=
  ret ["SALT2mu_DES+LOWZ_C11.FITRES"; "SALT2mu_DES+LOWZ_G10.FITRES"].

(** Modelled from the spec: the public [get_available_tables] and
    [get_available_ids] of the base class [DataRelease] ([sndata/_base.py],
    not among these sources).  The spec's standard retrieval interface lists
    the tables and identifiers of a release; the public methods are taken
    to return what the private ones return. *)
Definition get_available_tables : M (list string) := _get_available_tables.

(** [_load_table] *)
Definition _load_table (table_id : string) : M Table :=
  let! tables := get_available_tables in
  if negb (str_in table_id tables)
  then raise (ValueError (String.append "Table "
                            (String.append table_id " is not available.")))
  else
    let! data :=
      table_read P (mkOpts "ascii" (Some 4%Z) None (Some "#") None)
        (child _fits_dir table_id) fitres_names in
    lift (remove_column data "dummy_col").

(** [_get_available_ids] *)
Definition _get_available_ids : M (list string) :=
  let target_list_path := child _photometry_dir "DES-SN3YR_DES.LIST" in
  let! lines := read_lines target_list_path in
  let! file_list := lift (genfromtxt_str P lines) in
  ret (sorted (map (fun f => rstrip ".dat" (lstrip "des_" f)) file_list)).

Definition get_available_ids : M (list string) := _get_available_ids.

(** [float(lines[i].split()[j])] *)
Definition float_field (lines : content) (i j : nat) : res Q :=
  let? line := item lines i in
  let? field := item (split_ws line) j in
  py_float P field.

(** [_get_data_for_id] *)
Definition _get_data_for_id (obj_id : string) (format_table : bool)
    : M Table :=
  let! ids := get_available_ids in
  if negb (str_in obj_id ids) then raise InvalidObjId
  else
    let! n := lift (py_int P obj_id) in
    let file_path :=
      child _photometry_dir
        (String.append "des_" (String.append (fmt_08d n) ".dat")) in
    let! data :=
      table_read P (mkOpts "ascii" (Some 27%Z) (Some (-1)%Z) None None)
        file_path photometry_names in
    let! mjd := lift (getitem data "MJD") in
    let! jd := lift (convert_to_jd_col mjd) in
    let! data := lift (setitem data "JD" jd) in
    let! table_meta_data := read_lines file_path in
    let data := meta_set data "obj_id" (MStr obj_id) in
    let! ra := lift (float_field table_meta_data 7 1) in
    let data := meta_set data "ra" (MFloat ra) in
    let! dec := lift (float_field table_meta_data 8 1) in
    let data := meta_set data "dec" (MFloat dec) in
    let! z := lift (float_field table_meta_data 13 1) in
    let data := meta_set data "z" (MFloat z) in
    let! z_err := lift (float_field table_meta_data 13 3) in
    let data := meta_set data "z_err" (MFloat z_err) in
    let data := meta_set data "dtype" (MStr "photometric") in
    let! data := lift (meta_del data "comments") in
    if format_table then lift (_format_sncosmo_table data)
    else ret data.

End Release.

End SN3YR.

(** ** [sndata/csp/_dr1.py] *)

Module DR1.

(** The truth value of a generator object such as the one [Path.rglob]
    returns: the class defines neither [__bool__] nor [__len__], so the
    object is true whatever it would yield. *)
Definition generator_truth {A} (g : list A) : bool := true.

(** [float(comments[i].lstrip(label))] *)
Definition comment_float (P : parsers) (comments : list string) (i : nat)
    (label : string) : res Q :=
  let? line := item comments i in
  py_float P (lstrip label line).

(** [_read_file] *)
Definition _read_file (P : parsers) (p : path) : M (Q * Q * Table) :=
  let! data :=
    (if String.eqb (stem p) "SN07bc_070409_b01_BAA_IM" then
       let! data := table_read P ascii_opts p ["wavelength"; "flux"; "_"] in
       lift (remove_column data "_")
     else table_read P ascii_opts p ["wavelength"; "flux"]) in
  lift (
    let? file_comments :=
      match meta data !! "comments" with
      | Some (MComments l) => Ok l
      | Some _ => Raise IndexError
      | None => Raise (KeyError "comments")
      end in
    let? redshift := comment_float P file_comments 1 "Redshift: " in
    let? max_date := comment_float P file_comments 2 "JDate_of_max: " in
    let? obs_date := comment_float P file_comments 3 "JDate_of_observation: " in
    let? epoch := comment_float P file_comments 4 "Epoch: " in
    match split "_" (stem p) with
    | [_; _; w_range; telescope; instrument] =>
        let? data := setitem data "date" (full_float (len data) obs_date) in
        let? data := setitem data "epoch" (full_float (len data) epoch) in
        let? data :=
          setitem data "wavelength_range" (full_str (len data) w_range) in
        let? data := setitem data "telescope" (full_str (len data) telescope) in
        let? data :=
          setitem data "instrument" (full_str (len data) instrument) in
        let? date := getitem data "date" in
        let? jd := convert_to_jd_col date in
        let? data := setitem data "date" jd in
        Ok (max_date, redshift, data)
    | _ => Raise (ValueError "not enough values to unpack")
    end).

Section Release.

Variable P : parsers.
Variable _data_dir : path.

Definition _spectra_dir : path := _data_dir ++ ["spectra"; "CSP_spectra_DR1"].
Definition _table_dir : path := child _data_dir "tables".

(** [_get_available_ids] *)
Definition _get_available_ids : M (list string) :=
  do! Fetch.require_data_path [_spectra_dir] in
  let! files := glob _spectra_dir "SN*.dat" in
  let ids := map (fun f => String.append "20"
                             (lstrip "SN" (first_field "_" (name f)))) files in
  ret (sorted (set_of ids)).

(** [Table(names=[...], dtype=[...])]: seven columns and no row. *)
Definition new_out_table : Table :=
  mkTable [("date", FloatCol []); ("wavelength", FloatCol []);
           ("flux", FloatCol []); ("epoch", FloatCol []);
           ("wavelength_range", StrCol []); ("telescope", StrCol []);
           ("instrument", StrCol [])] ∅.

(** The [for path in files] loop.  The state is [out_table] and the local
    variable [redshift], which is unbound until the body has run once. *)
Fixpoint stack_files (files : list path) (out_table : Table)
    (redshift : option Q) : M (Table * option Q) :=
  match files with
  | [] => ret (out_table, redshift)
  | p :: rest =>
      let! r := _read_file P p in
      let! out_table := lift (vstack out_table (snd r)) in
      stack_files rest out_table (Some (snd (fst r)))
  end.

(** [_get_data_for_id] *)
Definition _get_data_for_id (obj_id : string) (format_table : bool)
    : M Table :=
  let out_table := new_out_table in
  let! files :=
    rglob _spectra_dir
      (String.append "SN" (String.append (drop_str 2 obj_id) "_*.dat")) in
  if negb (generator_truth files)
  then raise (ValueError (String.append "No data found for obj_id " obj_id))
  else
    let! st := stack_files files out_table None in
    let out_table := meta_set (fst st) "obj_id" (MStr obj_id) in
    let out_table := meta_set out_table "ra" MNone in
    let out_table := meta_set out_table "dec" MNone in
    let! redshift :=
      match snd st with
      | Some z => ret z
      | None => raise (UnboundLocalError "redshift")
      end in
    let out_table := meta_set out_table "z" (MFloat redshift) in
    let out_table := meta_set out_table "z_err" MNone in
    let! out_table := lift (meta_del out_table "comments") in
    if format_table then lift (rename_column out_table "date" "time")
    else ret out_table.

End Release.

End DR1.

(** ** [read_vizier_table_descriptions] of [sndata/_utils.py] *)

Module Vizier.

(** [s.strip()] *)
Definition strip (s : string) : string := rstrip whitespace (lstrip whitespace s).

Definition is_digit (a : ascii) : bool := chr_in a "0123456789".

(** [s.isdigit()] on ASCII text *)
Definition isdigit (s : string) : bool :=
  negb (String.eqb s "") && forallb is_digit (list_ascii_of_string s).

(** [int(s)] for a string of digits *)
Definition int_of_digits (s : string) : Z :=
  fold_left (fun acc a => (10 * acc + (Z.of_nat (nat_of_ascii a) - 48))%Z)
            (list_ascii_of_string s) 0%Z.

(** The keys of the returned dictionary are [int] or [str]. *)
Definition tkey : Type := Z + string.

(** One row of the file summary: the key and the start of the description. *)
Definition summary_row (line : string) : res (tkey * string) :=
  let line_list := split_ws line in
  let? first := item line_list 0 in
  let table_num := rstrip ".dat" (lstrip "table" first) in
  let key : tkey := if isdigit table_num then inl (int_of_digits table_num)
                    else inr table_num in
  Ok (key, String.concat " " (drop 3 line_list)).

(** The two nested [while] loops, entered after the first row was split:
    [rest] are the lines [next(ofile)] has still to deliver. *)
Fixpoint summary_rows (rest : content) (table_num : tkey)
    (table_desc : string) (table_descriptions : gmap tkey string)
    : res (gmap tkey string) :=
  match rest with
  | [] => Raise StopIteration
  | line :: rest' =>
      if startswith " " line
      then summary_rows rest' table_num
             (String.append table_desc (String.append " " (strip line)))
             table_descriptions
      else
        let table_descriptions := <[table_num := table_desc]> table_descriptions in
        if startswith "---" line then Ok table_descriptions
        else
          let? row := summary_row line in
          summary_rows rest' (fst row) (snd row) table_descriptions
  end.

Fixpoint skip_to_summary (lines : content) : res content :=
  match lines with
  | [] => Raise StopIteration
  | line :: rest =>
      if String.eqb (strip line) "File Summary:" then Ok rest
      else skip_to_summary rest
  end.

Definition read_vizier_table_descriptions (readme_path : path)
    : M (gmap tkey string) :=
  let! ofile := read_lines readme_path in
  lift (
    let? ofile := skip_to_summary ofile in
    match ofile with
    | _ :: _ :: _ :: _ :: line :: rest =>
        if startswith "---" line then Ok ∅
        else
          let? row := summary_row line in
          summary_rows rest (fst row) (snd row) ∅
    | _ => Raise StopIteration
    end).

End Vizier.

(** ** [lru_copy_cache] of [sndata/_utils.py]

    Python objects are mutable and are passed by reference, so the model
    has a heap: a reference is an index into the list of objects.  The
    wrapped function [f] computes from its arguments and from whatever
    state [E] it reads (files, globals) a newly built object, or raises.
    [functools.lru_cache] files the object under the key it builds from
    the arguments and keeps a reference to it; what [deepcopy] does
    depends on the object. *)

Module Cache.

(** What [copy.deepcopy(x)] does with an object: it builds a new object
    that shares nothing with [x] (lists, dicts and sets of plain data,
    arrays, astropy tables); or it returns [x] itself (functions, classes,
    modules, objects whose [__deepcopy__] returns [self]; also numbers and
    strings, which cannot be changed); or it raises [TypeError] (open
    files, generators, locks).  An object of which [deepcopy] rebuilds one
    part and keeps another (a list that holds a function) is counted with
    [Kept]: a change to the part that is kept reaches the original. *)
Inductive copy_kind : Type :=
| Copied
| Kept
| Refused.

Section WithFunction.

Context {A K V E : Type} `{EqDecision K}.
(** the decorated function, applied to the arguments of a call *)
Variable f : A -> E -> res V * E.
(** [functools._make_key(args, kwds, typed)] and its hash: the key a call
    is filed under, or nothing when an argument is not hashable.  Arguments
    that compare equal and hash alike give one key ([1] and [1.0], unless
    [typed]); one value passed by position and by keyword gives two. *)
Variable make_key : bool -> A -> option K.
Variable deepcopy_of : V -> copy_kind.

Record cstate : Type := mkCache {
  heap : list V;
  (** the entries of the cache, most recently used first *)
  entries : list (K * nat);
  env : E
}.

Definition initial (e : E) : cstate := mkCache [] [] e.

Fixpoint lookup_entry (k : K) (l : list (K * nat)) : option nat :=
  match l with
  | [] => None
  | (k', r) :: t => if decide (k' = k) then Some r else lookup_entry k t
  end.

(** a hit moves the entry to the front *)
Definition touch (k : K) (r : nat) (l : list (K * nat)) : list (K * nat) :=
  (k, r) :: filter (fun e => e.1 ≠ k) l.

(** a miss on a full cache drops the least recently used entry *)
Definition add_entry (maxsize : option nat) (k : K) (r : nat)
    (l : list (K * nat)) : list (K * nat) :=
  match maxsize with
  | None => (k, r) :: l
  | Some n => if decide (n <= length l) then (k, r) :: removelast l
              else (k, r) :: l
  end.

(** Running [f] and allocating the object it returns. *)
Definition call_user (a : A) (st : cstate) : res (V * nat) * cstate :=
  match f a (env st) with
  | (Ok v, e') => (Ok (v, length (heap st)),
                   mkCache (heap st ++ [v]) (entries st) e')
  | (Raise ex, e') => (Raise ex, mkCache (heap st) (entries st) e')
  end.

(** [functools.lru_cache(maxsize, typed)(f)]: [maxsize] is [None] for an
    unbounded cache.  With [maxsize] zero the wrapper calls [f] and builds
    no key; otherwise it builds the key first, and an argument that is not
    hashable raises [TypeError] before [f] runs.  A call that raises is not
    cached. *)
Definition cached_func (maxsize : option nat) (typed : bool) (a : A)
    (st : cstate) : res nat * cstate :=
  match maxsize with
  | Some 0 =>
      match call_user a st with
      | (Ok (_, r), st') => (Ok r, st')
      | (Raise ex, st') => (Raise ex, st')
      end
  | _ =>
      match make_key typed a with
      | None => (Raise (TypeError "unhashable type"), st)
      | Some k =>
          match lookup_entry k (entries st) with
          | Some r =>
              (Ok r, mkCache (heap st)
                       (match maxsize with
                        | None => entries st
                        | Some _ => touch k r (entries st)
                        end) (env st))
          | None =>
              match call_user a st with
              | (Ok (_, r), st') =>
                  (Ok r, mkCache (heap st')
                           (add_entry maxsize k r (entries st')) (env st'))
              | (Raise ex, st') => (Raise ex, st')
              end
          end
      end
  end.

(** [deepcopy(x)] *)
Definition deepcopy (r : nat) (st : cstate) : res nat * cstate :=
  match heap st !! r with
  | Some v =>
      match deepcopy_of v with
      | Copied => (Ok (length (heap st)),
                   mkCache (heap st ++ [v]) (entries st) (env st))
      | Kept => (Ok r, st)
      | Refused => (Raise (TypeError "cannot pickle object"), st)
      end
  | None => (Raise (RuntimeError "dangling reference"), st)
  end.

(** [lru_copy_cache(maxsize, typed, copy)(f)] *)
Definition lru_copy_cache (maxsize : option nat) (typed copy : bool) (a : A)
    (st : cstate) : res nat * cstate :=
  if negb copy then cached_func maxsize typed a st
  else
    match cached_func maxsize typed a st with
    | (Ok r, st') => deepcopy r st'
    | (Raise ex, st') => (Raise ex, st')
    end.

(** What a caller can do: call the decorated function, or change an object
    that an earlier call returned to it ([Mutate i v] overwrites the object
    returned by the [i]-th successful call). *)
Inductive op : Type :=
| Call (a : A)
| Mutate (i : nat) (v : V).



Record session : Type := mkSession {
  st : cstate;
  (** the references handed out so far *)
  held : list nat;
  (** for each successful call, its arguments and the value it returned,
      read when the call returned *)
  seen : list (A * V)
}.

Definition step (maxsize : option nat) (typed copy : bool) (s : session)
    (o : op) : session :=
  match o with
  | Call a =>
      match lru_copy_cache maxsize typed copy a (st s) with
      | (Ok r, st') =>
          match heap st' !! r with
          | Some v => mkSession st' (held s ++ [r]) (seen s ++ [(a, v)])
          | None => mkSession st' (held s ++ [r]) (seen s)
          end
      | (Raise _, st') => mkSession st' (held s) (seen s)
      end
  | Mutate i v =>
      match held s !! i with
      | Some r =>
          mkSession (mkCache (<[r := v]> (heap (st s))) (entries (st s))
                       (env (st s)))
                    (held s) (seen s)
      | None => s
      end
  end.

Definition start (e : E) : session := mkSession (initial e) [] [].

Definition run (maxsize : option nat) (typed copy : bool) (e : E)
    (ops : list op) : session :=
  fold_left (step maxsize typed copy) ops (start e).


(** *** Conditions and invariants used by the proofs below *)





End WithFunction.

End Cache.

(** ** [sndata/jla/betoule14/_data_parsing.py]

    The functions of this module are decorated with
    [@utils.require_data_path(...)]: see [Fetch.requires_data]. *)

Module Betoule14.

Section Release.

Variable P : parsers.
(** [meta.table_dir], [meta.photometry_dir] *)
Variable table_dir : path.
Variable photometry_dir : path.

(** [get_available_tables] *)
Definition get_available_tables : M (list string) :=
  Fetch.requires_data [table_dir] (
  let! dat_file_list := glob table_dir "table*.dat" in
  let! fits_file_list := glob table_dir "table*.fit" in
  let file_list := dat_file_list ++ fits_file_list in
  ret (sorted (map (fun f => last_str 2 (rstrip ".datfit" (path_str f)))
                   file_list))).

Definition not_available (table_id : string) : exn :=
  ValueError (String.append "Table "
                (String.append table_id " is not available.")).

(** [load_table.__wrapped__]: the function as written, under its data
    guard and below the cache *)
Definition load_table_wrapped (table_id : string) : M Table :=
  Fetch.requires_data [table_dir] (
  let! tables := get_available_tables in
  if negb (str_in table_id tables) then raise (not_available table_id)
  else if String.eqb table_id "f2" then
    let! hdulist :=
      read_lines (child table_dir
                    (String.append "table" (String.append table_id ".fit"))) in
    let! data := lift (fits_parse P hdulist) in
    ret (meta_set data "description"
           (MStr "Covariance matrix of the binned distance modulus"))
  else
    let readme_path := child table_dir "ReadMe" in
    let table_path :=
      child table_dir (String.append "table" (String.append table_id ".dat")) in
    let! tables := get_available_tables in
    if negb (str_in table_id tables) then raise (not_available table_id)
    else
      let! table_lines := read_lines table_path in
      let! readme_lines := read_lines readme_path in
      let! data := lift (cds_parse P readme_lines table_lines) in
      let! description_dict :=
        Vizier.read_vizier_table_descriptions readme_path in
      match description_dict !! (inr table_id : Vizier.tkey) with
      | Some d => ret (meta_set data "description" (MStr d))
      | None => raise (KeyError table_id)
      end).

(** The cache of [load_table]: tables filed under the table id (a string is
    hashable and is its own key), each an astropy [Table], which
    [deepcopy] copies in full.  The world the function runs in is the
    environment of the cache state. *)
Definition table_cache : Type :=
  Cache.cstate (K:=string) (V:=Table) (E:=world).
Definition table_key (typed : bool) (table_id : string) : option string :=
  Some table_id.
Definition table_copy (t : Table) : Cache.copy_kind := Cache.Copied.

(** [load_table]: the function above under
    [@utils.lru_copy_cache(maxsize=None)].  The decorator is applied above
    the data guard, so a call with a table id that is in the cache is
    answered from the cache: it reaches neither the guard nor the files. *)
Definition load_table (table_id : string) (c : table_cache)
    : res Table * table_cache :=
  match Cache.lru_copy_cache load_table_wrapped table_key table_copy
          None false true table_id c with
  | (Ok r, c') =>
      (match Cache.heap c' !! r with
       | Some t => Ok t
       | None => Raise (RuntimeError "dangling reference")
       end, c')
  | (Raise e, c') => (Raise e, c')
  end.

(** [get_available_ids] *)
Definition get_available_ids : M (list string) :=
  Fetch.requires_data [photometry_dir] (
  let! file_list := glob photometry_dir "*.list" in
  ret (sorted (map (fun f => drop_last_str 5 (last_field "-" (path_str f)))
                   file_list))).

(** The [while line.startswith('@')] loop over [readline]: it returns the
    dictionary and the lines left in the file.  The line that ends the loop
    has been read, so it is not among them. *)
Fixpoint read_header (lines : content) (meta_data : gmap string string)
    : res (gmap string string * content) :=
  match lines with
  | [] => Ok (meta_data, [])
  | line :: rest =>
      if startswith "@" line then
        let split_line := split " " (lstrip "@" line) in
        let? k := item split_line 0 in
        let? v := item split_line 1 in
        read_header rest (<[k := v]> meta_data)
      else Ok (meta_data, rest)
  end.

Definition rename_all (t : Table) (pairs : list (string * string)) : res Table :=
  fold_left (fun acc p => let? t := acc in rename_column t (fst p) (snd p))
            pairs (Ok t).

(** [get_data_for_id] *)
Definition get_data_for_id (obj_id : string) (format_table : bool) : M Table :=
  Fetch.requires_data [photometry_dir] (
  let! ids := get_available_ids in
  if negb (str_in obj_id ids) then raise InvalidObjId
  else
    let p := child photometry_dir
               (String.append "lc-" (String.append obj_id ".list")) in
    let! infile := read_lines p in
    let! header := lift (read_header infile ∅) in
    let meta_data := fst header in
    let names := ["Date"; "Flux"; "Fluxerr"; "ZP"; "Filter"; "MagSys"] in
    let! out_table :=
      lift (table_of_lines P
              (mkOpts "ascii.csv" None None (Some "#|@") (Some " "))
              (snd header) names) in
    let! out_table :=
      (if format_table then
         lift (
           let? out_table :=
             rename_all out_table
               [("Date", "time"); ("Flux", "flux"); ("Fluxerr", "fluxerr");
                ("Filter", "band"); ("ZP", "zp"); ("MagSys", "zpsys")] in
           let? time := getitem out_table "time" in
           let? jd := convert_to_jd_col time in
           setitem out_table "time" jd)
       else ret out_table) in
    let out_table := meta_set out_table "obj_id" (MStr obj_id) in
    let out_table := meta_set out_table "ra" MNone in
    let out_table := meta_set out_table "dec" MNone in
    let! z := lift (match meta_data !! "Z_HELIO" with
                    | Some v => py_float P v
                    | None => Raise (KeyError "Z_HELIO")
                    end) in
    let out_table := meta_set out_table "z" (MFloat z) in
    let out_table := meta_set out_table "z_err" MNone in
    let out_table :=
      meta_set out_table "comments"
        (MStr "z represents the heliocentric redshift") in
    ret out_table).

End Release.

End Betoule14.

(** ** The older modules [SNData/csp/dr3/_data_parsing.py] and
    [SNData/csp/dr1/_data_download.py] *)

Module OldCSP.

Definition not_downloaded : exn :=
  RuntimeError
    "Data has not been downloaded for this survey. Please run the ``download_data`` function.".

(** The truth value of a bound method object such as [table_path.exists]
    (the attribute, not a call of it): always true. *)
Definition bound_method_truth : bool := true.

Section Release.

Variable P : parsers.
(** [meta.data_dir], [meta.table_dir], [meta.photometry_dir] *)
Variable data_dir : path.
Variable table_dir : path.
Variable photometry_dir : path.

(** [dr3._check_for_data] *)
Definition _check_for_data : M unit :=
  let! e := path_exists data_dir in
  if negb e then raise not_downloaded else ret tt.

(** [dr1.data_is_available] and [dr1._raise_for_data] *)
Definition data_is_available : M bool := path_exists data_dir.

Definition _raise_for_data : M unit :=
  let! e := data_is_available in
  if negb e then raise not_downloaded else ret tt.

(** [dr3.load_table]; [table_num] as it is formatted into the file name. *)
Definition load_table (table_num : string) : M Table :=
  do! _check_for_data in
  let readme_path := child table_dir "ReadMe" in
  let table_path :=
    child table_dir (String.append "table" (String.append table_num ".dat")) in
  if negb bound_method_truth
  then raise (ValueError (String.append "Table "
                            (String.append table_num " is not available.")))
  else
    let! table_lines := read_lines table_path in
    let! readme_lines := read_lines readme_path in
    lift (cds_parse P readme_lines table_lines).

(** [dr3.get_obj_ids] *)
Definition get_obj_ids : M (list string) :=
  do! _check_for_data in
  let! files := glob_glob photometry_dir "*.txt" in
  ret (map (fun f => lstrip "SN" (first_field "_" (name f))) files).

End Release.

End OldCSP.

(** ** [find_and_create_data_dir] of [sndata/_utils.py]

    [sndata_dir] is the resolved value of the environment variable
    [SNDATA_DIR] when it is set, [package_dir] the resolved directory of the
    module file. *)

Module DataDir.

Definition safe_name (s : string) : string :=
  Tree.replace_char " " "_" (Tree.lower s).

Definition data_dir_of (sndata_dir : option path) (package_dir : path)
    (survey_abbrev release : string) : path :=
  let safe_survey := safe_name survey_abbrev in
  let safe_release := safe_name release in
  let base_dir := match sndata_dir with
                  | Some d => d
                  | None => Tree.join package_dir "data"
                  end in
  Tree.join (Tree.join base_dir safe_survey) safe_release.

Definition find_and_create_data_dir (sndata_dir : option path)
    (package_dir : path) (survey_abbrev release : string) : M path :=
  let data_dir := data_dir_of sndata_dir package_dir survey_abbrev release in
  do! mkdir_parents data_dir in
  ret data_dir.

End DataDir.

(** ** [SN3YR.download_module_data] of [sndata/des/_sn3yr.py] *)

Module SN3YRDownload.

Section Release.

Variable tar_open : option string -> content -> res (list Fetch.member).
Variable data_dir : path.

Definition des_url : string :=
  "http://desdr-server.ncsa.illinois.edu/despublic/sn_files/y3/tar_files/".
Definition _filter_url : string := String.append des_url "01-FILTERS.tar.gz".
Definition _photometry_url : string :=
  String.append des_url "02-DATA_PHOTOMETRY.tar.gz".
Definition _fits_url : string := String.append des_url "04-BBCFITS.tar.gz".

(** One of the three blocks: the test, the message, and [download_tar]
    called without [force]. *)
Definition fetch_block (force : bool) (dir : path) (url msg : string)
    : M unit :=
  let! go := Fetch.should_download force dir url in
  if go then
    do! print msg in
    Fetch.download_tar tar_open url data_dir (Some "r:gz") false
  else ret tt.

Definition download_module_data (force : bool) : M unit :=
  do! fetch_block force (SN3YR._filter_dir data_dir) _filter_url
        "Downloading filters..." in
  do! fetch_block force (SN3YR._photometry_dir data_dir) _photometry_url
        "Downloading photometry..." in
  fetch_block force (SN3YR._fits_dir data_dir) _fits_url
    "Downloading Light-Curve Fits...".

End Release.

End SN3YRDownload.

(** ** The older [SNData/_utils.py] and the download modules built on it *)

Module OldUtils.

(** What [download_file] is given as [out_file]: a path (a [str] or a
    [PosixPath]) or an open file, here the contents of a temporary file. *)
Inductive out_file : Type :=
| ToPath (p : path)
| ToFile (buf : content).

(** [download_file]; it returns the new contents of the open file. *)
Definition download_file (url : string) (out : out_file) : M (option content) :=
  do! print (String.append "Fetching " url) in
  let! response := requests_get url in
  do! raise_for_status response in
  match out with
  | ToPath p =>
      do! mkdir_parents (parent p) in
      do! write_file p (snd response) in
      ret None
  | ToFile buf => ret (Some (buf ++ snd response))
  end.

Section Tar.

Variable tar_open : option string -> content -> res (list Fetch.member).

(** [data.extractall(out_dir)] *)
Fixpoint extractall (out_dir : path) (members : list Fetch.member)
    : M unit :=
  match members with
  | [] => ret tt
  | m :: rest => do! Fetch.extract out_dir m in extractall out_dir rest
  end.

(** [download_tar] *)
Definition download_tar (url : string) (out_dir : path)
    (mode : option string) : M unit :=
  do! mkdir_parents out_dir in
  let! ofile := download_file url (ToFile []) in
  let! data := lift (tar_open mode (default [] ofile)) in
  extractall out_dir data.

End Tar.

End OldUtils.

(** [SNData/csp/dr1/_data_download.py] *)
Module OldCSPDownload.

Section Release.

Variable tar_open : option string -> content -> res (list Fetch.member).
(** [meta.data_dir], [meta.table_dir], [meta.spectra_dir] and the urls *)
Variable data_dir table_dir spectra_dir : path.
Variable table_url spectra_url : string.

Definition download_module_data : M unit :=
  let! have_tables := path_exists table_dir in
  do! (if negb have_tables then
         do! print "Downloading data tables..." in
         OldUtils.download_tar tar_open table_url table_dir (Some "r:gz")
       else ret tt) in
  let! have_spectra := path_exists spectra_dir in
  if negb have_spectra then
    do! print "Downloading spectra..." in
    OldUtils.download_tar tar_open spectra_url data_dir (Some "r:gz")
  else ret tt.

Definition delete_module_data : M unit := Tree.rmtree data_dir.

End Release.

End OldCSPDownload.

(** [SNData/essence/narayan16/_data_download.py] *)
Module OldEssenceDownload.

Section Release.

Variable tar_open : option string -> content -> res (list Fetch.member).
(** [meta.data_dir], [meta.vizier_dir], [meta.filter_dir] and the urls *)
Variable data_dir vizier_dir filter_dir : path.
Variable table_url i_filter_url r_filter_url : string.

Definition download_module_data (force : bool) : M unit :=
  let! tables_wanted :=
    (if force then ret true
     else let! e := path_exists vizier_dir in ret (negb e)) in
  do! (if tables_wanted then
         do! print "Downloading tables and photometry..." in
         OldUtils.download_tar tar_open table_url vizier_dir (Some "r:gz")
       else ret tt) in
  let! filters_wanted :=
    (if force then ret true
     else let! e := path_exists filter_dir in ret (negb e)) in
  if filters_wanted then
    do! print "Downloading tables and photometry..." in
    do! OldUtils.download_file i_filter_url
          (OldUtils.ToPath (child filter_dir "I_band.dat")) in
    do! OldUtils.download_file r_filter_url
          (OldUtils.ToPath (child filter_dir "R_band.dat")) in
    ret tt
  else ret tt.

Definition is_file_not_found (e : exn) : bool :=
  match e with FileNotFoundError => true | _ => false end.

Definition delete_module_data : M unit :=
  try_except (Tree.rmtree data_dir) is_file_not_found (ret tt).

End Release.

End OldEssenceDownload.

(** [SNData/des/sn3yr/_data_download.py] *)
Module OldDESDownload.

Section Release.

Variable tar_open : option string -> content -> res (list Fetch.member).
(** [meta.data_dir], [meta.filter_dir], [meta.photometry_dir],
    [meta.fits_dir] and the urls *)
Variable data_dir filter_dir photometry_dir fits_dir : path.
Variable filter_url photometry_url fits_url : string.

Definition fetch_block (dir : path) (url msg : string) : M unit :=
  let! e := path_exists dir in
  if negb e then
    do! print msg in
    OldUtils.download_tar tar_open url data_dir (Some "r:gz")
  else ret tt.

Definition download_module_data : M unit :=
  do! fetch_block filter_dir filter_url "Downloading filters..." in
  do! fetch_block photometry_dir photometry_url "Downloading photometry..." in
  fetch_block fits_dir fits_url "Downloading Light-Curve Fits...".

Definition delete_module_data : M unit :=
  try_except (Tree.rmtree data_dir) OldEssenceDownload.is_file_not_found
    (ret tt).

End Release.

End OldDESDownload.

(** ** What the error and skip claims speak about *)

Module Signals.


(** [op] returns normally and leaves the disk as it was. *)
Definition skips {A} (op : M A) (w : world) : Prop :=
  exists a w', op w = (Ok a, w') /\ fs w' = fs w.

Definition is_request (ev : event) : bool :=
  match ev with EGet _ => true | _ => false end.

(** [op] returns normally, leaves the disk as it was and sends no request. *)
Definition skips_without_request {A} (op : M A) (w : world) : Prop :=
  exists a w' evs, op w = (Ok a, w') /\ fs w' = fs w /\
                   trace w' = trace w ++ evs /\
                   forallb (fun ev => negb (is_request ev)) evs = true.

End Signals.
Export Signals.

(** ** Concrete worlds

    A small reader for whitespace separated tables and small disks, used to
    run the definitions above on concrete inputs. *)

Module Demo.

Local Open Scope Q_scope.

Definition float_of (s : string) : res Q :=
  if Vizier.isdigit s then Ok (inject_Z (Vizier.int_of_digits s))
  else Raise (ValueError "could not convert string to float").

Definition int_of (s : string) : res Z :=
  if Vizier.isdigit s then Ok (Vizier.int_of_digits s)
  else Raise (ValueError "invalid literal for int()").

Definition is_comment (line : string) : bool :=
  startswith "#" line || startswith "@" line.

(** the [j]-th field of every row; [None] if a row is too short *)
Definition field_column (rows : list (list string)) (j : nat)
    : option (list string) :=
  mapM (fun row => row !! j) rows.

Definition typed_column (fields : list string) : column :=
  if forallb Vizier.isdigit fields
  then FloatCol (map (fun s => inject_Z (Vizier.int_of_digits s)) fields)
  else StrCol fields.

Definition demo_ascii (opts : read_opts) (lines : content)
    : res (list column * list string) :=
  let body := match data_start opts with
              | Some n => drop (Z.to_nat n) lines
              | None => lines
              end in
  let body := match data_end opts with
              | Some _ => removelast body
              | None => body
              end in
  let rows := map split_ws (filter (fun l => negb (is_comment l)) body) in
  let comments := map (lstrip "# ")
                      (filter (fun l => startswith "#" l) lines) in
  let width := match rows with [] => 0%nat | r :: _ => length r end in
  match mapM (field_column rows) (seq 0%nat width) with
  | Some cols => Ok (map typed_column cols, comments)
  | None => Raise InconsistentTableError
  end.

Definition demo_parsers : parsers :=
  mkParsers demo_ascii
    (fun _ lines => Ok (mkTable [("line", StrCol lines)] ∅))
    (fun lines => Ok (mkTable [("row", StrCol lines)] ∅))
    (fun lines => Ok (flat_map split_ws lines))
    float_of int_of.

Definition offline : string -> response := fun _ => Unreachable.

Definition root : path := ["data"].

(** *** ESSENCE *)
Definition essence_dir : path := Narayan16._photometry_dir root.

Definition essence_world : world :=
  mkWorld
    [(root, Dir); (Narayan16._table_dir root, Dir); (essence_dir, Dir);
     (child essence_dir "b010.W6yr.clean.nn2.Wstd.dat",
      File ["# objid ra dec z z_err"; "# b010 10 20 1 0";
            "1 53000 R 5 1 2"; "2 53001 I 6 3 1"] false)]
    offline [].

(** a table as [_get_data_for_id] passes it to the formatter *)
Definition essence_raw : Table :=
  mkTable
    [("Observation", FloatCol [1; 2]); ("MJD", FloatCol [53000; 53001]);
     ("Passband", StrCol ["R"; "I"]); ("Flux", FloatCol [5; 6]);
     ("Fluxerr_lo", FloatCol [1; 3]); ("Fluxerr_hi", FloatCol [2; 1]);
     ("JD", FloatCol [2453000.5; 2453001.5])]
    {[ "obj_id" := MStr "b010" ]}.

Definition essence_formatted : Table :=
  mkTable
    [("time", FloatCol [2453000.5; 2453001.5]);
     ("band", StrCol ["csp_dr3_R"; "csp_dr3_I"]);
     ("zp", IntCol [25; 25]%Z); ("zpsys", StrCol ["ab"; "ab"]);
     ("flux", FloatCol [5; 6]); ("fluxerr", FloatCol [2; 3])]
    {[ "obj_id" := MStr "b010" ]}.

(** *** DES *)
Definition des_dir : path := SN3YR._photometry_dir root.

Definition des_file : content :=
  ["SURVEY: DES"; "SNID: 1248677"; "IAUC: UNKNOWN"; "FILTERS: griz";
   "PIXSIZE: 0"; "NXPIX: -9"; "NYPIX: -9";
   "RA: 42 deg"; "DECL: 0 deg"; "MWEBV: 0"; "#"; "# redshifts"; "#";
   "REDSHIFT_HELIO: 0 +- 1"]
  ++ replicate 13%nat "#"
  ++ ["OBS: 56534 g X3 10 2 31 2 40 1 0 1"; "END:"].

Definition des_world : world :=
  mkWorld
    [(root, Dir); (des_dir, Dir);
     (child des_dir "DES-SN3YR_DES.LIST", File ["des_01248677.dat"] false);
     (child des_dir "des_01248677.dat", File des_file false)]
    offline [].

(** *** JLA *)
Definition jla_tables : path := root ++ ["tables"].
Definition jla_photometry : path := root ++ ["photometry"].

Definition jla_world : world :=
  mkWorld
    [(root, Dir); (jla_tables, Dir); (jla_photometry, Dir);
     (child jla_photometry "lc-SN2005el.list",
      File ["@SN 2005el"; "@Z_HELIO 0"; "#Date :"; "#end :";
            "53000 10 1 27 B VEGA"] false)]
    offline [].

(** *** CSP DR1 *)
Definition csp_dir : path := DR1._spectra_dir root.

Definition csp_world : world :=
  mkWorld
    [(root, Dir); (root ++ ["spectra"], Dir); (csp_dir, Dir);
     (child csp_dir "SN05el_051001_b01_DUP_WF.dat",
      File ["# SN05el"; "# Redshift: 0"; "# JDate_of_max: 2453647";
            "# JDate_of_observation: 2453645"; "# Epoch: 2";
            "3800 1"; "3802 2"] false)]
    offline [].

(** *** The older CSP DR3 module *)
Definition old_tables : path := root ++ ["tables"].
Definition old_photometry : path := root ++ ["photometry"].

Definition old_world : world :=
  mkWorld
    [(root, Dir); (old_tables, Dir);
     (child old_tables "ReadMe", File ["File Summary:"] false);
     (child old_tables "table1.dat", File ["1 2"] false);
     (old_photometry, Dir);
     (child old_photometry "SN2005el_snpy.txt", File [] false);
     (child old_photometry "SN2004dt_snpy.txt", File [] false)]
    offline [].

(** *** ESSENCE with two files for one object *)
Definition essence_twice_world : world :=
  mkWorld
    [(root, Dir); (Narayan16._table_dir root, Dir); (essence_dir, Dir);
     (child essence_dir "b010.W6yr.clean.nn2.Wstd.dat", File [] false);
     (child essence_dir "b010.W6yr.raw.dat", File [] false)]
    offline [].


(** a function that builds the same object for the same key *)
Definition constant (k : string) (u : unit) : res (list string) * unit :=
  (Ok [k], u).

(** the key of a call with one string as its argument *)
Definition str_key (typed : bool) (a : string) : option string := Some a.

(** the key of a call with one number, written as text: [1] and [1.0] are
    equal and hash alike, so they share a key unless [typed] *)
Definition num_key (typed : bool) (a : string) : option string :=
  Some (if typed then a else first_field "." a).

(** results that [deepcopy] copies in full, and results it returns as they
    are *)
Definition copied {V : Type} (v : V) : Cache.copy_kind := Cache.Copied.

(** a disk on which nothing was downloaded *)
Definition empty_world : world := mkWorld [] offline [].

End Demo.

(** ** Predicates used to state properties of the readers *)

Module Props.

(** a key as [read_vizier_table_descriptions] builds it: an [int], or a
    string that is not a number *)
Definition key_ok (k : Vizier.tkey) : Prop :=
  match k with
  | inl _ => True
  | inr s => Vizier.isdigit s = false
  end.

(** no table number written in digits is a [str] key *)
Definition no_digit_str_key (d : gmap Vizier.tkey string) : Prop :=
  forall s, Vizier.isdigit s = true -> d !! (inr s : Vizier.tkey) = None.

(** the rows of a file summary after its first: the lines up to the closing
    rule that do not continue a description *)
Fixpoint rows_of (rest : content) : content :=
  match rest with
  | [] => []
  | line :: rest' =>
      if startswith " " line then rows_of rest'
      else if startswith "---" line then []
      else line :: rows_of rest'
  end.

(** the rows of the file summary that [read_vizier_table_descriptions]
    stores: those from the fifth line after the heading on *)
Definition file_rows (lines : content) : content :=
  match Vizier.skip_to_summary lines with
  | Ok (_ :: _ :: _ :: _ :: line :: rest) =>
      if startswith "---" line then [] else line :: rows_of rest
  | _ => []
  end.

(** the table number in the first field of a row *)
Definition table_num_of (first : string) : string :=
  rstrip ".dat" (lstrip "table" first).

(** every directory of [f] is a directory of [f'] *)
Definition dirs_kept (f f' : list (path * node)) : Prop :=
  forall q, lookup_fs q f = Some Dir -> lookup_fs q f' = Some Dir.

(** every entry of [f] is an entry of [f'], unchanged *)
Definition entries_kept (f f' : list (path * node)) : Prop :=
  forall q n, lookup_fs q f = Some n -> lookup_fs q f' = Some n.

(** every entry of [f] except the one at [p] is an entry of [f'],
    unchanged, and every directory of [f] is a directory of [f'] *)
Definition kept_except (p : path) (f f' : list (path * node)) : Prop :=
  (forall q n, q <> p -> lookup_fs q f = Some n -> lookup_fs q f' = Some n) /\
  dirs_kept f f'.

(** however [m] ends, the disk it leaves is related by [R] to the disk it
    found *)
Definition preserves {A} (R : list (path * node) -> list (path * node) -> Prop)
    (m : M A) : Prop :=
  forall w r w', m w = (r, w') -> R (fs w) (fs w').

(** [m] never removes or replaces a directory, however it ends *)
Definition keeps_dirs {A} (m : M A) : Prop := preserves dirs_kept m.

(** no table id written in digits only is in the cache of [load_table] *)
Definition no_digit_cached (c : Betoule14.table_cache) : Prop :=
  forall k r, (k, r) ∈ Cache.entries c -> Vizier.isdigit k = false.

(** what [safe_name] does to one character: lower case, and an underscore
    for a space *)
Definition safe_char (a : ascii) : ascii :=
  if Ascii.eqb (Tree.lower_char a) " " then "_"%char else Tree.lower_char a.

(** one turn of the loop of [download_tar] *)
Definition extract_retry (out_dir : path) (ffile : Fetch.member) : M unit :=
  try_except (Fetch.extract out_dir ffile) Fetch.is_io_error
    (do! unlink (Fetch.target out_dir ffile) in Fetch.extract out_dir ffile).

(** the member [ffile] is on the disk [f] below [out_dir]: its file with
    its data, or something at the place of its directory *)
Definition unpacked (out_dir : path) (f : list (path * node))
    (ffile : Fetch.member) : Prop :=
  match snd ffile with
  | Fetch.RegFile data =>
      lookup_fs (Fetch.target out_dir ffile) f = Some (File data false)
  | Fetch.Directory => exists_in f (Fetch.target out_dir ffile) = true
  end.

(** a member name that the disk of this model reads as the real disk
    does: no part of it is [..] *)
Definition plain_name (name : string) : Prop := ".." ∉ Tree.parts name.

Definition is_print (ev : event) : bool :=
  match ev with EPrint _ => true | _ => false end.

End Props.
Export Props.

(** ** More concrete inputs *)

Module Demo2.

Local Open Scope Q_scope.

(** a table as [SN3YR._get_data_for_id] passes it to the formatter *)
Definition des_raw : Table :=
  mkTable
    [("MJD", FloatCol [56534; 56535]); ("BAND", StrCol ["g"; "z"]);
     ("FLUXCAL", FloatCol [10; 11]); ("FLUXCALERR", FloatCol [2; 3]);
     ("JD", FloatCol [2456534.5; 2456535.5])]
    {[ "obj_id" := MStr "01248677" ]}.

Definition des_formatted : Table :=
  mkTable
    [("time", FloatCol [2456534.5; 2456535.5]);
     ("band", StrCol ["des_sn3yr_g"; "des_sn3yr_z"]);
     ("flux", FloatCol [10; 11]); ("fluxerr", FloatCol [2; 3]);
     ("zp", FloatCol [27.5; 27.5]); ("zpsys", StrCol ["ab"; "ab"])]
    {[ "obj_id" := MStr "01248677" ]}.

(** *** JLA tables with a ReadMe *)
Definition readme : content :=
  ["J/A+A/568/A22    JLA"; "";
   "File Summary:";
   "--------------------------------------------";
   " FileName      Lrecl  Records   Explanations";
   "--------------------------------------------";
   "ReadMe            80        .   This file";
   "table10.dat       10        5   Light curve";
   "                                parameters";
   "tablef1.dat       10        5   Covariance";
   "--------------------------------------------"].

Definition jla_tables_world : world :=
  mkWorld
    [(Demo.root, Dir); (Demo.jla_tables, Dir);
     (child Demo.jla_tables "ReadMe", File readme false);
     (child Demo.jla_tables "table10.dat", File ["1 2"] false);
     (child Demo.jla_tables "tablef1.dat", File ["3 4"] false)]
    Demo.offline [].

(** a ReadMe without a file summary *)
Definition bare_readme_world : world :=
  mkWorld
    [(Demo.root, Dir); (Demo.jla_tables, Dir);
     (child Demo.jla_tables "ReadMe", File ["J/A+A/568/A22    JLA"] false)]
    Demo.offline [].

(** *** A JLA light curve *)
Definition jla_lines : content :=
  ["@SN 2005el"; "@Z_HELIO 0"; "#Date :"; "#end :"; "53000 10 1 27 B VEGA"].

(** *** A server that answers *)
Definition server (url : string) : response :=
  if String.eqb url "http://example.org/R_band.dat"
  then Reply true ["4000 0.1"; "5000 0.9"]
  else if String.eqb url "http://example.org/lcs.tar.gz"
  then Reply true ["archive"]
  else if String.eqb url "http://example.org/gone.dat"
  then Reply false ["404"]
  else Unreachable.

(** every archive holds a directory, one light curve in it and one table *)
Definition two_files (mode : option string) (data : content)
    : res (list Fetch.member) :=
  Ok [("lcs", Fetch.Directory);
      ("lcs/b010.dat", Fetch.RegFile ["1 53000 R 5 1 2"]);
      ("table1.dat", Fetch.RegFile ["1 2"])].

Definition online_world : world := mkWorld [(Demo.root, Dir)] server [].

(** *** CSP DR1 with three spectra of two objects, the later object listed
    first *)
Definition csp_spectra_world : world :=
  mkWorld
    [(Demo.root, Dir); (Demo.root ++ ["spectra"], Dir); (Demo.csp_dir, Dir);
     (child Demo.csp_dir "SN05el_051001_b01_DUP_WF.dat", File [] false);
     (child Demo.csp_dir "SN04dt_041112_b01_DUP_WF.dat", File [] false);
     (child Demo.csp_dir "SN05el_051010_b01_DUP_WF.dat", File [] false)]
    Demo.offline [].

End Demo2.

(** * Properties *)

(** ** Date conversion *)

Module UtilsFacts.
Import Utils.

Lemma convert_to_jd_snoopy (d : Q) :
  (d < 53000)%Q -> convert_to_jd d = (d + 53000 + 2400000.5)%Q.
Proof.
  intros H. unfold convert_to_jd, snoopy_offset, mjd_offset.
  destruct (Qlt_le_dec d 53000) as [_|Hge]; [|lra].
  destruct (Qlt_le_dec (d + 53000) 2400000.5) as [_|Hge]; [reflexivity|lra].
Qed.

Lemma convert_to_jd_mjd (d : Q) :
  (53000 <= d)%Q -> (d < 2400000.5)%Q -> convert_to_jd d = (d + 2400000.5)%Q.
Proof.
  intros H1 H2. unfold convert_to_jd, snoopy_offset, mjd_offset.
  destruct (Qlt_le_dec d 53000) as [Hlt|_]; [lra|].
  destruct (Qlt_le_dec d 2400000.5) as [_|Hge]; [reflexivity|lra].
Qed.

Lemma convert_to_jd_jd (d : Q) :
  (2400000.5 <= d)%Q -> convert_to_jd d = d.
Proof.
  intros H. unfold convert_to_jd, snoopy_offset, mjd_offset.
  destruct (Qlt_le_dec d 53000) as [Hlt|_]; [lra|].
  destruct (Qlt_le_dec d 2400000.5) as [Hlt|_]; [lra|reflexivity].
Qed.

Lemma convert_to_jd_lower_bound (d : Q) :
  (0 <= d)%Q -> (2400000.5 <= convert_to_jd d)%Q.
Proof.
  intros H.
  destruct (Qlt_le_dec d 53000) as [H1|H1].
  - rewrite convert_to_jd_snoopy by assumption. lra.
  - destruct (Qlt_le_dec d 2400000.5) as [H2|H2].
    + rewrite convert_to_jd_mjd by assumption. lra.
    + rewrite convert_to_jd_jd by assumption. assumption.
Qed.

(** C2.  For a nonnegative date the three formats are told apart by the two
    offsets: a Snoopy date gets both offsets, an MJD date gets the MJD
    offset, a JD date is returned as it is; so converting twice is the same
    as converting once. *)
Theorem convert_to_jd_spec (d : Q) (Hd : (0 <= d)%Q) :
  ((d < 53000)%Q -> convert_to_jd d = (d + 53000 + 2400000.5)%Q) /\
  ((53000 <= d)%Q -> (d < 2400000.5)%Q ->
     convert_to_jd d = (d + 2400000.5)%Q) /\
  ((2400000.5 <= d)%Q -> convert_to_jd d = d) /\
  convert_to_jd (convert_to_jd d) = convert_to_jd d.
Proof.
  repeat split.
  - apply convert_to_jd_snoopy.
  - apply convert_to_jd_mjd.
  - apply convert_to_jd_jd.
  - apply convert_to_jd_jd, convert_to_jd_lower_bound, Hd.
Qed.

Lemma convert_to_jd_spec_witness :
  (0 <= 500)%Q /\
  convert_to_jd 500 = (500 + 53000 + 2400000.5)%Q /\
  convert_to_jd (convert_to_jd 500) = convert_to_jd 500.
Proof.
  assert (H : (0 <= 500)%Q) by (vm_compute; discriminate).
  split; [exact H|].
  destruct (convert_to_jd_spec 500 H) as (H1 & _ & _ & H4).
  split; [apply H1; reflexivity | exact H4].
Defined.

(** The hypothesis of C2 is needed: below zero a converted date can still
    lie under the MJD offset and is shifted again. *)
Lemma convert_to_jd_negative_not_idempotent :
  ~ (convert_to_jd (convert_to_jd (-100000)) == convert_to_jd (-100000))%Q.
Proof. vm_compute. discriminate. Qed.

(** The vectorised function agrees with the scalar one on every entry. *)
Lemma convert_to_jd_vec_lookup (dates : list Q) (i : nat) (d : Q) :
  dates !! i = Some d -> convert_to_jd_vec dates !! i = Some (convert_to_jd d).
Proof.
  intros H. unfold convert_to_jd_vec. rewrite list_lookup_fmap, H. reflexivity.
Qed.

(** ** Hour angle to degrees *)

(** C7.  With a negative declination of 1 degree 30 arc minutes the source
    negates the degrees only: it returns -0.5, where the declination is
    -1.5. *)
Theorem hourangle_to_degrees_sign_on_degrees_only (conv : Q -> Q -> Q -> Q) :
  (snd (hourangle_to_degrees conv 0 0 0 "-" 1 30 0) == -0.5)%Q /\
  ~ (snd (hourangle_to_degrees conv 0 0 0 "-" 1 30 0)
       == (-1) * (1 + 30 / 60 + 0 / 3600))%Q.
Proof.
  split.
  - vm_compute. reflexivity.
  - vm_compute. discriminate.
Qed.

(** What the source computes, for every input. *)
Lemma hourangle_to_degrees_dec (conv : Q -> Q -> Q -> Q)
    (rah ram ras : Q) (dec_sign : string) (decd decm decs : Q) :
  (snd (hourangle_to_degrees conv rah ram ras dec_sign decd decm decs)
     == (if String.eqb dec_sign "-" then - decd else decd)
        + decm / 60 + decs / 3600)%Q.
Proof.
  unfold hourangle_to_degrees, dec_of. simpl.
  destruct (String.eqb dec_sign "-"); field.
Qed.

End UtilsFacts.



(** ** The monad *)

Module IOFacts.

Lemma bind_ok {A B} (m : M A) (k : A -> M B) (w w' : world) (b : B) :
  bind m k w = (Ok b, w') ->
  exists a w1, m w = (Ok a, w1) /\ k a w1 = (Ok b, w').
Proof.
  unfold bind. destruct (m w) as [[a|e] w1]; [eauto|discriminate].
Qed.

Lemma bind_step {A B} (m : M A) (k : A -> M B) (w w1 : world) (a : A) :
  m w = (Ok a, w1) -> bind m k w = k a w1.
Proof. unfold bind. intros ->. reflexivity. Qed.

Lemma ret_ok {A} (a b : A) (w w' : world) :
  ret a w = (Ok b, w') -> a = b /\ w = w'.
Proof. unfold ret. intros [= -> ->]. auto. Qed.

Lemma lift_ok {A} (r : res A) (a : A) (w w' : world) :
  lift r w = (Ok a, w') -> r = Ok a /\ w = w'.
Proof. unfold lift. intros [= -> ->]. auto. Qed.

Lemma rbind_ok {A B} (r : res A) (k : A -> res B) (b : B) :
  rbind r k = Ok b -> exists a, r = Ok a /\ k a = Ok b.
Proof. destruct r; simpl; [eauto|discriminate]. Qed.

(** Inverts a successful run, one bind at a time. *)
Ltac minv H :=
  repeat first
    [ match type of H with
      | raise _ _ = (Ok _, _) => discriminate H
      | (if ?c then _ else _) _ = _ =>
          let C := fresh "C" in destruct c eqn:C
      end
    | apply bind_ok in H;
      let a := fresh "a" in
      let w := fresh "w" in
      let E := fresh "E" in
      destruct H as (a & w & E & H); cbv beta in H
    | apply lift_ok in H; let Hw := fresh "Hw" in destruct H as [H Hw] ].

(** Reads the pure steps off the hypotheses [minv] leaves behind. *)
Ltac mclean :=
  repeat match goal with
         | E : lift _ _ = (Ok _, _) |- _ =>
             let Hw := fresh "Hw" in
             apply lift_ok in E; destruct E as [E Hw]
         | E : ret _ _ = (Ok _, _) |- _ =>
             let Hw := fresh "Hw" in
             apply ret_ok in E; destruct E as [E Hw]
         end.

End IOFacts.

(** ** Formatting for SNCosmo *)

Module FormatFacts.

(** Splits the first [match] on a result or a test in the hypothesis. *)
Ltac step_in H :=
  match type of H with
  | context [rbind ?r _] =>
      let E := fresh "E" in
      destruct r eqn:E; cbn [rbind] in H; [|discriminate H]
  | context [if ?b then _ else _] =>
      let E := fresh "E" in
      destruct b eqn:E; try discriminate H
  end.

(** Evaluates a chain of column assignments that starts from an empty
    table, oldest first. *)
Ltac run_setitems :=
  repeat match goal with
         | H : setitem _ _ _ = Ok _ |- _ =>
             unfold setitem in H; simpl in H;
             first [ injection H as <-
                   | destruct (Nat.eqb _ _) in H;
                     [injection H as <- | discriminate H] ]
         end.

Lemma setitem_inv (t t' : Table) (name : string) (c : column) :
  setitem t name c = Ok t' ->
  meta t' = meta t /\
  (columns t = [] /\ columns t' = [(name, c)] \/
   columns t <> [] /\ col_len c = len t /\
   columns t' = match assoc name (columns t) with
                | Some _ => replace_col name c (columns t)
                | None => columns t ++ [(name, c)]
                end).
Proof.
  unfold setitem. destruct (columns t) as [|nc r] eqn:Ec.
  - intros [= <-]. simpl. auto.
  - destruct (Nat.eqb (col_len c) (len t)) eqn:El; [|discriminate].
    apply Nat.eqb_eq in El.
    destruct (assoc name (nc :: r)); intros [= <-]; simpl; split; auto;
      right; repeat split; auto; discriminate.
Qed.

Lemma prefixed_not_declared (prefix : string) (declared : list string)
    (bands : list string) :
  Forall (fun d => startswith prefix d = false) declared ->
  Forall (fun b => b ∉ declared) (map (String.append prefix) bands).
Proof.
  intros Hd. apply Forall_forall. intros b Hb.
  apply list_elem_of_In, in_map_iff in Hb. destruct Hb as (x & <- & _).
  intros Hin. rewrite Forall_forall in Hd. specialize (Hd _ Hin).
  unfold startswith in Hd.
  assert (Hp : String.prefix prefix (String.append prefix x) = true).
  { clear. induction prefix as [|a p IH]; simpl.
    - destruct x; reflexivity.
    - destruct (ascii_dec a a); [exact IH|congruence]. }
  congruence.
Qed.

Lemma narayan16_format_table_total (t : Table) (jd flux : column)
    (passband : list string) (hi lo : list Q) :
  wf_table t = true ->
  getitem t "JD" = Ok jd ->
  getitem t "Passband" = Ok (StrCol passband) ->
  getitem t "Flux" = Ok flux ->
  getitem t "Fluxerr_hi" = Ok (FloatCol hi) ->
  getitem t "Fluxerr_lo" = Ok (FloatCol lo) ->
  is_ok (Narayan16._format_table t) = true.
Proof.
  intros Hwf Hjd Hpb Hfl Hhi Hlo.
  assert (Hlen : forall n c, getitem t n = Ok c -> col_len c = len t).
  { intros n c. unfold getitem, wf_table in *.
    rewrite forallb_forall in Hwf.
    induction (columns t) as [|[n' c'] r IH] in Hwf |- *; simpl; [discriminate|].
    destruct (String.eqb n' n).
    - intros [= <-]. apply Nat.eqb_eq, (Hwf (n', c')). left. reflexivity.
    - intros H. apply IH; [|exact H]. intros x Hx. apply Hwf. right. exact Hx. }
  pose proof (Hlen _ _ Hjd) as Ljd. pose proof (Hlen _ _ Hpb) as Lpb.
  pose proof (Hlen _ _ Hfl) as Lfl. pose proof (Hlen _ _ Hhi) as Lhi.
  pose proof (Hlen _ _ Hlo) as Llo. simpl in Lpb, Lhi, Llo.
  assert (Hnat : forall n, Nat.eqb n n = true) by apply Nat.eqb_refl.
  unfold Narayan16._format_table, setitem, with_meta, empty_table, max_cols,
    full_int, full_str.
  rewrite Hjd, Hpb, Hfl, Hhi, Hlo.
  repeat (progress (cbn;
                    rewrite ?length_map, ?length_replicate, ?length_zip_with;
                    rewrite ?Lpb, ?Lfl, ?Lhi, ?Llo, ?Nat.min_id, <- ?Ljd, ?Hnat)).
  reflexivity.
Qed.

(** C9.  On every table with the columns the ESSENCE formatter reads (all
    of one length, the passbands text, the error bars numbers) the formatter
    returns a table; and whenever it returns a table, the band column is the
    raw passband names behind the prefix [csp_dr3_] and the zp column is 25
    in every row, so no band is one of the declared [band_names] and no zp
    is the declared zero point 27.5. *)
Theorem narayan16_format_table_band_zp (data_table : Table) :
  (forall (jd flux : column) (passband : list string) (hi lo : list Q),
     wf_table data_table = true ->
     getitem data_table "JD" = Ok jd ->
     getitem data_table "Passband" = Ok (StrCol passband) ->
     getitem data_table "Flux" = Ok flux ->
     getitem data_table "Fluxerr_hi" = Ok (FloatCol hi) ->
     getitem data_table "Fluxerr_lo" = Ok (FloatCol lo) ->
     exists out, Narayan16._format_table data_table = Ok out) /\
  (forall out, Narayan16._format_table data_table = Ok out ->
     exists passband : list string,
       getitem data_table "Passband" = Ok (StrCol passband) /\
       getitem out "band"
         = Ok (StrCol (map (String.append "csp_dr3_") passband)) /\
       getitem out "zp" = Ok (IntCol (replicate (len data_table) 25%Z)) /\
       Forall (fun b => b ∉ Narayan16.band_names)
              (map (String.append "csp_dr3_") passband) /\
       Forall (fun z => Forall (fun q => ~ (inject_Z z == q)%Q)
                               Narayan16.zero_point)
              (replicate (len data_table) 25%Z)).
Proof.
  split.
  { intros jd flux passband hi lo Hwf Hjd Hpb Hfl Hhi Hlo.
    pose proof (narayan16_format_table_total data_table jd flux passband hi lo
                  Hwf Hjd Hpb Hfl Hhi Hlo) as Hok.
    destruct (Narayan16._format_table data_table) as [out|e];
      [exists out; reflexivity|discriminate Hok]. }
  intros out Hout.
  unfold Narayan16._format_table in Hout.
  repeat step_in Hout.
  match goal with
  | H : as_strs ?c = Ok _ |- _ =>
      destruct c as [| |passband]; try discriminate H; injection H as <-
  end.
  exists passband. split; [reflexivity|].
  unfold empty_table, with_meta in *.
  run_setitems.
  injection Hout as <-.
  split; [reflexivity|]. split; [reflexivity|]. split.
  - apply prefixed_not_declared. repeat constructor.
  - apply Forall_forall. intros z Hz.
    apply elem_of_replicate in Hz as [-> _].
    repeat constructor; vm_compute; discriminate.
Qed.

Lemma narayan16_format_table_band_zp_witness :
  exists out,
    Narayan16._format_table Demo.essence_raw = Ok out /\
    getitem Demo.essence_raw "Passband" = Ok (StrCol ["R"; "I"]) /\
    getitem out "band" = Ok (StrCol ["csp_dr3_R"; "csp_dr3_I"]) /\
    getitem out "zp" = Ok (IntCol [25; 25]%Z) /\
    Forall (fun b => b ∉ Narayan16.band_names) ["csp_dr3_R"; "csp_dr3_I"].
Proof.
  destruct (narayan16_format_table_band_zp Demo.essence_raw) as [Htotal Hval].
  destruct (Htotal (FloatCol [2453000.5; 2453001.5]%Q) (FloatCol [5; 6]%Q)
              ["R"; "I"] [2; 1]%Q [1; 3]%Q)
    as [out Hout]; try reflexivity.
  exists out. split; [exact Hout|].
  destruct (Hval out Hout) as (passband & Hpb & Hband & Hzp & Hnot & _).
  assert (passband = ["R"; "I"]) as -> by (vm_compute in Hpb; congruence).
  split; [reflexivity|]. split; [exact Hband|]. split; [exact Hzp|exact Hnot].
Defined.

Lemma narayan16_format_inv (data out : Table) :
  Narayan16._format_table data = Ok out ->
  colnames out = ["time"; "band"; "zp"; "zpsys"; "flux"; "fluxerr"] /\
  meta out = meta data.
Proof.
  intros Hout. unfold Narayan16._format_table in Hout.
  repeat step_in Hout.
  unfold empty_table, with_meta in *.
  run_setitems.
  injection Hout as <-. split; reflexivity.
Qed.

Lemma sn3yr_format_inv (data out : Table) :
  SN3YR._format_sncosmo_table data = Ok out ->
  colnames out = sncosmo_columns /\ meta out = meta data.
Proof.
  intros Hout. unfold SN3YR._format_sncosmo_table in Hout.
  repeat step_in Hout.
  unfold empty_table, with_meta in *.
  run_setitems.
  injection Hout as <-. split; reflexivity.
Qed.

End FormatFacts.

(** ** The schema of the tables [get_data_for_id] returns *)

Module SchemaFacts.
Import IOFacts FormatFacts.

Ltac meta_keys :=
  unfold has_meta_keys, standard_meta_keys, meta_set; cbn [meta];
  repeat constructor;
  repeat first [ rewrite lookup_delete_ne by discriminate
               | rewrite lookup_insert_eq
               | rewrite lookup_insert_ne by discriminate ];
  eauto.

Lemma meta_del_inv (t t' : Table) (k : string) :
  meta_del t k = Ok t' ->
  columns t' = columns t /\ meta t' = delete k (meta t).
Proof.
  unfold meta_del. destruct (meta t !! k); [|discriminate].
  intros [= <-]. auto.
Qed.

Lemma sn3yr_schema (P : parsers) (data_dir : path) (obj_id : string)
    (w w' : world) (t : Table) :
  SN3YR._get_data_for_id P data_dir obj_id true w = (Ok t, w') ->
  colnames t = sncosmo_columns /\ has_meta_keys t standard_meta_keys.
Proof.
  intros H. unfold SN3YR._get_data_for_id in H. minv H. mclean.
  apply sn3yr_format_inv in H as [Hc Hm]. split; [exact Hc|].
  match goal with
  | E : meta_del _ _ = Ok _ |- _ => apply meta_del_inv in E as [_ Hd]
  end.
  unfold has_meta_keys. rewrite Hm, Hd. meta_keys.
Qed.

Lemma narayan16_schema (P : parsers) (data_dir : path) (obj_id : string)
    (w w' : world) (t : Table) :
  Narayan16._get_data_for_id P data_dir obj_id true w = (Ok t, w') ->
  colnames t = ["time"; "band"; "zp"; "zpsys"; "flux"; "fluxerr"] /\
  has_meta_keys t ["obj_id"].
Proof.
  intros H. unfold Narayan16._get_data_for_id in H. minv H. mclean.
  apply narayan16_format_inv in H as [Hc Hm]. split; [exact Hc|].
  match goal with
  | E : meta_del _ _ = Ok _ |- _ => apply meta_del_inv in E as [_ Hd]
  end.
  unfold has_meta_keys. rewrite Hm, Hd. meta_keys.
Qed.

Lemma table_of_lines_colnames (P : parsers) (opts : read_opts)
    (lines : content) (names : list string) (t : Table) :
  table_of_lines P opts lines names = Ok t -> colnames t = names.
Proof.
  unfold table_of_lines. intros H. apply rbind_ok in H as (parsed & _ & H).
  destruct (Nat.eqb _ _) eqn:El; [|discriminate]. injection H as <-.
  apply Nat.eqb_eq in El. unfold colnames. cbn [columns].
  apply fst_zip. lia.
Qed.

Lemma rename_column_inv (t t' : Table) (old new : string) :
  rename_column t old new = Ok t' ->
  colnames t' = map (fun n => if String.eqb n old then new else n) (colnames t)
  /\ meta t' = meta t.
Proof.
  unfold rename_column. destruct (assoc old (columns t)); [|discriminate].
  destruct (String.eqb_spec old new) as [<- | Hne].
  - intros [= <-]. split; [|reflexivity].
    rewrite <- (map_id (colnames t)) at 1. apply map_ext. intros n.
    destruct (String.eqb_spec n old); congruence.
  - destruct (str_in new (colnames t)); [discriminate|]. intros [= <-].
    split; [|reflexivity]. unfold colnames. cbn [columns].
    rewrite !map_map. apply map_ext. intros [n col]. cbn.
    destruct (String.eqb n old); reflexivity.
Qed.

Lemma replace_col_names (name : string) (c : column)
    (cols : list (string * column)) :
  map fst (replace_col name c cols) = map fst cols.
Proof.
  induction cols as [|[n c'] r IH]; [reflexivity|]. simpl.
  destruct (String.eqb n name); simpl; [reflexivity|]. f_equal. exact IH.
Qed.

Lemma assoc_some_of_name (name : string) (cols : list (string * column)) :
  name ∈ map fst cols -> is_Some (assoc name cols).
Proof.
  induction cols as [|[n c] r IH]; simpl.
  - intros H. inversion H.
  - destruct (String.eqb_spec n name) as [-> | Hne]; [eauto|].
    intros H. apply IH. inversion H; subst; [congruence|assumption].
Qed.

Lemma setitem_existing_colnames (t t' : Table) (name : string) (c : column) :
  setitem t name c = Ok t' -> name ∈ colnames t ->
  colnames t' = colnames t /\ meta t' = meta t.
Proof.
  intros H Hin. apply setitem_inv in H as [Hm [[He _]|(_ & _ & Hc)]].
  - unfold colnames in Hin. rewrite He in Hin. inversion Hin.
  - split; [|exact Hm]. unfold colnames. rewrite Hc.
    destruct (assoc_some_of_name _ _ Hin) as [x ->]. apply replace_col_names.
Qed.

Lemma rename_all_raise (pairs : list (string * string)) (e : exn) :
  fold_left (fun acc p => let? t := acc in rename_column t (fst p) (snd p))
            pairs (Raise e) = Raise e.
Proof. induction pairs as [|p r IH]; [reflexivity|]. simpl. exact IH. Qed.

Lemma rename_all_colnames (pairs : list (string * string)) (t t' : Table) :
  Betoule14.rename_all t pairs = Ok t' ->
  colnames t'
  = fold_left (fun names p =>
                 map (fun n => if String.eqb n (fst p) then snd p else n) names)
              pairs (colnames t).
Proof.
  unfold Betoule14.rename_all. revert t.
  induction pairs as [|p r IH]; intros t; simpl.
  - intros [= <-]. reflexivity.
  - destruct (rename_column t (fst p) (snd p)) as [t1|e] eqn:E.
    + intros H. apply IH in H. rewrite H.
      apply rename_column_inv in E as [-> _]. reflexivity.
    + rewrite rename_all_raise. discriminate.
Qed.

Lemma betoule14_schema (P : parsers) (photometry_dir : path)
    (obj_id : string) (w w' : world) (t : Table) :
  Betoule14.get_data_for_id P photometry_dir obj_id true w = (Ok t, w') ->
  colnames t = ["time"; "flux"; "fluxerr"; "zp"; "band"; "zpsys"] /\
  has_meta_keys t standard_meta_keys.
Proof.
  intros H. unfold Betoule14.get_data_for_id, Fetch.requires_data in H.
  minv H. mclean.
  injection H as <-. split; [|meta_keys].
  match goal with
  | E : table_of_lines _ _ _ _ = Ok _ |- _ =>
      apply table_of_lines_colnames in E; rename E into Hnames
  end.
  match goal with
  | E : rbind (Betoule14.rename_all _ _) _ = Ok _ |- _ => rename E into Hr
  end.
  apply rbind_ok in Hr as (t1 & Hren & Hr).
  apply rbind_ok in Hr as (time & _ & Hr).
  apply rbind_ok in Hr as (jd & _ & Hr).
  apply rename_all_colnames in Hren. rewrite Hnames in Hren. simpl in Hren.
  apply setitem_existing_colnames in Hr as [Hr _].
  - unfold meta_set, colnames in *. cbn [columns]. congruence.
  - rewrite Hren. compute_done.
Qed.

Lemma vstack_cols_names (cols1 cols : list (string * column)) (t2 : Table) :
  vstack_cols cols1 t2 = Ok cols -> map fst cols = map fst cols1.
Proof.
  revert cols. induction cols1 as [|[n c1] r IH]; intros cols; simpl.
  - intros [= <-]. reflexivity.
  - intros H. repeat step_in H. injection H as <-. simpl. f_equal.
    apply IH. reflexivity.
Qed.

Lemma vstack_colnames (t1 t2 t : Table) :
  vstack t1 t2 = Ok t -> colnames t = colnames t1.
Proof.
  unfold vstack. destruct (negb _); [discriminate|]. intros H.
  step_in H. injection H as <-. unfold colnames. cbn [columns].
  eapply vstack_cols_names. eassumption.
Qed.

Lemma stack_files_colnames (P : parsers) (files : list path)
    (out_table t : Table) (z z' : option Q) (w w' : world) :
  DR1.stack_files P files out_table z w = (Ok (t, z'), w') ->
  colnames t = colnames out_table.
Proof.
  revert out_table z w. induction files as [|f r IH]; intros out_table z w H.
  - simpl in H. apply ret_ok in H as [[= <- _] _]. reflexivity.
  - simpl in H. minv H. mclean. apply IH in H. rewrite H.
    eapply vstack_colnames. eassumption.
Qed.

Lemma dr1_schema (P : parsers) (data_dir : path) (obj_id : string)
    (w w' : world) (t : Table) :
  DR1._get_data_for_id P data_dir obj_id true w = (Ok t, w') ->
  colnames t = ["time"; "wavelength"; "flux"; "epoch"; "wavelength_range";
                "telescope"; "instrument"] /\
  has_meta_keys t standard_meta_keys.
Proof.
  intros H. unfold DR1._get_data_for_id in H. minv H. mclean.
  apply rename_column_inv in H as [Hc Hm].
  match goal with
  | E : meta_del _ _ = Ok _ |- _ => apply meta_del_inv in E as [Hcols Hd]
  end.
  match goal with
  | E : DR1.stack_files _ _ _ _ _ = (Ok ?x, _) |- _ =>
      destruct x as [t0 z0]; apply stack_files_colnames in E;
      rename E into Hs
  end.
  split.
  - rewrite Hc. unfold colnames in *. rewrite Hcols. cbn [columns meta_set fst].
    rewrite Hs. reflexivity.
  - unfold has_meta_keys. rewrite Hm, Hd. meta_keys.
Qed.

Lemma has_columns_of_colnames (t : Table) (names wanted : list string) :
  colnames t = names -> wanted ⊆ names -> has_columns t wanted.
Proof.
  intros Hn Hsub. unfold has_columns. rewrite Hn.
  apply Forall_forall. intros c Hc. apply Hsub, Hc.
Qed.

(** C1, as the sources have it.  A table returned with [format_table=True]
    by the photometric releases DES SN3YR, JLA Betoule14 and ESSENCE
    Narayan16 has the columns time, band, flux, fluxerr, zp and zpsys; the
    metadata of DES SN3YR, JLA Betoule14 and CSP DR1 has the keys obj_id,
    ra, dec, z and z_err, that of ESSENCE Narayan16 has obj_id; the
    spectroscopic release CSP DR1 only renames its date column to time and
    keeps wavelength, flux, epoch, wavelength_range, telescope and
    instrument. *)
Theorem get_data_for_id_schema (P : parsers) :
  (forall data_dir obj_id w w' t,
     SN3YR._get_data_for_id P data_dir obj_id true w = (Ok t, w') ->
     has_columns t sncosmo_columns /\ has_meta_keys t standard_meta_keys) /\
  (forall photometry_dir obj_id w w' t,
     Betoule14.get_data_for_id P photometry_dir obj_id true w = (Ok t, w') ->
     has_columns t sncosmo_columns /\ has_meta_keys t standard_meta_keys) /\
  (forall data_dir obj_id w w' t,
     Narayan16._get_data_for_id P data_dir obj_id true w = (Ok t, w') ->
     has_columns t sncosmo_columns /\ has_meta_keys t ["obj_id"]) /\
  (forall data_dir obj_id w w' t,
     DR1._get_data_for_id P data_dir obj_id true w = (Ok t, w') ->
     colnames t = ["time"; "wavelength"; "flux"; "epoch"; "wavelength_range";
                   "telescope"; "instrument"] /\
     has_meta_keys t standard_meta_keys).
Proof.
  split; [|split; [|split]]; intros dir obj_id w w' t H.
  - apply sn3yr_schema in H as [Hc Hm]. split; [|exact Hm].
    eapply has_columns_of_colnames; [exact Hc|]. reflexivity.
  - apply betoule14_schema in H as [Hc Hm]. split; [|exact Hm].
    eapply has_columns_of_colnames; [exact Hc|]. compute_done.
  - apply narayan16_schema in H as [Hc Hm]. split; [|exact Hm].
    eapply has_columns_of_colnames; [exact Hc|]. compute_done.
  - apply dr1_schema in H. exact H.
Qed.

Lemma get_data_for_id_schema_witness :
  (exists t w',
     SN3YR._get_data_for_id Demo.demo_parsers Demo.root "01248677" true
       Demo.des_world = (Ok t, w') /\
     has_columns t sncosmo_columns /\ has_meta_keys t standard_meta_keys) /\
  (exists t w',
     Betoule14.get_data_for_id Demo.demo_parsers Demo.jla_photometry
       "SN2005el" true Demo.jla_world = (Ok t, w') /\
     has_columns t sncosmo_columns /\ has_meta_keys t standard_meta_keys) /\
  (exists t w',
     Narayan16._get_data_for_id Demo.demo_parsers Demo.root "b010" true
       Demo.essence_world = (Ok t, w') /\
     has_columns t sncosmo_columns /\ has_meta_keys t ["obj_id"]) /\
  (exists t w',
     DR1._get_data_for_id Demo.demo_parsers Demo.root "2005el" true
       Demo.csp_world = (Ok t, w') /\
     colnames t = ["time"; "wavelength"; "flux"; "epoch"; "wavelength_range";
                   "telescope"; "instrument"] /\
     has_meta_keys t standard_meta_keys).
Proof.
  destruct (get_data_for_id_schema Demo.demo_parsers) as (H1 & H2 & H3 & H4).
  repeat split.
  - assert (Hok : is_ok (fst (SN3YR._get_data_for_id Demo.demo_parsers
                                Demo.root "01248677" true Demo.des_world))
                  = true) by (vm_compute; reflexivity).
    destruct (SN3YR._get_data_for_id _ _ _ _ _) as [[t|e] w'] eqn:E;
      [|discriminate Hok].
    exists t, w'. split; [reflexivity|]. exact (H1 _ _ _ _ _ E).
  - assert (Hok : is_ok (fst (Betoule14.get_data_for_id Demo.demo_parsers
                                Demo.jla_photometry "SN2005el" true
                                Demo.jla_world))
                  = true) by (vm_compute; reflexivity).
    destruct (Betoule14.get_data_for_id _ _ _ _ _) as [[t|e] w'] eqn:E;
      [|discriminate Hok].
    exists t, w'. split; [reflexivity|]. exact (H2 _ _ _ _ _ E).
  - assert (Hok : is_ok (fst (Narayan16._get_data_for_id Demo.demo_parsers
                                Demo.root "b010" true Demo.essence_world))
                  = true) by (vm_compute; reflexivity).
    destruct (Narayan16._get_data_for_id _ _ _ _ _) as [[t|e] w'] eqn:E;
      [|discriminate Hok].
    exists t, w'. split; [reflexivity|]. exact (H3 _ _ _ _ _ E).
  - assert (Hok : is_ok (fst (DR1._get_data_for_id Demo.demo_parsers
                                Demo.root "2005el" true Demo.csp_world))
                  = true) by (vm_compute; reflexivity).
    destruct (DR1._get_data_for_id _ _ _ _ _) as [[t|e] w'] eqn:E;
      [|discriminate Hok].
    exists t, w'. split; [reflexivity|]. exact (H4 _ _ _ _ _ E).
Defined.

(** C1 as stated fails on the spectroscopic release: the object 2005el is
    listed by [_get_available_ids] of CSP DR1, and the table returned for it
    with [format_table=True] has no band column. *)
Lemma dr1_formatted_table_lacks_band :
  exists ids w1 t w2,
    DR1._get_available_ids Demo.root Demo.csp_world = (Ok ids, w1) /\
    "2005el" ∈ ids /\
    DR1._get_data_for_id Demo.demo_parsers Demo.root "2005el" true
      Demo.csp_world = (Ok t, w2) /\
    ~ has_columns t sncosmo_columns.
Proof.
  assert (Hids : fst (DR1._get_available_ids Demo.root Demo.csp_world)
                 = Ok ["2005el"]) by (vm_compute; reflexivity).
  assert (Hok : is_ok (fst (DR1._get_data_for_id Demo.demo_parsers
                              Demo.root "2005el" true Demo.csp_world))
                = true) by (vm_compute; reflexivity).
  destruct (DR1._get_available_ids _ _) as [ids w1] eqn:E1.
  destruct (DR1._get_data_for_id _ _ _ _ _) as [[t|e] w2] eqn:E2;
    [|discriminate Hok].
  simpl in Hids. subst ids.
  exists ["2005el"], w1, t, w2. repeat split.
  - compute_done.
  - apply dr1_schema in E2 as [Hc _]. unfold has_columns, sncosmo_columns.
    rewrite Hc. intros H. rewrite Forall_forall in H.
    assert (Hb : "band" ∈ ["time"; "wavelength"; "flux"; "epoch";
                           "wavelength_range"; "telescope"; "instrument"])
      by (apply H; compute_done).
    revert Hb. compute_done.
Qed.

End SchemaFacts.

(** ** Missing data and unreachable servers *)

Module GuardFacts.
Import IOFacts.








Ltac run_io :=
  unfold skips, skips_without_request, Fetch.download_tar,
    Fetch.download_file, Fetch.should_download, Fetch.check_url, try_except,
    bind, requests_get, path_exists, warn, log, get_fs, ret, raise;
  cbn.

Lemma check_url_unreachable (url : string) (w : world) :
  net w url = Unreachable ->
  Fetch.check_url url w
  = (Ok false,
     mkWorld (fs w) (net w)
       (trace w ++ [EGet url]
        ++ [EWarn (String.append "Could not connect to " url)])).
Proof.
  intros Hnet. run_io. rewrite Hnet. cbn. rewrite <- app_assoc. reflexivity.
Qed.

(** C8.  When the server cannot be reached, [check_url] warns and returns
    [False], and [download_file] (given a path) and [download_tar] return
    with the disk unchanged, whatever [force] is.  When the target exists
    and [force] is off they return with the disk unchanged and without any
    request. *)
Theorem download_skips
    (tar_open : option string -> content -> res (list Fetch.member))
    (url : string) (p : path) (mode : option string) (w : world) :
  (net w url = Unreachable ->
     (exists w', Fetch.check_url url w = (Ok false, w') /\ fs w' = fs w /\
                 trace w' = trace w ++ [EGet url]
                   ++ [EWarn (String.append "Could not connect to " url)]) /\
     (forall force, skips (Fetch.download_file url (Some p) None force) w) /\
     (forall force, skips (Fetch.download_tar tar_open url p mode force) w)) /\
  (exists_in (fs w) p = true ->
     skips_without_request (Fetch.download_file url (Some p) None false) w /\
     skips_without_request (Fetch.download_tar tar_open url p mode false) w).
Proof.
  split.
  - intros Hnet. split; [|split].
    + eexists. rewrite check_url_unreachable by exact Hnet. repeat split.
    + intros force. run_io.
      destruct force; cbn; [|destruct (exists_in (fs w) p); cbn];
        rewrite ?Hnet; cbn; eexists _, _; repeat split.
    + intros force. run_io.
      destruct force; cbn; [|destruct (exists_in (fs w) p); cbn];
        rewrite ?Hnet; cbn; eexists _, _; repeat split.
  - intros Hex. split; run_io; rewrite Hex; cbn;
      eexists _, _, _; repeat split.
Qed.

(** Given an open file instead of a path, [download_file] does not call
    [check_url]: an unreachable server surfaces as the [ConnectionError] of
    the request; the disk is unchanged all the same. *)
Lemma download_file_to_file_obj_unreachable (url : string) (buf : content)
    (path_arg : option path) (force : bool) (w : world) :
  net w url = Unreachable ->
  exists w', Fetch.download_file url path_arg (Some buf) force w
             = (Raise ConnectionError, w') /\ fs w' = fs w.
Proof.
  intros Hnet. run_io. rewrite Hnet. cbn. eexists. split; reflexivity.
Qed.

(** The private [_get_available_ids] of DES SN3YR has no guard of its own:
    on an empty disk it fails in the reader. *)
Lemma sn3yr_ids_unguarded :
  fst (SN3YR._get_available_ids Demo.demo_parsers Demo.root Demo.empty_world)
  = Raise FileNotFoundError.
Proof. vm_compute. reflexivity. Qed.

Lemma download_skips_witness :
  skips (Fetch.download_tar (fun _ _ => Ok []) "http://example.org/a.tgz"
           Demo.root (Some "r:gz") true) Demo.des_world /\
  skips_without_request
    (Fetch.download_file "http://example.org/a.dat" (Some Demo.root) None false)
    Demo.des_world.
Proof.
  split.
  - destruct (download_skips (fun _ _ => Ok []) "http://example.org/a.tgz"
                Demo.root (Some "r:gz") Demo.des_world) as [H _].
    destruct H as (_ & _ & H); [reflexivity|]. apply H.
  - destruct (download_skips (fun _ _ => Ok []) "http://example.org/a.dat"
                Demo.root None Demo.des_world) as [_ H].
    destruct H as [H _]; [reflexivity|]. exact H.
Defined.

End GuardFacts.

(** ** Unknown identifiers *)

Module LookupFacts.
Import IOFacts.

Lemma str_in_spec (x : string) (l : list string) :
  str_in x l = true <-> x ∈ l.
Proof.
  unfold str_in. rewrite existsb_exists. split.
  - intros (y & Hy & He). apply String.eqb_eq in He as <-.
    apply list_elem_of_In, Hy.
  - intros H. exists x. split; [apply list_elem_of_In, H|apply String.eqb_refl].
Qed.

Lemma str_in_false (x : string) (l : list string) :
  x ∉ l -> str_in x l = false.
Proof.
  intros H. destruct (str_in x l) eqn:E; [|reflexivity].
  apply str_in_spec in E. contradiction.
Qed.

(** The three releases that test the identifier against the list refuse an
    unknown one with [InvalidObjId], before any file of the object is
    opened. *)
Lemma sn3yr_unknown_id (P : parsers) (data_dir : path) (obj_id : string)
    (fmt : bool) (w w1 : world) (ids : list string) :
  SN3YR.get_available_ids P data_dir w = (Ok ids, w1) -> obj_id ∉ ids ->
  SN3YR._get_data_for_id P data_dir obj_id fmt w = (Raise InvalidObjId, w1).
Proof.
  intros Hids Hno. unfold SN3YR._get_data_for_id.
  rewrite (bind_step _ _ _ _ _ Hids), (str_in_false _ _ Hno). reflexivity.
Qed.

Lemma narayan16_unknown_id (P : parsers) (data_dir : path) (obj_id : string)
    (fmt : bool) (w w1 : world) (ids : list string) :
  Narayan16.get_available_ids data_dir w = (Ok ids, w1) -> obj_id ∉ ids ->
  Narayan16._get_data_for_id P data_dir obj_id fmt w
  = (Raise InvalidObjId, w1).
Proof.
  intros Hids Hno. unfold Narayan16._get_data_for_id.
  rewrite (bind_step _ _ _ _ _ Hids), (str_in_false _ _ Hno). reflexivity.
Qed.

Lemma betoule14_unknown_id (P : parsers) (photometry_dir : path)
    (obj_id : string) (fmt : bool) (w w0 w1 : world) (ids : list string) :
  Fetch.require_data_path [photometry_dir] w = (Ok tt, w0) ->
  Betoule14.get_available_ids photometry_dir w0 = (Ok ids, w1) ->
  obj_id ∉ ids ->
  Betoule14.get_data_for_id P photometry_dir obj_id fmt w
  = (Raise InvalidObjId, w1).
Proof.
  intros Hg Hids Hno. unfold Betoule14.get_data_for_id, Fetch.requires_data.
  rewrite (bind_step _ _ _ _ _ Hg), (bind_step _ _ _ _ _ Hids),
    (str_in_false _ _ Hno). reflexivity.
Qed.

(** In CSP DR1 the test [if not files] is made on a generator, which is
    always true: when no file matches, the loop body never runs and the
    function fails on its unbound local variable. *)
Lemma dr1_no_file (P : parsers) (data_dir : path) (obj_id : string)
    (fmt : bool) (w w1 : world) :
  rglob (DR1._spectra_dir data_dir)
    (String.append "SN" (String.append (drop_str 2 obj_id) "_*.dat")) w
  = (Ok [], w1) ->
  DR1._get_data_for_id P data_dir obj_id fmt w
  = (Raise (UnboundLocalError "redshift"), w1).
Proof.
  intros Hg. unfold DR1._get_data_for_id.
  rewrite (bind_step _ _ _ _ _ Hg). reflexivity.
Qed.

(** C3.  On a disk that holds spectra of 2005el only, 2004dt is not among
    the available identifiers of CSP DR1, and asking for its data does not
    raise the error written for that case ([ValueError], no data found) but
    an [UnboundLocalError]. *)
Theorem dr1_unknown_id_escapes_guard :
  exists ids w1 w2,
    DR1._get_available_ids Demo.root Demo.csp_world = (Ok ids, w1) /\
    ("2004dt" ∉ ids) /\
    DR1._get_data_for_id Demo.demo_parsers Demo.root "2004dt" true
      Demo.csp_world
    = (Raise (UnboundLocalError "redshift"), w2).
Proof.
  eexists ["2005el"], _, _. split; [vm_compute; reflexivity|].
  split; [compute_done|]. apply dr1_no_file. vm_compute. reflexivity.
Qed.

(** An identifier outside the list whose characters after the second match
    a file name is even answered with a table. *)
Lemma dr1_unlisted_id_gets_table :
  exists ids w1,
    DR1._get_available_ids Demo.root Demo.csp_world = (Ok ids, w1) /\
    ("zz05el" ∉ ids) /\
    is_ok (fst (DR1._get_data_for_id Demo.demo_parsers Demo.root "zz05el"
                  true Demo.csp_world)) = true.
Proof.
  eexists ["2005el"], _. split; [vm_compute; reflexivity|].
  split; [compute_done|]. vm_compute. reflexivity.
Qed.

(** *** Tables *)

Lemma sn3yr_unknown_table (P : parsers) (data_dir : path) (table_id : string)
    (w : world) :
  table_id ∉ ["SALT2mu_DES+LOWZ_C11.FITRES"; "SALT2mu_DES+LOWZ_G10.FITRES"] ->
  SN3YR._load_table P data_dir table_id w
  = (Raise (ValueError (String.append "Table "
                          (String.append table_id " is not available."))), w).
Proof.
  intros Hno. unfold SN3YR._load_table, SN3YR.get_available_tables,
    SN3YR._get_available_tables, bind, ret.
  rewrite (str_in_false _ _ Hno). reflexivity.
Qed.

Lemma betoule14_unknown_table (P : parsers) (table_dir : path)
    (table_id : string) (w w0 w1 : world) (tables : list string) :
  Fetch.require_data_path [table_dir] w = (Ok tt, w0) ->
  Betoule14.get_available_tables table_dir w0 = (Ok tables, w1) ->
  table_id ∉ tables ->
  Betoule14.load_table_wrapped P table_dir table_id w
  = (Raise (Betoule14.not_available table_id), w1).
Proof.
  intros Hg Ht Hno. unfold Betoule14.load_table_wrapped, Fetch.requires_data.
  rewrite (bind_step _ _ _ _ _ Hg), (bind_step _ _ _ _ _ Ht),
    (str_in_false _ _ Hno). reflexivity.
Qed.

(** [load_table] with a table id that is not in the cache runs the function
    as written, and files a table it returns. *)
Lemma load_table_miss (P : parsers) (table_dir : path) (table_id : string)
    (c : Betoule14.table_cache) :
  Cache.lookup_entry table_id (Cache.entries c) = None ->
  Betoule14.load_table P table_dir table_id c
  = match Betoule14.load_table_wrapped P table_dir table_id (Cache.env c) with
    | (Ok t, w') =>
        (Ok t, Cache.mkCache ((Cache.heap c ++ [t]) ++ [t])
                 ((table_id, length (Cache.heap c)) :: Cache.entries c) w')
    | (Raise e, w') =>
        (Raise e, Cache.mkCache (Cache.heap c) (Cache.entries c) w')
    end.
Proof.
  intros Hl. unfold Betoule14.load_table, Cache.lru_copy_cache,
    Cache.cached_func, Cache.call_user, Betoule14.table_key. cbn.
  rewrite Hl.
  destruct (Betoule14.load_table_wrapped P table_dir table_id (Cache.env c))
    as [[t|e] w']; [|reflexivity].
  unfold Cache.deepcopy. cbn.
  rewrite lookup_app_r by lia. rewrite Nat.sub_diag. cbn.
  rewrite lookup_app_r by lia. rewrite Nat.sub_diag. reflexivity.
Qed.

(** [load_table] with a table id that is in the cache returns a copy of the
    cached table: the guard is not run and no file is asked for. *)
Lemma load_table_hit (P : parsers) (table_dir : path) (table_id : string)
    (c : Betoule14.table_cache) (r : nat) (t : Table) :
  Cache.lookup_entry table_id (Cache.entries c) = Some r ->
  Cache.heap c !! r = Some t ->
  Betoule14.load_table P table_dir table_id c
  = (Ok t, Cache.mkCache (Cache.heap c ++ [t]) (Cache.entries c) (Cache.env c)).
Proof.
  intros Hl Hv. unfold Betoule14.load_table, Cache.lru_copy_cache,
    Cache.cached_func, Betoule14.table_key. cbn. rewrite Hl.
  unfold Cache.deepcopy. cbn. rewrite Hv. cbn.
  rewrite lookup_app_r by lia. rewrite Nat.sub_diag. reflexivity.
Qed.

(** The older [load_table] tests the attribute [table_path.exists], not its
    value: the [ValueError] is unreachable, and a missing table surfaces as
    whatever the reader raises. *)
Lemma old_load_table_reads (P : parsers) (data_dir table_dir : path)
    (table_num : string) (w w0 : world) :
  OldCSP._check_for_data data_dir w = (Ok tt, w0) ->
  OldCSP.load_table P data_dir table_dir table_num w
  = (let! table_lines :=
       read_lines (child table_dir
                     (String.append "table" (String.append table_num ".dat"))) in
     let! readme_lines := read_lines (child table_dir "ReadMe") in
     lift (cds_parse P readme_lines table_lines)) w0.
Proof.
  intros Hg. unfold OldCSP.load_table. rewrite (bind_step _ _ _ _ _ Hg).
  reflexivity.
Qed.

(** C4.  With the data downloaded and no file [table99.dat], the older
    [load_table] does not raise the [ValueError] it was written to raise:
    the call ends in the reader's [FileNotFoundError]. *)
Theorem old_load_table_missing_table :
  exists w',
    exists_in (fs Demo.old_world)
      (child Demo.old_tables "table99.dat") = false /\
    OldCSP.load_table Demo.demo_parsers Demo.root Demo.old_tables "99"
      Demo.old_world
    = (Raise FileNotFoundError, w').
Proof. eexists. split; vm_compute; reflexivity. Qed.

(** *** Lists of identifiers *)

(** C5.  The older [get_obj_ids] returns the identifiers in the order in
    which the directory lists the files: with 2005el listed before 2004dt
    the result is not ascending. *)
Theorem old_get_obj_ids_unsorted :
  exists w',
    OldCSP.get_obj_ids Demo.root Demo.old_photometry Demo.old_world
    = (Ok ["2005el"; "2004dt"], w') /\
    String.ltb "2004dt" "2005el" = true.
Proof. eexists. split; vm_compute; reflexivity. Qed.

(** [Narayan16._get_available_ids] sorts but does not remove duplicates: two
    files of one object list it twice. *)
Lemma narayan16_ids_repeat :
  exists w',
    Narayan16._get_available_ids Demo.root Demo.essence_twice_world
    = (Ok ["b010"; "b010"], w').
Proof. eexists. vm_compute. reflexivity. Qed.

Lemma str_le_total_false (a b : string) :
  String.ltb a b || String.eqb a b = false -> str_lt b a.
Proof.
  intros H. apply orb_false_iff in H as [Hlt Hne].
  unfold str_lt, String.ltb in *.
  rewrite (String.compare_antisym b a).
  destruct (String.compare a b) eqn:E; cbn; try discriminate.
  - apply String.compare_eq_iff in E. subst.
    rewrite String.eqb_refl in Hne. discriminate.
  - reflexivity.
Qed.

Lemma insert_sorted_hd (x a : string) (l : list string) :
  str_le a x -> HdRel str_le a l -> HdRel str_le a (insert_sorted x l).
Proof.
  intros Hax Hl. destruct l as [|y t]; cbn.
  - constructor. exact Hax.
  - destruct (String.ltb y x || String.eqb y x); constructor.
    + inversion Hl. assumption.
    + exact Hax.
Qed.

Lemma insert_sorted_sorted (x : string) (l : list string) :
  Sorted str_le l -> Sorted str_le (insert_sorted x l).
Proof.
  induction 1 as [|y t Ht IH Hhd]; cbn.
  - repeat constructor.
  - destruct (String.ltb y x || String.eqb y x) eqn:E.
    + constructor; [exact IH|]. apply insert_sorted_hd; assumption.
    + constructor; [constructor; assumption|]. constructor.
      unfold str_le. rewrite (str_le_total_false _ _ E). reflexivity.
Qed.

Lemma insert_sorted_perm (x : string) (l : list string) :
  insert_sorted x l ≡ₚ x :: l.
Proof.
  induction l as [|y t IH]; cbn; [reflexivity|].
  destruct (String.ltb y x || String.eqb y x); [|reflexivity].
  rewrite IH. apply Permutation_swap.
Qed.

Lemma sorted_is_sorted (l : list string) : Sorted str_le (sorted l).
Proof.
  unfold sorted. induction (rev l) as [|x r IH]; cbn.
  - constructor.
  - apply insert_sorted_sorted, IH.
Qed.

Lemma sorted_perm (l : list string) : sorted l ≡ₚ l.
Proof.
  unfold sorted. transitivity (rev l); [|symmetry; apply Permutation_rev].
  induction (rev l) as [|x r IH]; cbn; [reflexivity|].
  rewrite insert_sorted_perm, IH. reflexivity.
Qed.

Lemma set_of_nodup (l : list string) : NoDup (set_of l).
Proof.
  induction l as [|x t IH]; cbn; [constructor|].
  destruct (str_in x t) eqn:E; [exact IH|].
  constructor; [|exact IH]. intros Hin.
  assert (Hx : x ∈ t).
  { clear E IH. induction t as [|y t IH]; cbn in Hin; [inversion Hin|].
    destruct (str_in y t) eqn:Ey.
    - right. apply IH, Hin.
    - inversion Hin; subst; [left|right; apply IH; assumption]. }
  apply str_in_spec in Hx. congruence.
Qed.

Lemma strict_of_nodup (l : list string) :
  Sorted str_le l -> NoDup l -> Sorted str_lt l.
Proof.
  induction 1 as [|a t Ht IH Hhd]; intros Hnd; [constructor|].
  inversion Hnd as [|? ? Hnotin Hnd']; subst.
  constructor; [apply IH, Hnd'|].
  destruct t as [|b t']; constructor.
  inversion Hhd as [|? ? Hab]; subst. unfold str_le in Hab.
  apply orb_true_iff in Hab as [Hlt|Heq]; [exact Hlt|].
  apply String.eqb_eq in Heq. subst. exfalso. apply Hnotin. left.
Qed.

(** [sorted(set(ids))], as CSP DR1 has it, is strictly ascending. *)
Lemma sorted_set_strict (l : list string) : Sorted str_lt (sorted (set_of l)).
Proof.
  apply strict_of_nodup; [apply sorted_is_sorted|].
  rewrite sorted_perm. apply set_of_nodup.
Qed.

Lemma dr1_ids_strictly_ascending (data_dir : path) (w w' : world)
    (ids : list string) :
  DR1._get_available_ids data_dir w = (Ok ids, w') -> Sorted str_lt ids.
Proof.
  intros H. unfold DR1._get_available_ids in H. minv H. mclean.
  injection H as <-. apply sorted_set_strict.
Qed.

End LookupFacts.

(** ** The copying cache *)

Module CacheFacts.
Import Cache.

Section Facts.

Context {A K V E : Type} `{EqDecision K}.
Variable f : A -> E -> res V * E.
Variable make_key : bool -> A -> option K.
Variable deepcopy_of : V -> copy_kind.

Lemma lookup_entry_elem (k : K) (r : nat) (l : list (K * nat)) :
  lookup_entry k l = Some r -> (k, r) ∈ l.
Proof.
  induction l as [|[k' r'] t IH]; cbn; [discriminate|].
  destruct (decide (k' = k)) as [-> | Hne].
  - intros [= ->]. left.
  - intros H'. right. apply IH, H'.
Qed.


























End Facts.




(** Without copying, the caller holds the cached object itself: changing it
    changes what later calls return. *)
Lemma lru_cache_without_copy_leaks :
  seen (run Demo.constant Demo.str_key Demo.copied None
          false false tt [Call "a"; Mutate 0 ["changed"]; Call "a"])
  = [("a", ["a"]); ("a", ["changed"])].
Proof. vm_compute. reflexivity. Qed.

(** The cache answers by key: after a call with [1.0], a call with [1]
    returns what was computed for [1.0], unless [typed] is on. *)
Lemma lru_cache_answers_by_key :
  seen (run Demo.constant Demo.num_key Demo.copied None
          false true tt [Call "1.0"; Call "1"])
  = [("1.0", ["1.0"]); ("1", ["1.0"])] /\
  seen (run Demo.constant Demo.num_key Demo.copied None
          true true tt [Call "1.0"; Call "1"])
  = [("1.0", ["1.0"]); ("1", ["1"])].
Proof. split; vm_compute; reflexivity. Qed.

End CacheFacts.

(** * More of the code *)

(** ** Dates and formatted columns *)

Module ValueFacts.
Import UtilsFacts FormatFacts.

(** X1.  One instant written as a Snoopy date [d], as the MJD date
    [d + 53000] and as the JD date [d + 53000 + 2400000.5] converts to the
    same JD value. *)
Theorem convert_to_jd_formats_agree (d : Q) :
  (0 <= d)%Q -> (d < 53000)%Q ->
  Utils.convert_to_jd d = Utils.convert_to_jd (d + 53000)%Q /\
  Utils.convert_to_jd d = Utils.convert_to_jd (d + 53000 + 2400000.5)%Q.
Proof.
  intros H0 H1. rewrite (convert_to_jd_snoopy d H1). split.
  - rewrite convert_to_jd_mjd; [reflexivity|lra|lra].
  - rewrite convert_to_jd_jd; [reflexivity|lra].
Qed.

Lemma convert_to_jd_formats_agree_witness :
  Utils.convert_to_jd 500 = Utils.convert_to_jd (500 + 53000)%Q /\
  Utils.convert_to_jd 500 = Utils.convert_to_jd (500 + 53000 + 2400000.5)%Q.
Proof.
  apply (convert_to_jd_formats_agree 500).
  - vm_compute. discriminate.
  - reflexivity.
Defined.

(** The conversion is not monotone: the last Snoopy date lands after the
    first MJD date. *)
Lemma convert_to_jd_not_monotone :
  (52999 < 53000)%Q /\
  (Utils.convert_to_jd 53000 < Utils.convert_to_jd 52999)%Q.
Proof. split; reflexivity. Qed.

(** X2.  Whenever the DES formatter returns a table, time, flux and fluxerr
    are the columns JD, FLUXCAL and FLUXCALERR of the input, band is the raw
    band behind the prefix [des_sn3yr_], zpsys is ab and zp is 27.5 in every
    row, which is the declared zero point; a raw band among g, r, i, z, y
    gives a declared band name. *)
Theorem sn3yr_format_values (data out : Table)
    (Hout : SN3YR._format_sncosmo_table data = Ok out) :
  exists bands : list string,
    getitem data "BAND" = Ok (StrCol bands) /\
    getitem out "band" = Ok (StrCol (map (String.append "des_sn3yr_") bands)) /\
    getitem out "time" = getitem data "JD" /\
    getitem out "flux" = getitem data "FLUXCAL" /\
    getitem out "fluxerr" = getitem data "FLUXCALERR" /\
    getitem out "zp" = Ok (FloatCol (replicate (len data) 27.5%Q)) /\
    getitem out "zpsys" = Ok (StrCol (replicate (len data) "ab")) /\
    Forall (fun z => z ∈ SN3YR.zero_point) (replicate (len data) 27.5%Q) /\
    (Forall (fun b => b ∈ ["g"; "r"; "i"; "z"; "y"]) bands ->
     Forall (fun b => b ∈ SN3YR.band_names)
            (map (String.append "des_sn3yr_") bands)).
Proof.
  unfold SN3YR._format_sncosmo_table in Hout.
  repeat step_in Hout.
  match goal with
  | H : as_strs ?c = Ok _ |- _ =>
      destruct c as [| |bands]; try discriminate H; injection H as <-
  end.
  exists bands. split; [reflexivity|].
  unfold empty_table, with_meta in *.
  run_setitems. injection Hout as <-.
  repeat match goal with
         | H : getitem data _ = Ok _ |- _ => rewrite H; clear H
         end.
  repeat (split; [reflexivity|]). split.
  - apply Forall_forall. intros z Hz. apply elem_of_replicate in Hz as [-> _].
    left.
  - intros Hb. apply Forall_forall. intros b Hin.
    apply list_elem_of_In, in_map_iff in Hin as (x & <- & Hx).
    rewrite Forall_forall in Hb. specialize (Hb x (proj2 (list_elem_of_In _ _) Hx)).
    repeat (apply elem_of_cons in Hb as [-> | Hb]; [compute_done|]).
    inversion Hb.
Qed.

Lemma sn3yr_format_values_witness :
  SN3YR._format_sncosmo_table Demo2.des_raw = Ok Demo2.des_formatted /\
  getitem Demo2.des_formatted "zp" = Ok (FloatCol (replicate 2 27.5%Q)).
Proof.
  assert (H : SN3YR._format_sncosmo_table Demo2.des_raw
              = Ok Demo2.des_formatted) by (vm_compute; reflexivity).
  split; [exact H|].
  destruct (sn3yr_format_values _ _ H) as (b & _ & _ & _ & _ & _ & Hzp & _).
  exact Hzp.
Defined.

Lemma zip_with_max_bounds (hi lo : list Q) (i : nat) (e h l : Q) :
  zip_with Qmax hi lo !! i = Some e -> hi !! i = Some h -> lo !! i = Some l ->
  (h <= e)%Q /\ (l <= e)%Q.
Proof.
  intros He Hh Hl. rewrite lookup_zip_with, Hh, Hl in He. cbn in He.
  injection He as <-. split; [apply Q.le_max_l|apply Q.le_max_r].
Qed.

(** X3.  Whenever the ESSENCE formatter returns a table, time and flux are
    the columns JD and Flux of the input, zpsys is ab in every row, and
    fluxerr is, row by row, the larger of the two error bars: it is never
    below Fluxerr_hi nor Fluxerr_lo. *)
Theorem narayan16_format_fluxerr (data out : Table)
    (Hout : Narayan16._format_table data = Ok out) :
  exists (chi clo : column) (hi lo : list Q),
    getitem data "Fluxerr_hi" = Ok chi /\ as_floats chi = Ok hi /\
    getitem data "Fluxerr_lo" = Ok clo /\ as_floats clo = Ok lo /\
    length hi = length lo /\
    getitem out "fluxerr" = Ok (FloatCol (zip_with Qmax hi lo)) /\
    getitem out "time" = getitem data "JD" /\
    getitem out "flux" = getitem data "Flux" /\
    getitem out "zpsys" = Ok (StrCol (replicate (len data) "ab")) /\
    forall i e h l,
      zip_with Qmax hi lo !! i = Some e -> hi !! i = Some h ->
      lo !! i = Some l -> (h <= e)%Q /\ (l <= e)%Q.
Proof.
  unfold Narayan16._format_table in Hout.
  repeat step_in Hout.
  match goal with
  | H : as_strs ?c = Ok _ |- _ =>
      destruct c as [| |passband]; try discriminate H; injection H as <-
  end.
  match goal with
  | H : max_cols ?a ?b = Ok _ |- _ =>
      unfold max_cols in H; destruct (Nat.eqb (length a) (length b)) eqn:El;
      [injection H as <-|discriminate H]
  end.
  apply Nat.eqb_eq in El.
  unfold empty_table, with_meta in *.
  run_setitems. injection Hout as <-.
  repeat match goal with
         | H : getitem data _ = Ok _ |- _ => rewrite H; clear H
         end.
  do 4 eexists. split; [reflexivity|]. split; [eassumption|].
  split; [reflexivity|]. split; [eassumption|].
  split; [exact El|]. repeat (split; [reflexivity|]).
  intros i e h l. apply zip_with_max_bounds.
Qed.

Lemma narayan16_format_fluxerr_witness :
  Narayan16._format_table Demo.essence_raw = Ok Demo.essence_formatted /\
  exists hi lo : list Q,
    length hi = length lo /\
    getitem Demo.essence_formatted "fluxerr"
    = Ok (FloatCol (zip_with Qmax hi lo)).
Proof.
  assert (H : Narayan16._format_table Demo.essence_raw
              = Ok Demo.essence_formatted) by (vm_compute; reflexivity).
  split; [exact H|].
  destruct (narayan16_format_fluxerr _ _ H)
    as (chi & clo & hi & lo & _ & _ & _ & _ & Hlen & Herr & _).
  exists hi, lo. split; [exact Hlen|exact Herr].
Defined.

End ValueFacts.

(** ** Lists of identifiers and unknown identifiers *)

Module IdFacts.
Import IOFacts LookupFacts.



(** X5.  The identifiers listed by CSP DR1 are strictly ascending: sorted
    and without repetition. *)
Theorem dr1_ids_sorted_unique (data_dir : path) (w w' : world)
    (ids : list string) :
  DR1._get_available_ids data_dir w = (Ok ids, w') ->
  Sorted str_lt ids /\ NoDup ids.
Proof.
  intros H. split; [eapply dr1_ids_strictly_ascending, H|].
  unfold DR1._get_available_ids in H. minv H. mclean. injection H as <-.
  rewrite sorted_perm. apply set_of_nodup.
Qed.

Lemma dr1_ids_sorted_unique_witness :
  exists w',
    DR1._get_available_ids Demo.root Demo2.csp_spectra_world
    = (Ok ["2004dt"; "2005el"], w') /\
    Sorted str_lt ["2004dt"; "2005el"] /\ NoDup ["2004dt"; "2005el"].
Proof.
  destruct (DR1._get_available_ids Demo.root Demo2.csp_spectra_world)
    as [r w'] eqn:E.
  assert (Hr : r = Ok ["2004dt"; "2005el"]).
  { change r with (fst (r, w')). rewrite <- E. vm_compute. reflexivity. }
  subst r. exists w'. split; [reflexivity|].
  apply (dr1_ids_sorted_unique Demo.root Demo2.csp_spectra_world w' _ E).
Defined.

(** X6.  DES SN3YR, ESSENCE Narayan16 and JLA Betoule14 refuse an
    identifier that is not in their list with [InvalidObjId], whatever
    [format_table] is, and in the state the listing left: no file of the
    object is opened. *)
Theorem unknown_id_is_invalid (P : parsers) (d : path) (obj_id : string)
    (fmt : bool) (w w0 w1 : world) (ids : list string) :
  obj_id ∉ ids ->
  (SN3YR.get_available_ids P d w = (Ok ids, w1) ->
   SN3YR._get_data_for_id P d obj_id fmt w = (Raise InvalidObjId, w1)) /\
  (Narayan16.get_available_ids d w = (Ok ids, w1) ->
   Narayan16._get_data_for_id P d obj_id fmt w = (Raise InvalidObjId, w1)) /\
  (Fetch.require_data_path [d] w = (Ok tt, w0) ->
   Betoule14.get_available_ids d w0 = (Ok ids, w1) ->
   Betoule14.get_data_for_id P d obj_id fmt w = (Raise InvalidObjId, w1)).
Proof.
  intros Hno. repeat split.
  - intros H. eapply sn3yr_unknown_id; eassumption.
  - intros H. eapply narayan16_unknown_id; eassumption.
  - intros Hg H. eapply betoule14_unknown_id; eassumption.
Qed.

Lemma unknown_id_is_invalid_witness :
  exists w1,
    SN3YR._get_data_for_id Demo.demo_parsers Demo.root "00000042" true
      Demo.des_world = (Raise InvalidObjId, w1).
Proof.
  destruct (SN3YR.get_available_ids Demo.demo_parsers Demo.root Demo.des_world)
    as [r w1] eqn:E.
  assert (Hr : r = Ok ["01248677"]).
  { change r with (fst (r, w1)). rewrite <- E. vm_compute. reflexivity. }
  subst r. exists w1.
  destruct (unknown_id_is_invalid Demo.demo_parsers Demo.root "00000042" true
              Demo.des_world Demo.des_world w1 ["01248677"]) as [H _].
  - compute_done.
  - apply H, E.
Defined.

(** X7.  DES SN3YR and JLA Betoule14 refuse a table identifier that is not
    in their list with a [ValueError] that names the table, before any
    table file is opened; [load_table] of JLA, which is cached, does so for
    every identifier that is not in its cache, and leaves the cache as it
    was. *)
Theorem unknown_table_is_refused (P : parsers) (d : path) (table_id : string)
    (w w0 w1 : world) (c : Betoule14.table_cache) (tables : list string) :
  (table_id ∉ ["SALT2mu_DES+LOWZ_C11.FITRES"; "SALT2mu_DES+LOWZ_G10.FITRES"] ->
   SN3YR._load_table P d table_id w
   = (Raise (ValueError (String.append "Table "
                           (String.append table_id " is not available."))),
      w)) /\
  (table_id ∉ tables ->
   Cache.lookup_entry table_id (Cache.entries c) = None ->
   Fetch.require_data_path [d] (Cache.env c) = (Ok tt, w0) ->
   Betoule14.get_available_tables d w0 = (Ok tables, w1) ->
   Betoule14.load_table P d table_id c
   = (Raise (ValueError (String.append "Table "
                           (String.append table_id " is not available."))),
      Cache.mkCache (Cache.heap c) (Cache.entries c) w1)).
Proof.
  split.
  - apply sn3yr_unknown_table.
  - intros Hno Hc Hg Ht. rewrite (load_table_miss P d table_id c Hc).
    rewrite (betoule14_unknown_table P d table_id _ w0 w1 tables Hg Ht Hno).
    reflexivity.
Qed.

Lemma unknown_table_is_refused_witness :
  SN3YR._load_table Demo.demo_parsers Demo.root "table1" Demo.des_world
  = (Raise (ValueError "Table table1 is not available."), Demo.des_world) /\
  fst (Betoule14.load_table Demo.demo_parsers Demo.jla_tables "f3"
         (Cache.initial Demo2.jla_tables_world))
  = Raise (ValueError "Table f3 is not available.").
Proof.
  destruct (Betoule14.get_available_tables Demo.jla_tables
              (snd (Fetch.require_data_path [Demo.jla_tables]
                      Demo2.jla_tables_world))) as [r w1] eqn:Et.
  assert (Hr : r = Ok ["10"; "f1"]).
  { change r with (fst (r, w1)). rewrite <- Et. vm_compute. reflexivity. }
  subst r.
  destruct (unknown_table_is_refused Demo.demo_parsers Demo.root "table1"
              Demo.des_world Demo.des_world Demo.des_world
              (Cache.initial Demo.des_world) []) as [H _].
  split; [apply H; compute_done|].
  destruct (unknown_table_is_refused Demo.demo_parsers Demo.jla_tables "f3"
              Demo2.jla_tables_world
              (snd (Fetch.require_data_path [Demo.jla_tables]
                      Demo2.jla_tables_world))
              w1 (Cache.initial Demo2.jla_tables_world) ["10"; "f1"])
    as [_ H2].
  rewrite H2; [reflexivity|compute_done|reflexivity| |exact Et].
  vm_compute. reflexivity.
Defined.

(** Once a table is in the cache, [load_table] returns it whatever became
    of the files: here after the data directory is gone. *)
Lemma load_table_answers_from_cache :
  exists t c1,
    Betoule14.load_table Demo.demo_parsers Demo.jla_tables "f1"
      (Cache.initial Demo2.jla_tables_world) = (Ok t, c1) /\
    fst (Betoule14.load_table Demo.demo_parsers Demo.jla_tables "f1"
           (Cache.mkCache (Cache.heap c1) (Cache.entries c1) Demo.empty_world))
    = Ok t /\
    fst (Betoule14.load_table Demo.demo_parsers Demo.jla_tables "f1"
           (Cache.initial Demo.empty_world))
    = Raise NoDownloadedData.
Proof.
  assert (Hr : match Betoule14.load_table Demo.demo_parsers Demo.jla_tables
                        "f1" (Cache.initial Demo2.jla_tables_world) with
               | (Ok t, c1) =>
                   Cache.lookup_entry "f1" (Cache.entries c1) = Some 0 /\
                   Cache.heap c1 !! 0 = Some t
               | _ => False
               end) by (vm_compute; split; reflexivity).
  destruct (Betoule14.load_table Demo.demo_parsers Demo.jla_tables "f1"
              (Cache.initial Demo2.jla_tables_world)) as [[t|e] c1];
    [|contradiction].
  destruct Hr as [Hl Hv]. exists t, c1. split; [reflexivity|]. split.
  - rewrite (load_table_hit _ _ "f1" _ 0 t); [reflexivity|exact Hl|exact Hv].
  - vm_compute. reflexivity.
Qed.

End IdFacts.

(** ** Reading a VizieR ReadMe and a JLA header *)

Module ReadFacts.
Import IOFacts LookupFacts.

Lemma summary_row_key (line : string) (row : Vizier.tkey * string) :
  Vizier.summary_row line = Ok row -> key_ok (fst row).
Proof.
  unfold Vizier.summary_row. intros H. apply rbind_ok in H as (first & _ & H).
  injection H as <-. cbn.
  destruct (Vizier.isdigit _) eqn:E; cbn; [exact I|exact E].
Qed.

Lemma insert_keeps_no_digit_str_key (k : Vizier.tkey) (v : string)
    (d : gmap Vizier.tkey string) :
  key_ok k -> no_digit_str_key d -> no_digit_str_key (<[k := v]> d).
Proof.
  intros Hk Hd s Hs. rewrite lookup_insert_ne; [apply Hd, Hs|].
  intros ->. cbn in Hk. congruence.
Qed.

Lemma summary_rows_keys (rest : content) (num : Vizier.tkey) (desc : string)
    (d d' : gmap Vizier.tkey string) :
  key_ok num -> no_digit_str_key d ->
  Vizier.summary_rows rest num desc d = Ok d' -> no_digit_str_key d'.
Proof.
  revert num desc d. induction rest as [|line rest IH]; intros num desc d Hk Hd;
    cbn; [discriminate|].
  destruct (startswith " " line).
  - apply IH; assumption.
  - destruct (startswith "---" line).
    + intros [= <-]. apply insert_keeps_no_digit_str_key; assumption.
    + intros H. apply rbind_ok in H as (row & Hrow & H).
      eapply IH; [eapply summary_row_key, Hrow| |exact H].
      apply insert_keeps_no_digit_str_key; assumption.
Qed.

(** all-digit table numbers never become [str] keys *)
Lemma read_vizier_keys (readme_path : path) (w w' : world)
    (d : gmap Vizier.tkey string) :
  Vizier.read_vizier_table_descriptions readme_path w = (Ok d, w') ->
  no_digit_str_key d.
Proof.
  intros H s Hs. unfold Vizier.read_vizier_table_descriptions in H.
  minv H. apply rbind_ok in H as (ofile & _ & H).
  destruct ofile as [|? [|? [|? [|? [|line rest]]]]]; try discriminate H.
  destruct (startswith "---" line).
  - injection H as <-. apply lookup_empty.
  - apply rbind_ok in H as (row & Hrow & H).
    eapply summary_rows_keys; [eapply summary_row_key, Hrow| |exact H|exact Hs].
    intros ? _. apply lookup_empty.
Qed.

Lemma summary_rows_stored (rest : content) (num : Vizier.tkey) (desc : string)
    (d d' : gmap Vizier.tkey string) :
  Vizier.summary_rows rest num desc d = Ok d' ->
  (forall key, is_Some (d !! key) -> is_Some (d' !! key)) /\
  is_Some (d' !! num) /\
  (forall row r, row ∈ rows_of rest -> Vizier.summary_row row = Ok r ->
                 is_Some (d' !! fst r)).
Proof.
  revert num desc d. induction rest as [|line rest IH]; intros num desc d;
    cbn; [discriminate|].
  destruct (startswith " " line); [apply IH|].
  destruct (startswith "---" line).
  - intros [= <-]. split; [|split].
    + intros key Hk. destruct (decide (num = key)) as [-> | Hne].
      * rewrite lookup_insert_eq. eauto.
      * rewrite lookup_insert_ne by exact Hne. exact Hk.
    + rewrite lookup_insert_eq. eauto.
    + intros row r Hrow. inversion Hrow.
  - intros H. apply rbind_ok in H as (row & Hrow & H).
    destruct (IH _ _ _ H) as (Hkeep & Hnum & Hrows).
    assert (Hins : forall key, is_Some (<[num := desc]> d !! key) ->
                               is_Some (d' !! key)) by exact Hkeep.
    split; [|split].
    + intros key Hk. apply Hins. destruct (decide (num = key)) as [-> | Hne].
      * rewrite lookup_insert_eq. eauto.
      * rewrite lookup_insert_ne by exact Hne. exact Hk.
    + apply Hins. rewrite lookup_insert_eq. eauto.
    + intros row' r Hin Hr. inversion Hin; subst.
      * rewrite Hrow in Hr. injection Hr as <-. exact Hnum.
      * eapply Hrows; eassumption.
Qed.

Lemma summary_row_of_first (row first : string) :
  item (split_ws row) 0 = Ok first ->
  exists desc,
    Vizier.summary_row row
    = Ok (if Vizier.isdigit (table_num_of first)
          then inl (Vizier.int_of_digits (table_num_of first))
          else inr (table_num_of first), desc).
Proof.
  intros H. unfold Vizier.summary_row. rewrite H. cbn. eexists. reflexivity.
Qed.

(** X8.  In the dictionary [read_vizier_table_descriptions] returns, every
    row of the file summary is stored: under the [int] its table number
    denotes when the number is written in digits only, and under the number
    as a [str] otherwise.  No number written in digits only is a [str]
    key. *)
Theorem read_vizier_digit_keys_are_int (readme_path : path) (w w' : world)
    (d : gmap Vizier.tkey string) :
  Vizier.read_vizier_table_descriptions readme_path w = (Ok d, w') ->
  (forall s, Vizier.isdigit s = true -> d !! (inr s : Vizier.tkey) = None) /\
  exists lines w1,
    read_lines readme_path w = (Ok lines, w1) /\
    forall row first,
      row ∈ file_rows lines ->
      item (split_ws row) 0 = Ok first ->
      if Vizier.isdigit (table_num_of first)
      then is_Some (d !! (inl (Vizier.int_of_digits (table_num_of first))
                          : Vizier.tkey))
      else is_Some (d !! (inr (table_num_of first) : Vizier.tkey)).
Proof.
  intros H. split.
  { intros s Hs. apply read_vizier_keys in H. apply H, Hs. }
  unfold Vizier.read_vizier_table_descriptions in H.
  apply bind_ok in H as (lines & w1 & Hread & H). exists lines, w1.
  split; [exact Hread|]. apply lift_ok in H as [H _].
  intros row first Hrow Hfirst. unfold file_rows in Hrow.
  apply rbind_ok in H as (ofile & Hskip & H). rewrite Hskip in Hrow.
  destruct ofile as [|? [|? [|? [|? [|line rest]]]]]; try discriminate H.
  destruct (startswith "---" line); [inversion Hrow|].
  apply rbind_ok in H as (r & Hr & H).
  destruct (summary_rows_stored _ _ _ _ _ H) as (_ & Hnum & Hrows).
  destruct (summary_row_of_first row first Hfirst) as [desc Hsr].
  assert (Hst : is_Some (d !! (if Vizier.isdigit (table_num_of first)
                               then inl (Vizier.int_of_digits (table_num_of first))
                               else inr (table_num_of first) : Vizier.tkey))).
  { inversion Hrow; subst.
    - rewrite Hr in Hsr. injection Hsr as ->. exact Hnum.
    - apply (Hrows row _ ltac:(assumption) Hsr). }
  destruct (Vizier.isdigit (table_num_of first)); exact Hst.
Qed.

Lemma read_vizier_digit_keys_are_int_witness :
  exists d w',
    Vizier.read_vizier_table_descriptions (child Demo.jla_tables "ReadMe")
      Demo2.jla_tables_world = (Ok d, w') /\
    d !! (inr "10" : Vizier.tkey) = None /\
    is_Some (d !! (inl 10%Z : Vizier.tkey)) /\
    is_Some (d !! (inr "f1" : Vizier.tkey)).
Proof.
  destruct (Vizier.read_vizier_table_descriptions
              (child Demo.jla_tables "ReadMe") Demo2.jla_tables_world)
    as [r w'] eqn:E.
  assert (Hr : is_ok r = true).
  { change r with (fst (r, w')). rewrite <- E. vm_compute. reflexivity. }
  destruct r as [d|e]; [|discriminate Hr].
  exists d, w'. split; [reflexivity|].
  destruct (read_vizier_digit_keys_are_int _ _ _ _ E)
    as (Hstr & lines & w1 & Hread & Hrows).
  assert (lines = Demo2.readme) as ->.
  { vm_compute in Hread. injection Hread as <- _. reflexivity. }
  split; [apply Hstr; reflexivity|]. split.
  - apply (Hrows "table10.dat       10        5   Light curve" "table10.dat");
      [vm_compute; left|reflexivity].
  - apply (Hrows "tablef1.dat       10        5   Covariance" "tablef1.dat");
      [vm_compute; right; left|reflexivity].
Defined.

Lemma load_table_wrapped_digit_id (P : parsers) (table_dir : path)
    (table_id : string) (w w' : world) (t : Table) :
  Vizier.isdigit table_id = true ->
  Betoule14.load_table_wrapped P table_dir table_id w <> (Ok t, w').
Proof.
  intros Hd H. unfold Betoule14.load_table_wrapped, Fetch.requires_data in H.
  minv H; mclean.
  - match goal with
    | C : String.eqb table_id "f2" = true |- _ =>
        apply String.eqb_eq in C; subst table_id; discriminate Hd
    end.
  - match goal with
    | E : Vizier.read_vizier_table_descriptions _ _ = (Ok ?d, _) |- _ =>
        pose proof (read_vizier_keys _ _ _ _ E table_id Hd) as Hn;
        rewrite Hn in H
    end.
    discriminate H.
Qed.

(** X9.  [load_table] of JLA Betoule14 looks the description up under the
    string form of the identifier, so for an identifier written in digits
    only it never returns a table: the function as written does not, so no
    such identifier ever enters the cache, and the cached function does not
    either. *)
Theorem betoule14_load_table_digit_id (P : parsers) (table_dir : path)
    (table_id : string) :
  Vizier.isdigit table_id = true ->
  (forall w w' t,
     Betoule14.load_table_wrapped P table_dir table_id w <> (Ok t, w')) /\
  (forall c c' t, no_digit_cached c ->
     Betoule14.load_table P table_dir table_id c <> (Ok t, c')) /\
  (forall w, no_digit_cached (Cache.initial w)) /\
  (forall c id, no_digit_cached c ->
     no_digit_cached (snd (Betoule14.load_table P table_dir id c))).
Proof.
  intros Hd. split; [|split; [|split]].
  - intros w w' t. apply load_table_wrapped_digit_id, Hd.
  - intros c c' t Hc H.
    assert (Hl : Cache.lookup_entry table_id (Cache.entries c) = None).
    { destruct (Cache.lookup_entry table_id (Cache.entries c)) as [r|] eqn:El;
        [|reflexivity].
      apply CacheFacts.lookup_entry_elem, Hc in El. congruence. }
    rewrite (load_table_miss P table_dir table_id c Hl) in H.
    destruct (Betoule14.load_table_wrapped P table_dir table_id (Cache.env c))
      as [[t'|e] w'] eqn:E; [|discriminate H].
    exact (load_table_wrapped_digit_id P table_dir table_id _ _ _ Hd E).
  - intros w k r Hin. inversion Hin.
  - intros c id Hc.
    destruct (Cache.lookup_entry id (Cache.entries c)) as [r|] eqn:El.
    + unfold Betoule14.load_table, Cache.lru_copy_cache, Cache.cached_func,
        Cache.deepcopy, Betoule14.table_key. cbn. rewrite El. cbn.
      repeat case_match; simplify_eq; cbn; exact Hc.
    + rewrite (load_table_miss P table_dir id c El).
      destruct (Betoule14.load_table_wrapped P table_dir id (Cache.env c))
        as [[t|e] w'] eqn:E; cbn; [|exact Hc].
      intros k r Hin. inversion Hin; subst; [|eapply Hc; eassumption].
      destruct (Vizier.isdigit id) eqn:Ek; [|reflexivity].
      destruct (load_table_wrapped_digit_id P table_dir id _ _ _ Ek E).
Qed.

Lemma betoule14_load_table_digit_id_witness :
  "10" ∈ ["10"; "f1"] /\
  fst (Betoule14.get_available_tables Demo.jla_tables Demo2.jla_tables_world)
  = Ok ["10"; "f1"] /\
  (forall t w',
     Betoule14.load_table_wrapped Demo.demo_parsers Demo.jla_tables "10"
       Demo2.jla_tables_world <> (Ok t, w')) /\
  (forall t c',
     Betoule14.load_table Demo.demo_parsers Demo.jla_tables "10"
       (Cache.initial Demo2.jla_tables_world) <> (Ok t, c')).
Proof.
  split; [compute_done|]. split; [vm_compute; reflexivity|].
  destruct (betoule14_load_table_digit_id Demo.demo_parsers Demo.jla_tables
              "10" eq_refl) as (H1 & H2 & H3 & _).
  split; [intros t w'; apply H1|].
  intros t c'. apply H2, H3.
Defined.

(** The same call on the same disk with an identifier that is not a number
    returns the table with its description. *)
Lemma betoule14_load_table_f1 :
  exists t w',
    Betoule14.load_table_wrapped Demo.demo_parsers Demo.jla_tables "f1"
      Demo2.jla_tables_world = (Ok t, w') /\
    meta t !! "description" = Some (MStr "Covariance").
Proof.
  destruct (Betoule14.load_table_wrapped Demo.demo_parsers Demo.jla_tables "f1"
              Demo2.jla_tables_world) as [r w'] eqn:E.
  assert (Hr : (match r with Ok t => meta t !! "description" | _ => None end)
               = Some (MStr "Covariance")).
  { change r with (fst (r, w')). rewrite <- E. vm_compute. reflexivity. }
  destruct r as [t|e]; [|discriminate Hr]. exists t, w'. split; [reflexivity|exact Hr].
Qed.

Lemma skip_to_summary_none (lines : content) :
  Forall (fun l => Vizier.strip l <> "File Summary:") lines ->
  Vizier.skip_to_summary lines = Raise StopIteration.
Proof.
  induction 1 as [|l r Hl _ IH]; cbn; [reflexivity|].
  destruct (String.eqb_spec (Vizier.strip l) "File Summary:"); [contradiction|].
  exact IH.
Qed.

(** X10.  On a ReadMe in which no line is the heading [File Summary:],
    [read_vizier_table_descriptions] reads to the end of the file and fails
    with [StopIteration]. *)
Theorem read_vizier_without_summary (readme_path : path) (w w1 : world)
    (lines : content) :
  read_lines readme_path w = (Ok lines, w1) ->
  Forall (fun l => Vizier.strip l <> "File Summary:") lines ->
  Vizier.read_vizier_table_descriptions readme_path w
  = (Raise StopIteration, w1).
Proof.
  intros Hr Hl. unfold Vizier.read_vizier_table_descriptions.
  rewrite (bind_step _ _ _ _ _ Hr). unfold lift.
  rewrite (skip_to_summary_none _ Hl). reflexivity.
Qed.

Lemma read_vizier_without_summary_witness :
  exists w1,
    Vizier.read_vizier_table_descriptions (child Demo.jla_tables "ReadMe")
      Demo2.bare_readme_world = (Raise StopIteration, w1).
Proof.
  eexists.
  apply (read_vizier_without_summary _ _ _ ["J/A+A/568/A22    JLA"]).
  - vm_compute. reflexivity.
  - repeat constructor. vm_compute. discriminate.
Defined.

(** X11.  The loop that reads the [@] header of a JLA light curve consumes
    the header lines and one line more: the lines it leaves for the table
    reader start after the first line that is not a header line. *)
Theorem read_header_skips_one_line (lines rest : content)
    (m m' : gmap string string) :
  Betoule14.read_header lines m = Ok (m', rest) ->
  exists n,
    Forall (fun l => startswith "@" l = true) (take n lines) /\
    (forall l, lines !! n = Some l -> startswith "@" l = false) /\
    rest = drop (S n) lines.
Proof.
  revert m. induction lines as [|line r IH]; intros m; cbn.
  - intros [= <- <-]. exists 0. repeat split; [constructor|discriminate].
  - destruct (startswith "@" line) eqn:E.
    + intros H. apply rbind_ok in H as (k & _ & H).
      apply rbind_ok in H as (v & _ & H).
      destruct (IH _ H) as (n & Hh & Hn & ->).
      exists (S n). cbn. repeat split; [constructor; assumption|exact Hn].
    + intros [= <- <-]. exists 0. cbn. repeat split; [constructor|].
      intros l [= <-]. exact E.
Qed.

Lemma read_header_skips_one_line_witness :
  exists n m',
    Betoule14.read_header Demo2.jla_lines ∅
    = Ok (m', ["#end :"; "53000 10 1 27 B VEGA"]) /\
    ["#end :"; "53000 10 1 27 B VEGA"] = drop (S n) Demo2.jla_lines.
Proof.
  destruct (Betoule14.read_header Demo2.jla_lines ∅) as [[m' rest]|e] eqn:E;
    [|vm_compute in E; discriminate E].
  assert (Hrest : rest = ["#end :"; "53000 10 1 27 B VEGA"]).
  { change rest with (snd (m', rest)).
    change (m', rest) with (match Ok (m', rest) with
                            | Ok x => x
                            | Raise _ => (∅, [])
                            end).
    rewrite <- E. vm_compute. reflexivity. }
  subst rest.
  destruct (read_header_skips_one_line _ _ _ _ E) as (n & _ & _ & Hn).
  exists n, m'. split; [reflexivity|exact Hn].
Defined.

End ReadFacts.

(** ** The disk *)

Module DiskFacts.
Import IOFacts.

Lemma path_eqb_refl (p : path) : path_eqb p p = true.
Proof. unfold path_eqb. apply bool_decide_eq_true. reflexivity. Qed.

Lemma path_eqb_ne (p q : path) : p <> q -> path_eqb p q = false.
Proof. unfold path_eqb. intros H. apply bool_decide_eq_false. exact H. Qed.

Lemma lookup_store_eq (p : path) (n : node) (f : list (path * node)) :
  lookup_fs p (store_fs p n f) = Some n.
Proof.
  induction f as [|[q m] r IH]; cbn.
  - rewrite path_eqb_refl. reflexivity.
  - destruct (path_eqb q p) eqn:E; cbn; rewrite E; [reflexivity|exact IH].
Qed.

Lemma lookup_store_ne (p q : path) (n : node) (f : list (path * node)) :
  q <> p -> lookup_fs q (store_fs p n f) = lookup_fs q f.
Proof.
  intros Hne. induction f as [|[x m] r IH]; cbn.
  - rewrite path_eqb_ne by congruence. reflexivity.
  - destruct (path_eqb x p) eqn:E; cbn.
    + apply bool_decide_eq_true in E. subst x.
      rewrite path_eqb_ne by congruence. reflexivity.
    + destruct (path_eqb x q); [reflexivity|exact IH].
Qed.

Lemma lookup_fs_app (q : path) (f g : list (path * node)) :
  lookup_fs q (f ++ g)
  = match lookup_fs q f with Some n => Some n | None => lookup_fs q g end.
Proof.
  induction f as [|[x m] r IH]; cbn; [reflexivity|].
  destruct (path_eqb x q); [reflexivity|exact IH].
Qed.

Lemma lookup_fs_filter (P : path -> Prop) `{forall x, Decision (P x)}
    (q : path) (f : list (path * node)) :
  lookup_fs q (filter (fun xn => P (fst xn)) f)
  = if decide (P q) then lookup_fs q f else None.
Proof.
  induction f as [|[x m] r IH]; [cbn; destruct (decide (P q)); reflexivity|].
  rewrite filter_cons.
  destruct (decide (P (fst (x, m)))) as [Hx|Hx]; cbn [fst] in Hx;
    cbn [lookup_fs].
  - destruct (path_eqb x q) eqn:E; [|exact IH].
    apply bool_decide_eq_true in E. subst x.
    destruct (decide (P q)); [reflexivity|contradiction].
  - rewrite IH. destruct (path_eqb x q) eqn:E; [|reflexivity].
    apply bool_decide_eq_true in E. subst x.
    destruct (decide (P q)); [contradiction|reflexivity].
Qed.

Lemma lookup_remove_ne (p q : path) (f : list (path * node)) :
  q <> p -> lookup_fs q (remove_fs p f) = lookup_fs q f.
Proof.
  intros Hne. unfold remove_fs.
  induction f as [|[x m] r IH]; [reflexivity|].
  rewrite filter_cons. cbn [fst].
  destruct (decide (x <> p)) as [Hx|Hx]; cbn [lookup_fs].
  - rewrite IH. reflexivity.
  - rewrite IH. rewrite path_eqb_ne; [reflexivity|].
    intros ->. apply Hx. exact Hne.
Qed.

(** *** Creating directories *)

Lemma mkdir_from_spec (rest base : path) (f f' : list (path * node)) :
  mkdir_from base rest f = Ok f' ->
  entries_kept f f' /\
  forall k, 0 < k <= length rest ->
    lookup_fs (base ++ take k rest) f' = Some Dir.
Proof.
  revert base f. induction rest as [|c rest IH]; intros base f; cbn.
  - intros [= <-]. split; [intros q n Hq; exact Hq|]. intros k Hk. lia.
  - assert (Hstep : forall g,
              lookup_fs (base ++ [c]) g = Some Dir ->
              mkdir_from (base ++ [c]) rest g = Ok f' ->
              entries_kept g f' /\
              forall k, 0 < k <= S (length rest) ->
                lookup_fs (base ++ take k (c :: rest)) f' = Some Dir).
    { intros g Hg Hm. destruct (IH _ _ Hm) as [Hkeep Hdirs].
      split; [exact Hkeep|]. intros [|k] Hk; [lia|]. cbn.
      destruct k as [|k].
      - rewrite take_0. apply Hkeep, Hg.
      - replace (base ++ c :: take (S k) rest)
          with ((base ++ [c]) ++ take (S k) rest)
          by (rewrite <- app_assoc; reflexivity).
        apply Hdirs. lia. }
    destruct (lookup_fs (base ++ [c]) f) as [[|data ro]|] eqn:E.
    + intros Hm. apply Hstep; assumption.
    + discriminate.
    + intros Hm. destruct (Hstep (f ++ [(base ++ [c], Dir)])) as [Hkeep Hdirs].
      * rewrite lookup_fs_app, E. cbn. rewrite path_eqb_refl. reflexivity.
      * exact Hm.
      * split; [|exact Hdirs]. intros q n Hq. apply Hkeep.
        rewrite lookup_fs_app, Hq. reflexivity.
Qed.

Lemma mkdir_from_present (rest base : path) (f : list (path * node)) :
  (forall k, 0 < k <= length rest ->
     lookup_fs (base ++ take k rest) f = Some Dir) ->
  mkdir_from base rest f = Ok f.
Proof.
  revert base. induction rest as [|c rest IH]; intros base H; cbn;
    [reflexivity|].
  assert (H1 : lookup_fs (base ++ [c]) f = Some Dir).
  { specialize (H 1). cbn in H. rewrite take_0 in H. apply H. lia. }
  rewrite H1. apply IH. intros k Hk.
  replace ((base ++ [c]) ++ take k rest) with (base ++ take (S k) (c :: rest))
    by (cbn; rewrite <- app_assoc; reflexivity).
  apply H. cbn. lia.
Qed.

Lemma mkdir_from_exists (p : path) (f f' : list (path * node)) :
  mkdir_from [] p f = Ok f' -> exists_in f' p = true.
Proof.
  intros H. destruct p as [|c r]; [reflexivity|].
  destruct (mkdir_from_spec _ _ _ _ H) as [_ Hd].
  specialize (Hd (length (c :: r)) ltac:(cbn; lia)).
  rewrite firstn_all in Hd. unfold exists_in. cbn in Hd. rewrite Hd.
  reflexivity.
Qed.

Lemma mkdir_parents_again (p : path) (f f' : list (path * node)) :
  mkdir_from [] p f = Ok f' -> mkdir_from [] p f' = Ok f'.
Proof.
  intros H. apply mkdir_from_present.
  destruct (mkdir_from_spec _ _ _ _ H) as [_ Hd]. exact Hd.
Qed.

End DiskFacts.

(** ** The data directory *)

Module DataDirFacts.
Import IOFacts DiskFacts.

Lemma safe_char_clean (a : ascii) :
  safe_char a <> " "%char /\ Tree.lower_char (safe_char a) = safe_char a /\
  safe_char (safe_char a) = safe_char a.
Proof.
  destruct a as [[] [] [] [] [] [] [] []]; vm_compute;
    repeat split; congruence.
Qed.

Lemma safe_name_chars (s : string) :
  list_ascii_of_string (DataDir.safe_name s)
  = map safe_char (list_ascii_of_string s).
Proof.
  unfold DataDir.safe_name. induction s as [|a r IH]; cbn; [reflexivity|].
  f_equal. exact IH.
Qed.

(** X12.  The directory names [find_and_create_data_dir] derives from a
    survey or release name hold no space and no upper case letter, have the
    length of the name, and deriving again changes nothing. *)
Theorem safe_name_clean (s : string) :
  Forall (fun a => a <> " "%char /\ Tree.lower_char a = a)
         (list_ascii_of_string (DataDir.safe_name s)) /\
  String.length (DataDir.safe_name s) = String.length s /\
  DataDir.safe_name (DataDir.safe_name s) = DataDir.safe_name s.
Proof.
  split; [|split].
  - rewrite safe_name_chars. apply Forall_forall. intros a Ha.
    apply list_elem_of_In, in_map_iff in Ha as (x & <- & _).
    destruct (safe_char_clean x) as (H1 & H2 & _). split; assumption.
  - unfold DataDir.safe_name. induction s as [|a r IH]; cbn; [reflexivity|].
    f_equal. exact IH.
  - rewrite <- (string_of_list_ascii_of_string
                  (DataDir.safe_name (DataDir.safe_name s))).
    rewrite <- (string_of_list_ascii_of_string (DataDir.safe_name s)) at 2.
    f_equal. rewrite !safe_name_chars, map_map. apply map_ext.
    intros a. apply safe_char_clean.
Qed.

(** X13.  When [find_and_create_data_dir] returns, the directory it returns
    exists, everything that was on the disk is still there, and a second
    call returns the same directory without changing the disk. *)
Theorem find_and_create_data_dir_creates (sndata_dir : option path)
    (package_dir : path) (survey release : string) (w w' : world) (d : path) :
  DataDir.find_and_create_data_dir sndata_dir package_dir survey release w
  = (Ok d, w') ->
  d = DataDir.data_dir_of sndata_dir package_dir survey release /\
  exists_in (fs w') d = true /\
  entries_kept (fs w) (fs w') /\
  DataDir.find_and_create_data_dir sndata_dir package_dir survey release w'
  = (Ok d, w').
Proof.
  unfold DataDir.find_and_create_data_dir, mkdir_parents.
  set (dd := DataDir.data_dir_of sndata_dir package_dir survey release).
  unfold bind, get_fs, lift, put_fs, ret.
  destruct (mkdir_from [] dd (fs w)) as [f'|e] eqn:E; [|discriminate].
  intros [= <- <-]. cbn. split; [reflexivity|].
  split; [eapply mkdir_from_exists, E|].
  split; [eapply mkdir_from_spec, E|].
  rewrite (mkdir_parents_again _ _ _ E). reflexivity.
Qed.

Lemma find_and_create_data_dir_creates_witness :
  exists w',
    DataDir.find_and_create_data_dir (Some ["home"; "sn"]) ["pkg"]
      "CSP" "DR 1" Demo.empty_world
    = (Ok ["home"; "sn"; "csp"; "dr_1"], w') /\
    exists_in (fs w') ["home"; "sn"; "csp"; "dr_1"] = true.
Proof.
  destruct (DataDir.find_and_create_data_dir (Some ["home"; "sn"]) ["pkg"]
              "CSP" "DR 1" Demo.empty_world) as [r w'] eqn:E.
  assert (Hr : r = Ok ["home"; "sn"; "csp"; "dr_1"]).
  { change r with (fst (r, w')). rewrite <- E. vm_compute. reflexivity. }
  subst r. exists w'. split; [reflexivity|].
  apply (find_and_create_data_dir_creates _ _ _ _ _ _ _ E).
Defined.

End DataDirFacts.

(** ** Downloading *)

Module FetchFacts.
Import IOFacts DiskFacts.

Lemma bind_inv {A B} (m : M A) (k : A -> M B) (w w' : world) (r : res B) :
  bind m k w = (r, w') ->
  (exists e, m w = (Raise e, w') /\ r = Raise e) \/
  (exists a w1, m w = (Ok a, w1) /\ k a w1 = (r, w')).
Proof.
  unfold bind. destruct (m w) as [[a|e] w1].
  - intros H. right. eauto.
  - intros [= <- <-]. left. eauto.
Qed.

(** Splits a run at its first bind: the first step raised, or it returned
    and the rest ran. *)
Tactic Notation "binv" hyp(H) "as" ident(E) :=
  let e := fresh "e" in
  let a := fresh "a" in
  let w := fresh "w" in
  let Hr := fresh "Hr" in
  apply bind_inv in H;
  destruct H as [(e & E & Hr) | (a & w & E & H)]; cbv beta in *.

(** *** What each step does to the world and how it can fail *)

Lemma should_download_spec (force : bool) (p : path) (url : string)
    (w w' : world) (r : res bool) :
  Fetch.should_download force p url w = (r, w') ->
  fs w' = fs w /\ net w' = net w /\
  exists b, r = Ok b /\
    (b = true ->
     (force = true \/ exists_in (fs w) p = false) /\
     net w url <> Unreachable) /\
    (b = false ->
     (force = false /\ exists_in (fs w) p = true /\
      Forall (fun ev => is_request ev = false)
             (drop (length (trace w)) (trace w'))) \/
     net w url = Unreachable).
Proof.
  unfold Fetch.should_download, Fetch.check_url, try_except, bind,
    requests_get, path_exists, warn, log, get_fs, ret. cbn.
  destruct force; cbn.
  - destruct (net w url) eqn:En; cbn; intros [= <- <-]; cbn;
      (split; [reflexivity|]); (split; [reflexivity|]); eexists;
      (split; [reflexivity|]); split; intros; try discriminate.
    + right. reflexivity.
    + split; [left; reflexivity|discriminate].
  - destruct (exists_in (fs w) p) eqn:Ex; cbn.
    + intros [= <- <-]. cbn. repeat split. exists false.
      split; [reflexivity|]. split; [discriminate|]. intros _. left.
      repeat split. rewrite drop_app_length. repeat constructor.
    + destruct (net w url) eqn:En; cbn; intros [= <- <-]; cbn;
        (split; [reflexivity|]); (split; [reflexivity|]); eexists;
        (split; [reflexivity|]); split; intros; try discriminate.
      * right. reflexivity.
      * split; [right; reflexivity|discriminate].
Qed.

Lemma mkdir_parents_spec (p : path) (w w' : world) (r : res unit) :
  mkdir_parents p w = (r, w') ->
  net w' = net w /\ trace w' = trace w /\
  match r with
  | Ok _ => mkdir_from [] p (fs w) = Ok (fs w')
  | Raise e => e = IOError /\ fs w' = fs w
  end.
Proof.
  unfold mkdir_parents, bind, get_fs, lift, put_fs.
  destruct (mkdir_from [] p (fs w)) as [f'|e] eqn:E; intros [= <- <-]; cbn.
  - auto.
  - repeat split.
    clear -E. revert E. generalize (@nil string) as base. generalize (fs w).
    induction p as [|c rest IH]; intros f base; cbn; [discriminate|].
    destruct (lookup_fs (base ++ [c]) f) as [[|? ?]|]; eauto.
    intros [= <-]. reflexivity.
Qed.

Lemma write_file_spec (p : path) (data : content) (w w' : world)
    (r : res unit) :
  write_file p data w = (r, w') ->
  net w' = net w /\
  match r with
  | Ok _ => fs w' = store_fs p (File data false) (fs w)
  | Raise e => (e = IOError \/ e = FileNotFoundError) /\ fs w' = fs w
  end.
Proof.
  unfold write_file, bind, log, get_fs, put_fs, raise. cbn.
  destruct (lookup_fs p (fs w)) as [[|d [|]]|]; try (intros [= <- <-]; cbn; auto).
  destruct (parent p) as [|c pr]; [intros [= <- <-]; cbn; auto|].
  destruct (lookup_fs (c :: pr) (fs w)) as [[|? ?]|];
    intros [= <- <-]; cbn; auto.
Qed.

Lemma requests_get_spec (url : string) (w w' : world)
    (r : res (bool * content)) :
  requests_get url w = (r, w') ->
  fs w' = fs w /\ net w' = net w /\
  match r with
  | Ok x => net w url = Reply (fst x) (snd x)
  | Raise e => e = ConnectionError /\ net w url = Unreachable
  end.
Proof.
  unfold requests_get, bind, log. cbn.
  destruct (net w url) eqn:En; intros [= <- <-]; cbn; auto.
Qed.

Lemma raise_for_status_spec (x : bool * content) (w w' : world)
    (r : res unit) :
  raise_for_status x w = (r, w') ->
  w' = w /\
  match r with
  | Ok _ => fst x = true
  | Raise e => e = HTTPError /\ fst x = false
  end.
Proof.
  unfold raise_for_status, ret, raise. destruct (fst x);
    intros [= <- <-]; auto.
Qed.

(** X14.  When [download_file], given a path, returns, either the disk is
    as it was (the download was skipped) or the server answered with an OK
    status and the file at the path now holds the body of the answer, every
    other entry of the disk being kept. *)
Theorem download_file_stores_body (url : string) (p : path) (force : bool)
    (w w' : world) (r : option content) :
  Fetch.download_file url (Some p) None force w = (Ok r, w') ->
  fs w' = fs w \/
  exists body,
    net w url = Reply true body /\
    lookup_fs p (fs w') = Some (File body false) /\
    forall q n, q <> p -> lookup_fs q (fs w) = Some n ->
                lookup_fs q (fs w') = Some n.
Proof.
  intros H. unfold Fetch.download_file in H. binv H as E; [discriminate|].
  destruct (should_download_spec _ _ _ _ _ _ E) as (Hfs & Hnet & b & Hb & _).
  injection Hb as ->. destruct b; cbn in H.
  - right. binv H as E0; [discriminate|].
    apply mkdir_parents_spec in E0 as (Hn1 & _ & Hm).
    binv H as E1; [discriminate|]. apply write_file_spec in E1 as (Hn2 & Hf2).
    binv H as E2; [discriminate|].
    apply requests_get_spec in E2 as (Hf3 & Hn3 & Hg).
    binv H as E3; [discriminate|].
    apply raise_for_status_spec in E3 as (-> & Hok).
    binv H as E4; [discriminate|]. apply write_file_spec in E4 as (Hn5 & Hf5).
    apply ret_ok in H as [_ <-].
    match goal with
    | x : (bool * content)%type |- _ => destruct x as [ok body]
    end.
    cbn in *. subst ok. exists body.
    split; [congruence|]. rewrite Hf5. split; [apply lookup_store_eq|].
    intros q n Hq Hl. rewrite lookup_store_ne by exact Hq.
    rewrite Hf3, Hf2, lookup_store_ne by exact Hq.
    apply (proj1 (mkdir_from_spec _ _ _ _ Hm)). rewrite Hfs. exact Hl.
  - left. apply ret_ok in H as [_ <-]. exact Hfs.
Qed.

Lemma download_file_stores_body_witness :
  exists w',
    Fetch.download_file "http://example.org/R_band.dat"
      (Some ["data"; "filters"; "R_band.dat"]) None false Demo2.online_world
    = (Ok None, w') /\
    lookup_fs ["data"; "filters"; "R_band.dat"] (fs w')
    = Some (File ["4000 0.1"; "5000 0.9"] false).
Proof.
  destruct (Fetch.download_file "http://example.org/R_band.dat"
              (Some ["data"; "filters"; "R_band.dat"]) None false
              Demo2.online_world) as [r w'] eqn:E.
  assert (Hr : r = Ok None /\ exists_in (fs w') ["data"; "filters"] = true).
  { change r with (fst (r, w')). change w' with (snd (r, w')) at 2.
    rewrite <- E. vm_compute. split; reflexivity. }
  destruct Hr as [-> Hex]. exists w'. split; [reflexivity|].
  destruct (download_file_stores_body _ _ _ _ _ _ E)
    as [Hsame | (body & Hnet & Hl & _)].
  - rewrite Hsame in Hex. vm_compute in Hex. discriminate Hex.
  - vm_compute in Hnet. injection Hnet as <-. exact Hl.
Defined.

(** X15.  [download_file] opens the file before it sends the request: when
    the server answers with an error status the call raises [HTTPError] and
    leaves an empty file at the path, so that a later call without [force]
    finds the path and skips the download without asking the server. *)
Theorem download_file_http_error (url : string) (p : path) (force : bool)
    (w w' : world) :
  Fetch.download_file url (Some p) None force w = (Raise HTTPError, w') ->
  lookup_fs p (fs w') = Some (File [] false) /\
  skips_without_request (Fetch.download_file url (Some p) None false) w'.
Proof.
  intros H. unfold Fetch.download_file in H.
  assert (Hl : lookup_fs p (fs w') = Some (File [] false)).
  { binv H as E.
    { apply should_download_spec in E as (_ & _ & b & Hb & _). congruence. }
    destruct (should_download_spec _ _ _ _ _ _ E) as (_ & _ & b & Hb & _).
    injection Hb as ->. destruct b; cbn in H; [|discriminate H].
    binv H as E0.
    { apply mkdir_parents_spec in E0 as (_ & _ & He & _). congruence. }
    binv H as E1.
    { apply write_file_spec in E1 as (_ & [He|He] & _); congruence. }
    apply write_file_spec in E1 as (_ & Hf2).
    binv H as E2.
    { apply requests_get_spec in E2 as (_ & _ & He & _). congruence. }
    apply requests_get_spec in E2 as (Hf3 & _).
    binv H as E3.
    { apply raise_for_status_spec in E3 as (-> & _).
      rewrite Hf3, Hf2. apply lookup_store_eq. }
    binv H as E4.
    { apply write_file_spec in E4 as (_ & [He|He] & _); congruence. }
    discriminate H. }
  split; [exact Hl|].
  assert (Hex : exists_in (fs w') p = true).
  { unfold exists_in. rewrite Hl. destruct p; reflexivity. }
  unfold skips_without_request, Fetch.download_file, Fetch.should_download,
    bind, path_exists, log, get_fs, ret. cbn. rewrite Hex. cbn.
  eexists _, _, _. repeat split.
Qed.

Lemma download_file_http_error_witness :
  exists w',
    Fetch.download_file "http://example.org/gone.dat"
      (Some ["data"; "gone.dat"]) None false Demo2.online_world
    = (Raise HTTPError, w') /\
    lookup_fs ["data"; "gone.dat"] (fs w') = Some (File [] false).
Proof.
  destruct (Fetch.download_file "http://example.org/gone.dat"
              (Some ["data"; "gone.dat"]) None false Demo2.online_world)
    as [r w'] eqn:E.
  assert (Hr : r = Raise HTTPError).
  { change r with (fst (r, w')). rewrite <- E. vm_compute. reflexivity. }
  subst r. exists w'. split; [reflexivity|].
  apply (download_file_http_error _ _ _ _ _ E).
Defined.

End FetchFacts.

(** ** Unpacking archives *)

Module TarFacts.
Import IOFacts DiskFacts FetchFacts.

Lemma kept_except_refl (p : path) (f : list (path * node)) : kept_except p f f.
Proof. split; [intros q n _ H; exact H|intros q H; exact H]. Qed.

Lemma kept_except_trans (p : path) (f g h : list (path * node)) :
  kept_except p f g -> kept_except p g h -> kept_except p f h.
Proof.
  intros [H1 D1] [H2 D2]. split.
  - intros q n Hq Hl. apply H2; [exact Hq|]. apply H1; assumption.
  - intros q Hl. apply D2, D1, Hl.
Qed.

Lemma entries_kept_except (p : path) (f g : list (path * node)) :
  entries_kept f g -> kept_except p f g.
Proof. intros H. split; [intros q n _; apply H|intros q; apply H]. Qed.

Lemma preserves_same {A} (p : path) (m : M A) :
  (forall w r w', m w = (r, w') -> fs w' = fs w) ->
  preserves (kept_except p) m.
Proof. intros H w r w' E. rewrite (H _ _ _ E). apply kept_except_refl. Qed.

Lemma preserves_bind {A B} (p : path) (m : M A) (k : A -> M B) :
  preserves (kept_except p) m ->
  (forall a, preserves (kept_except p) (k a)) ->
  preserves (kept_except p) (bind m k).
Proof.
  intros Hm Hk w r w' H. apply bind_inv in H as [(e & E & _)|(a & w1 & E & H)].
  - eapply Hm, E.
  - eapply kept_except_trans; [eapply Hm, E|eapply Hk, H].
Qed.

Lemma preserves_try {A} (p : path) (m h : M A) (c : exn -> bool) :
  preserves (kept_except p) m -> preserves (kept_except p) h ->
  preserves (kept_except p) (try_except m c h).
Proof.
  intros Hm Hh w r w'. unfold try_except.
  destruct (m w) as [[a|e] w1] eqn:E.
  - intros [= <- <-]. eapply Hm, E.
  - destruct (c e).
    + intros H. eapply kept_except_trans; [eapply Hm, E|eapply Hh, H].
    + intros [= <- <-]. eapply Hm, E.
Qed.

Lemma write_file_not_dir (p : path) (data : content) (w w' : world) :
  write_file p data w = (Ok tt, w') -> lookup_fs p (fs w) <> Some Dir.
Proof.
  unfold write_file, bind, log, get_fs, put_fs, raise. cbn.
  destruct (lookup_fs p (fs w)) as [[|d [|]]|]; discriminate.
Qed.

Lemma preserves_write_file (p : path) (data : content) :
  preserves (kept_except p) (write_file p data).
Proof.
  intros w r w' E. pose proof (write_file_spec _ _ _ _ _ E) as [_ Hs].
  destruct r as [[]|e].
  - pose proof (write_file_not_dir _ _ _ _ E) as Hnd. rewrite Hs. split.
    + intros q n Hq Hl. rewrite lookup_store_ne by exact Hq. exact Hl.
    + intros q Hl. rewrite lookup_store_ne; [exact Hl|].
      intros ->. contradiction.
  - destruct Hs as [_ ->]. apply kept_except_refl.
Qed.

Lemma unlink_spec (p : path) (w w' : world) (r : res unit) :
  unlink p w = (r, w') ->
  match r with
  | Ok _ => (exists d ro, lookup_fs p (fs w) = Some (File d ro)) /\
            fs w' = remove_fs p (fs w)
  | Raise _ => fs w' = fs w
  end.
Proof.
  unfold unlink, bind, log, get_fs, put_fs, raise. cbn.
  destruct (lookup_fs p (fs w)) as [[|d ro]|]; intros [= <- <-]; cbn; eauto.
Qed.

Lemma preserves_unlink (p : path) : preserves (kept_except p) (unlink p).
Proof.
  intros w r w' E. apply unlink_spec in E. destruct r as [[]|e].
  - destruct E as [(d & ro & Hl) ->]. split.
    + intros q n Hq Hq'. rewrite lookup_remove_ne by exact Hq. exact Hq'.
    + intros q Hq. rewrite lookup_remove_ne; [exact Hq|].
      intros ->. congruence.
  - rewrite E. apply kept_except_refl.
Qed.

Lemma preserves_mkdir_parents (p d : path) :
  preserves (kept_except p) (mkdir_parents d).
Proof.
  intros w r w' E. apply mkdir_parents_spec in E as (_ & _ & H).
  destruct r as [[]|e].
  - apply entries_kept_except. eapply mkdir_from_spec, H.
  - destruct H as [_ ->]. apply kept_except_refl.
Qed.

Lemma mkdir_exist_ok_spec (p : path) (w w' : world) (r : res unit) :
  Fetch.mkdir_exist_ok p w = (r, w') ->
  r = Ok tt /\ exists_in (fs w') p = true /\ entries_kept (fs w) (fs w').
Proof.
  unfold Fetch.mkdir_exist_ok, bind, get_fs, put_fs, ret. cbn.
  destruct (exists_in (fs w) p) eqn:Ex; intros [= <- <-]; cbn.
  - split; [reflexivity|]. split; [exact Ex|]. intros q n Hq. exact Hq.
  - split; [reflexivity|]. split.
    + destruct p as [|c rest]; [reflexivity|]. unfold exists_in in *.
      rewrite lookup_fs_app.
      destruct (lookup_fs (c :: rest) (fs w)); [discriminate Ex|].
      cbn. rewrite path_eqb_refl. reflexivity.
    + intros q n Hq. rewrite lookup_fs_app, Hq. reflexivity.
Qed.

Lemma preserves_mkdir_exist_ok (p d : path) :
  preserves (kept_except p) (Fetch.mkdir_exist_ok d).
Proof.
  intros w r w' E. apply mkdir_exist_ok_spec in E as (_ & _ & Hk).
  apply entries_kept_except, Hk.
Qed.

Lemma preserves_extract (out_dir : path) (m : Fetch.member) :
  preserves (kept_except (Fetch.target out_dir m)) (Fetch.extract out_dir m).
Proof.
  unfold Fetch.extract. apply preserves_bind.
  - apply preserves_mkdir_parents.
  - intros _. destruct (snd m).
    + apply preserves_write_file.
    + apply preserves_mkdir_exist_ok.
Qed.

Lemma extract_ok (out_dir : path) (m : Fetch.member) (w w' : world) :
  Fetch.extract out_dir m w = (Ok tt, w') -> unpacked out_dir (fs w') m.
Proof.
  unfold Fetch.extract, unpacked. intros H. binv H as E; [discriminate|].
  destruct (snd m) as [data|].
  - apply write_file_spec in H as [_ ->]. apply lookup_store_eq.
  - apply mkdir_exist_ok_spec in H as (_ & Hex & _). exact Hex.
Qed.

Lemma preserves_extract_retry (out_dir : path) (m : Fetch.member) :
  preserves (kept_except (Fetch.target out_dir m)) (extract_retry out_dir m).
Proof.
  apply preserves_try; [apply preserves_extract|].
  apply preserves_bind; [apply preserves_unlink|].
  intros _. apply preserves_extract.
Qed.

Lemma extract_retry_ok (out_dir : path) (m : Fetch.member) (w w' : world) :
  extract_retry out_dir m w = (Ok tt, w') -> unpacked out_dir (fs w') m.
Proof.
  unfold extract_retry, try_except.
  destruct (Fetch.extract out_dir m w) as [[[]|e] w1] eqn:E.
  - intros [= <-]. eapply extract_ok, E.
  - destruct (Fetch.is_io_error e); [|discriminate].
    intros H. binv H as E1; [discriminate|]. eapply extract_ok, H.
Qed.

Lemma extract_all_dirs (out_dir : path) (members : list Fetch.member)
    (w w' : world) (r : res unit) :
  Fetch.extract_all out_dir members w = (r, w') -> dirs_kept (fs w) (fs w').
Proof.
  revert w. induction members as [|m rest IH]; intros w; cbn.
  - intros [= <- <-]. intros q H. exact H.
  - intros H. apply bind_inv in H as [(e & E & _)|(a & w1 & E & H)].
    + eapply (preserves_extract_retry out_dir m), E.
    + intros q Hq. eapply IH; [exact H|].
      eapply (preserves_extract_retry out_dir m); eassumption.
Qed.

(** a member that is on the disk stays as long as nothing is written at
    its place *)
Lemma unpacked_kept (out_dir p : path) (m : Fetch.member)
    (f f' : list (path * node)) :
  kept_except p f f' -> Fetch.target out_dir m <> p ->
  unpacked out_dir f m -> unpacked out_dir f' m.
Proof.
  intros [Hk _] Hne. unfold unpacked. destruct (snd m) as [data|].
  - intros Hl. apply Hk; assumption.
  - unfold exists_in. destruct (Fetch.target out_dir m) as [|c rest];
      [reflexivity|].
    destruct (lookup_fs (c :: rest) f) as [n|] eqn:El; [|discriminate].
    intros _. rewrite (Hk _ _ Hne El). reflexivity.
Qed.

Lemma extract_all_keeps (out_dir : path) (m : Fetch.member)
    (rest : list Fetch.member) (w w' : world) :
  Forall (fun m' => Fetch.target out_dir m <> Fetch.target out_dir m') rest ->
  Fetch.extract_all out_dir rest w = (Ok tt, w') ->
  unpacked out_dir (fs w) m -> unpacked out_dir (fs w') m.
Proof.
  revert w. induction rest as [|m' rest' IH]; intros w Hall; cbn.
  - intros [= <-] Hm. exact Hm.
  - intros H Hm. binv H as E; [discriminate|].
    inversion Hall as [|? ? Hne Hall']; subst.
    eapply IH; [exact Hall'|exact H|].
    eapply unpacked_kept; [eapply (preserves_extract_retry out_dir m'), E| |].
    + exact Hne.
    + exact Hm.
Qed.

Lemma extract_all_members (out_dir : path) (members : list Fetch.member)
    (w w' : world) :
  NoDup (map (Fetch.target out_dir) members) ->
  Fetch.extract_all out_dir members w = (Ok tt, w') ->
  forall ffile, ffile ∈ members -> unpacked out_dir (fs w') ffile.
Proof.
  revert w. induction members as [|m rest IH]; intros w Hnd; cbn.
  - intros _ ffile Hin. inversion Hin.
  - intros H ffile Hin. binv H as E; [discriminate|].
    destruct a. cbn in Hnd. inversion Hnd as [|? ? Hnotin Hnd']; subst.
    inversion Hin as [|? ? ? Hin']; subst.
    + eapply extract_all_keeps; [|exact H|apply (extract_retry_ok _ _ _ _ E)].
      apply Forall_forall. intros m' Hm' Heq. apply Hnotin. rewrite Heq.
      apply list_elem_of_In, in_map, list_elem_of_In, Hm'.
    + eapply IH; eassumption.
Qed.

Lemma download_to_file_obj_spec (url : string) (path_arg : option path)
    (buf : content) (force : bool) (w w' : world) (r : res (option content)) :
  Fetch.download_file url path_arg (Some buf) force w = (r, w') ->
  fs w' = fs w /\ net w' = net w /\
  match r with
  | Ok x => exists body, net w url = Reply true body /\ x = Some (buf ++ body)
  | Raise _ => True
  end.
Proof.
  unfold Fetch.download_file. intros H. binv H as E.
  { apply requests_get_spec in E as (? & ? & _). subst r. auto. }
  apply requests_get_spec in E as (Hf & Hn & Hg). binv H as E1.
  { apply raise_for_status_spec in E1 as (-> & _). subst r. auto. }
  apply raise_for_status_spec in E1 as (-> & Hok).
  unfold ret in H. injection H as <- <-. repeat split; [assumption..|].
  destruct a as [ok body]. cbn in *. subst ok. eauto.
Qed.

(** X16.  When [download_tar] returns, either the disk is as it was (the
    download was skipped) or the server answered with an OK status, the
    output directory exists, and a later call without [force] skips the
    download without asking the server.  For an archive of regular files
    and directories whose names hold no [..] and lead to different places,
    every file of the archive is then on the disk at its name under the
    output directory, with its data, and at the name of every directory of
    the archive there is something. *)
Theorem download_tar_unpacks
    (tar_open : option string -> content -> res (list Fetch.member))
    (url : string) (out_dir : path) (mode : option string) (force : bool)
    (w w' : world) :
  Fetch.download_tar tar_open url out_dir mode force w = (Ok tt, w') ->
  fs w' = fs w \/
  exists body members,
    net w url = Reply true body /\
    tar_open mode body = Ok members /\
    exists_in (fs w') out_dir = true /\
    (Forall (fun ffile => plain_name (fst ffile)) members ->
     NoDup (map (Fetch.target out_dir) members) ->
     forall ffile, ffile ∈ members -> unpacked out_dir (fs w') ffile) /\
    skips_without_request
      (Fetch.download_tar tar_open url out_dir mode false) w'.
Proof.
  intros H. unfold Fetch.download_tar in H. binv H as E; [discriminate|].
  destruct (should_download_spec _ _ _ _ _ _ E) as (Hfs & Hnet & b & Hb & _).
  injection Hb as ->. destruct b; cbn in H.
  - right. binv H as E0; [discriminate|].
    apply (download_to_file_obj_spec url None [] false) in E0
      as (Hf1 & Hn1 & body & Hg & ->).
    binv H as E1; [discriminate|].
    apply mkdir_parents_spec in E1 as (Hn2 & _ & Hm).
    binv H as E2; [discriminate|]. apply lift_ok in E2 as [Ht <-].
    cbn in Ht.
    match type of Ht with _ = Ok ?ms => exists body, ms end.
    assert (Hex : exists_in (fs w') out_dir = true).
    { destruct out_dir as [|c rest]; [reflexivity|].
      destruct (mkdir_from_spec _ _ _ _ Hm) as [_ Hd].
      specialize (Hd (length (c :: rest)) ltac:(cbn; lia)).
      rewrite firstn_all in Hd. cbn in Hd.
      unfold exists_in. rewrite (extract_all_dirs _ _ _ _ _ H _ Hd).
      reflexivity. }
    split; [congruence|]. split; [exact Ht|]. split; [exact Hex|]. split.
    + intros _ Hnd. eapply extract_all_members; eassumption.
    + unfold skips_without_request, Fetch.download_tar, Fetch.should_download,
        bind, path_exists, log, get_fs, ret. cbn. rewrite Hex. cbn.
      eexists _, _, _. repeat split.
  - left. apply ret_ok in H as [_ <-]. exact Hfs.
Qed.

Lemma download_tar_unpacks_witness :
  exists w',
    Fetch.download_tar Demo2.two_files "http://example.org/lcs.tar.gz"
      ["data"; "vizier"] (Some "r:gz") false Demo2.online_world
    = (Ok tt, w') /\
    lookup_fs ["data"; "vizier"; "lcs"; "b010.dat"] (fs w')
    = Some (File ["1 53000 R 5 1 2"] false) /\
    exists_in (fs w') ["data"; "vizier"; "lcs"] = true.
Proof.
  destruct (Fetch.download_tar Demo2.two_files "http://example.org/lcs.tar.gz"
              ["data"; "vizier"] (Some "r:gz") false Demo2.online_world)
    as [r w'] eqn:E.
  assert (Hr : r = Ok tt /\ fs w' <> fs Demo2.online_world).
  { change r with (fst (r, w')). change w' with (snd (r, w')) at 2.
    rewrite <- E. vm_compute. split; [reflexivity|discriminate]. }
  destruct Hr as [-> Hne]. exists w'. split; [reflexivity|].
  destruct (download_tar_unpacks _ _ _ _ _ _ _ E)
    as [Hsame | (body & members & Hnet & Ht & _ & Hm & _)];
    [contradiction|].
  injection Ht as <-.
  assert (Hplain : Forall (fun ffile : Fetch.member => plain_name (fst ffile))
                     [("lcs", Fetch.Directory);
                      ("lcs/b010.dat", Fetch.RegFile ["1 53000 R 5 1 2"]);
                      ("table1.dat", Fetch.RegFile ["1 2"])]).
  { repeat constructor; cbn; vm_compute; intros Hx;
      repeat (inversion Hx as [|? ? ? Hx']; subst; clear Hx; rename Hx' into Hx);
      inversion Hx. }
  assert (Hnd : NoDup (map (Fetch.target ["data"; "vizier"])
                         [("lcs", Fetch.Directory);
                          ("lcs/b010.dat", Fetch.RegFile ["1 53000 R 5 1 2"]);
                          ("table1.dat", Fetch.RegFile ["1 2"])])).
  { vm_compute. repeat constructor; compute_done. }
  split.
  - apply (Hm Hplain Hnd ("lcs/b010.dat", Fetch.RegFile ["1 53000 R 5 1 2"])).
    right. left.
  - apply (Hm Hplain Hnd ("lcs", Fetch.Directory)). left.
Defined.

(** X17.  However they end, [download_file] and [download_tar] never remove
    a directory nor put a file in its place. *)
Theorem downloads_keep_directories
    (tar_open : option string -> content -> res (list Fetch.member))
    (url : string) (path_arg : option path) (file_obj : option content)
    (out_dir : path) (mode : option string) (force : bool) :
  keeps_dirs (Fetch.download_file url path_arg file_obj force) /\
  keeps_dirs (Fetch.download_tar tar_open url out_dir mode force).
Proof.
  assert (Hsd : forall p d, preserves (kept_except p)
                              (Fetch.should_download force d url)).
  { intros p d. apply preserves_same. intros w r w' E.
    apply should_download_spec in E as (E & _). exact E. }
  assert (Hget : forall p, preserves (kept_except p) (requests_get url)).
  { intros p. apply preserves_same. intros w r w' E.
    apply requests_get_spec in E as (E & _). exact E. }
  assert (Hst : forall p x, preserves (kept_except p) (raise_for_status x)).
  { intros p x. apply preserves_same. intros w r w' E.
    apply raise_for_status_spec in E as (-> & _). reflexivity. }
  assert (Hret : forall A p (a : A), preserves (kept_except p) (ret a)).
  { intros A p a. apply preserves_same. intros w r w' [= _ <-]. reflexivity. }
  split.
  - intros w r w' E. destruct file_obj as [buf|].
    + apply download_to_file_obj_spec in E as (-> & _). intros q H. exact H.
    + destruct path_arg as [p|].
      * revert w r w' E.
        change (preserves dirs_kept
                  (Fetch.download_file url (Some p) None force)).
        assert (Hp : preserves (kept_except p)
                       (Fetch.download_file url (Some p) None force)).
        { unfold Fetch.download_file. apply preserves_bind; [apply Hsd|].
          intros go. destruct (negb go); [apply Hret|].
          apply preserves_bind; [apply preserves_mkdir_parents|]. intros _.
          apply preserves_bind; [apply preserves_write_file|]. intros _.
          apply preserves_bind; [apply Hget|]. intros x.
          apply preserves_bind; [apply Hst|]. intros _.
          apply preserves_bind; [apply preserves_write_file|]. intros _.
          apply Hret. }
        intros w r w' E. apply (Hp _ _ _ E).
      * cbn in E. injection E as _ <-. intros q H. exact H.
  - intros w r w' H. unfold Fetch.download_tar in H.
    apply bind_inv in H as [(e & E & _)|(go & w1 & E & H)].
    { apply should_download_spec in E as (-> & _). intros q Hq. exact Hq. }
    apply should_download_spec in E as (Hf0 & _). rewrite <- Hf0.
    destruct (negb go); [injection H as _ <-; intros q Hq; exact Hq|].
    apply bind_inv in H as [(e & E & _)|(tmp & w2 & E & H)].
    { apply download_to_file_obj_spec in E as (-> & _). intros q Hq. exact Hq. }
    apply download_to_file_obj_spec in E as (Hf1 & _). rewrite <- Hf1.
    apply bind_inv in H as [(e & E & _)|(u & w3 & E & H)].
    { apply (preserves_mkdir_parents out_dir out_dir _ _ _ E). }
    pose proof (proj2 (preserves_mkdir_parents out_dir out_dir _ _ _ E)) as Hd.
    apply bind_inv in H as [(e & E1 & _)|(ms & w4 & E1 & H)].
    { unfold lift in E1. injection E1 as _ <-. exact Hd. }
    unfold lift in E1. injection E1 as _ <-.
    intros q Hq. eapply extract_all_dirs; [exact H|]. apply Hd, Hq.
Qed.

Lemma downloads_keep_directories_witness :
  lookup_fs Demo.root (fs Demo2.online_world) = Some Dir /\
  lookup_fs Demo.root
    (fs (snd (Fetch.download_file "http://example.org/gone.dat"
                (Some (child Demo.root "gone.dat")) None false
                Demo2.online_world))) = Some Dir.
Proof.
  split; [reflexivity|].
  destruct (downloads_keep_directories Demo2.two_files
              "http://example.org/gone.dat"
              (Some (child Demo.root "gone.dat")) None [] None false)
    as [H _].
  apply (H Demo2.online_world _ _ (surjective_pairing _)). reflexivity.
Defined.

End TarFacts.

(** ** Downloading and deleting the data of a release *)

Module ModuleDataFacts.
Import IOFacts DiskFacts FetchFacts TarFacts.

Lemma sn3yr_fetch_block_skips
    (tar_open : option string -> content -> res (list Fetch.member))
    (data_dir dir : path) (url msg : string) (force : bool) (w : world) :
  exists_in (fs w) data_dir = true ->
  exists w', SN3YRDownload.fetch_block tar_open data_dir force dir url msg w
             = (Ok tt, w') /\ fs w' = fs w.
Proof.
  intros Hex. unfold SN3YRDownload.fetch_block.
  destruct (Fetch.should_download force dir url w) as [r w1] eqn:E.
  destruct (should_download_spec _ _ _ _ _ _ E) as (Hf & _ & b & -> & _).
  rewrite (bind_step _ _ _ _ _ E). destruct b.
  - unfold Fetch.download_tar, Fetch.should_download, bind, print,
      path_exists, log, get_fs, ret. cbn. rewrite Hf, Hex. cbn.
    eexists. split; [reflexivity|]. cbn. congruence.
  - eexists. split; [reflexivity|exact Hf].
Qed.

(** X18.  [SN3YR.download_module_data] unpacks every archive into the data
    directory and calls [download_tar] without [force]: once the data
    directory exists, a call returns without changing the disk, whatever
    [force] is and whether or not the server answers. *)
Theorem sn3yr_download_module_data_skips
    (tar_open : option string -> content -> res (list Fetch.member))
    (data_dir : path) (force : bool) (w : world) :
  exists_in (fs w) data_dir = true ->
  exists w', SN3YRDownload.download_module_data tar_open data_dir force w
             = (Ok tt, w') /\ fs w' = fs w.
Proof.
  intros Hex. unfold SN3YRDownload.download_module_data.
  destruct (sn3yr_fetch_block_skips tar_open data_dir
              (SN3YR._filter_dir data_dir) SN3YRDownload._filter_url
              "Downloading filters..." force w Hex) as (w1 & E1 & H1).
  rewrite (bind_step _ _ _ _ _ E1).
  destruct (sn3yr_fetch_block_skips tar_open data_dir
              (SN3YR._photometry_dir data_dir) SN3YRDownload._photometry_url
              "Downloading photometry..." force w1
              ltac:(rewrite H1; exact Hex)) as (w2 & E2 & H2).
  rewrite (bind_step _ _ _ _ _ E2).
  destruct (sn3yr_fetch_block_skips tar_open data_dir
              (SN3YR._fits_dir data_dir) SN3YRDownload._fits_url
              "Downloading Light-Curve Fits..." force w2
              ltac:(rewrite H2, H1; exact Hex)) as (w3 & E3 & H3).
  exists w3. split; [exact E3|]. congruence.
Qed.

Lemma sn3yr_download_module_data_skips_witness :
  exists w',
    SN3YRDownload.download_module_data Demo2.two_files Demo.root true
      Demo2.online_world = (Ok tt, w') /\
    fs w' = fs Demo2.online_world.
Proof.
  apply (sn3yr_download_module_data_skips Demo2.two_files Demo.root true
           Demo2.online_world).
  reflexivity.
Defined.

Lemma old_download_to_file_spec (url : string) (buf : content)
    (w w' : world) (r : res (option content)) :
  OldUtils.download_file url (OldUtils.ToFile buf) w = (r, w') ->
  fs w' = fs w /\
  match r with
  | Ok _ => True
  | Raise e => e = ConnectionError \/ e = HTTPError
  end.
Proof.
  unfold OldUtils.download_file. intros H. binv H as E.
  { unfold print, log in E. discriminate E. }
  assert (Hp : fs w0 = fs w) by (unfold print, log in E; injection E as _ <-;
                                  reflexivity).
  binv H as E1.
  { apply requests_get_spec in E1 as (-> & _ & -> & _). subst r. auto. }
  apply requests_get_spec in E1 as (Hf & _). binv H as E2.
  { apply raise_for_status_spec in E2 as (-> & -> & _). subst r.
    split; [congruence|auto]. }
  apply raise_for_status_spec in E2 as (-> & _).
  unfold ret in H. injection H as <- <-. split; [congruence|exact I].
Qed.

(** X19.  The older [download_tar] creates the output directory before it
    sends the request: when the request fails, with a [ConnectionError] or
    an [HTTPError], the empty directory stays.  The older
    [download_module_data] of CSP DR1, which downloads the tables only when
    their directory is missing, then does not ask for them again. *)
Theorem old_failed_download_is_not_retried
    (tar_open : option string -> content -> res (list Fetch.member))
    (data_dir table_dir spectra_dir : path) (table_url spectra_url : string)
    (mode : option string) (w w1 : world) (e : exn) :
  OldUtils.download_tar tar_open table_url table_dir mode w = (Raise e, w1) ->
  e = ConnectionError \/ e = HTTPError ->
  exists_in (fs w1) table_dir = true /\
  (exists_in (fs w1) spectra_dir = true ->
   skips_without_request
     (OldCSPDownload.download_module_data tar_open data_dir table_dir
        spectra_dir table_url spectra_url) w1).
Proof.
  intros H He. unfold OldUtils.download_tar in H.
  assert (Hex : exists_in (fs w1) table_dir = true).
  { binv H as E.
    { apply mkdir_parents_spec in E as (_ & _ & -> & _).
      injection Hr as ->. destruct He; discriminate. }
    apply mkdir_parents_spec in E as (_ & _ & Hm).
    apply mkdir_from_exists in Hm. binv H as E1.
    { apply old_download_to_file_spec in E1 as (-> & _). exact Hm. }
    apply old_download_to_file_spec in E1 as (Hf & _). binv H as E2.
    { unfold lift in E2. injection E2 as _ <-. rewrite Hf. exact Hm. }
    exfalso. unfold lift in E2. injection E2 as _ <-.
    clear -H He. revert w2 H. generalize a1.
    intros ms. induction ms as [|m rest IH]; intros w2 H; cbn in H;
      [discriminate|].
    binv H as E; [|eapply IH, H].
    injection Hr as ->. unfold Fetch.extract in E. binv E as E'.
    { apply mkdir_parents_spec in E' as (_ & _ & -> & _).
      injection Hr as ->. destruct He; discriminate. }
    destruct (snd m) as [data|].
    - apply write_file_spec in E as (_ & [->| ->] & _);
        destruct He; discriminate.
    - apply mkdir_exist_ok_spec in E as (Hok & _). discriminate Hok. }
  split; [exact Hex|]. intros Hsp.
  unfold skips_without_request, OldCSPDownload.download_module_data, bind,
    path_exists, log, get_fs, ret. cbn. rewrite Hex. cbn. rewrite Hsp. cbn.
  eexists _, _, _. split; [reflexivity|]. split; [reflexivity|].
  split; [cbn; rewrite <- app_assoc; reflexivity|reflexivity].
Qed.

Lemma old_failed_download_is_not_retried_witness :
  exists w1,
    OldUtils.download_tar Demo2.two_files "http://example.org/t.tar.gz"
      Demo.old_tables (Some "r:gz") Demo.empty_world
    = (Raise ConnectionError, w1) /\
    exists_in (fs w1) Demo.old_tables = true.
Proof.
  destruct (OldUtils.download_tar Demo2.two_files "http://example.org/t.tar.gz"
              Demo.old_tables (Some "r:gz") Demo.empty_world)
    as [r w1] eqn:E.
  assert (Hr : r = Raise ConnectionError).
  { change r with (fst (r, w1)). rewrite <- E. vm_compute. reflexivity. }
  subst r. exists w1. split; [reflexivity|].
  apply (old_failed_download_is_not_retried Demo2.two_files Demo.root
           Demo.old_tables Demo.old_photometry "http://example.org/t.tar.gz"
           "" (Some "r:gz") Demo.empty_world w1 ConnectionError E).
  left. reflexivity.
Defined.

Lemma lookup_rmtree (p q : path) (f : list (path * node)) :
  lookup_fs q
    (filter (fun qn => negb (bool_decide (p `prefix_of` fst qn))) f)
  = if bool_decide (p `prefix_of` q) then None else lookup_fs q f.
Proof.
  unfold path in *.
  induction f as [|[x m] r IH];
    [cbn; destruct (bool_decide (p `prefix_of` q)); reflexivity|].
  rewrite filter_cons.
  destruct (decide _) as [Hx|Hx]; cbn [fst] in Hx; cbn [lookup_fs];
    rewrite IH.
  - destruct (path_eqb x q) eqn:E; [|reflexivity].
    apply bool_decide_eq_true in E. subst x.
    destruct (bool_decide (p `prefix_of` q)); [contradiction|reflexivity].
  - destruct (path_eqb x q) eqn:E; [|reflexivity].
    apply bool_decide_eq_true in E. subst x.
    destruct (bool_decide (p `prefix_of` q)); [reflexivity|].
    exfalso. apply Hx. exact I.
Qed.

Lemma rmtree_spec (p : path) (w w' : world) (r : res unit) :
  Tree.rmtree p w = (r, w') ->
  match r with
  | Ok _ =>
      lookup_fs p (fs w) = Some Dir /\ p <> [] /\
      fs w' = filter (fun qn => negb (bool_decide (p `prefix_of` fst qn)))
                     (fs w)
  | Raise e =>
      fs w' = fs w /\
      (e = FileNotFoundError <-> p <> [] /\ lookup_fs p (fs w) = None)
  end.
Proof.
  unfold Tree.rmtree, bind, log, get_fs, put_fs, raise. cbn.
  destruct p as [|c rest].
  - intros [= <- <-]. cbn. split; [reflexivity|].
    split; [discriminate|]. intros [H _]. contradiction.
  - destruct (lookup_fs (c :: rest) (fs w)) as [[|d ro]|];
      intros [= <- <-]; cbn.
    + repeat split. discriminate.
    + split; [reflexivity|]. split; [discriminate|]. intros [_ H]. discriminate.
    + split; [reflexivity|]. split; [|reflexivity]. intros _.
      split; [discriminate|reflexivity].
Qed.

(** X20.  When [delete_module_data] of the older CSP DR1 module returns,
    nothing is left at or below the data directory, every other entry of
    the disk is as it was, and the data guard of the module raises its
    [RuntimeError] again. *)
Theorem delete_module_data_removes (data_dir : path) (w w' : world) :
  OldCSPDownload.delete_module_data data_dir w = (Ok tt, w') ->
  (forall q, data_dir `prefix_of` q -> lookup_fs q (fs w') = None) /\
  (forall q, ~ data_dir `prefix_of` q ->
             lookup_fs q (fs w') = lookup_fs q (fs w)) /\
  exists w'', OldCSP._raise_for_data data_dir w'
              = (Raise OldCSP.not_downloaded, w'').
Proof.
  unfold OldCSPDownload.delete_module_data. intros H.
  apply rmtree_spec in H as (_ & Hne & Hfs).
  assert (Hin : forall q, data_dir `prefix_of` q -> lookup_fs q (fs w') = None).
  { intros q Hq. rewrite Hfs, lookup_rmtree.
    rewrite bool_decide_eq_true_2 by exact Hq. reflexivity. }
  split; [exact Hin|]. split.
  - intros q Hq. rewrite Hfs, lookup_rmtree.
    rewrite bool_decide_eq_false_2 by exact Hq. reflexivity.
  - unfold OldCSP._raise_for_data, OldCSP.data_is_available, bind,
      path_exists, log, get_fs, ret, raise. cbn.
    unfold exists_in. rewrite (Hin data_dir) by reflexivity.
    destruct data_dir; [contradiction|]. cbn. eexists. reflexivity.
Qed.

Lemma delete_module_data_removes_witness :
  exists w',
    OldCSPDownload.delete_module_data Demo.old_tables Demo.old_world
    = (Ok tt, w') /\
    lookup_fs (child Demo.old_tables "table1.dat") (fs w') = None /\
    lookup_fs Demo.old_photometry (fs w') = Some Dir.
Proof.
  destruct (OldCSPDownload.delete_module_data Demo.old_tables Demo.old_world)
    as [r w'] eqn:E.
  assert (Hr : r = Ok tt).
  { change r with (fst (r, w')). rewrite <- E. vm_compute. reflexivity. }
  subst r. exists w'. split; [reflexivity|].
  destruct (delete_module_data_removes _ _ _ E) as (Hin & Hout & _). split.
  - apply Hin. exists ["table1.dat"]. reflexivity.
  - rewrite Hout; [reflexivity|]. intros [k Hk]. discriminate Hk.
Defined.

(** X21.  With no data directory on the disk, [delete_module_data] of the
    older CSP DR1 module raises [FileNotFoundError], while those of the
    older ESSENCE and DES modules catch that error and return; none of
    them changes the disk. *)
Theorem delete_module_data_without_data (data_dir : path) (w : world) :
  data_dir <> [] -> lookup_fs data_dir (fs w) = None ->
  (exists w', OldCSPDownload.delete_module_data data_dir w
              = (Raise FileNotFoundError, w') /\ fs w' = fs w) /\
  (exists w', OldEssenceDownload.delete_module_data data_dir w
              = (Ok tt, w') /\ fs w' = fs w) /\
  (exists w', OldDESDownload.delete_module_data data_dir w
              = (Ok tt, w') /\ fs w' = fs w).
Proof.
  intros Hne Hl.
  assert (E : exists w', Tree.rmtree data_dir w = (Raise FileNotFoundError, w')
                         /\ fs w' = fs w).
  { destruct data_dir as [|c rest]; [contradiction|].
    unfold Tree.rmtree, bind, log, get_fs, raise. cbn -[lookup_fs].
    rewrite Hl. eexists. split; reflexivity. }
  destruct E as (w' & E & Hf).
  split; [exists w'; split; [exact E|exact Hf]|].
  split; exists w';
    unfold OldEssenceDownload.delete_module_data,
      OldDESDownload.delete_module_data, try_except; rewrite E; cbn;
    (split; [reflexivity|exact Hf]).
Qed.

Lemma delete_module_data_without_data_witness :
  exists w',
    OldCSPDownload.delete_module_data Demo.root Demo.empty_world
    = (Raise FileNotFoundError, w') /\ fs w' = fs Demo.empty_world.
Proof.
  destruct (delete_module_data_without_data Demo.root Demo.empty_world)
    as [H _]; [discriminate|reflexivity|exact H].
Defined.

End ModuleDataFacts.

(** ** The size of the cache *)

Module CacheSizeFacts.
Import Cache CacheFacts.

Section Bounded.

Context {A K V E : Type} `{EqDecision K}.
Variable f : A -> E -> res V * E.
Variable make_key : bool -> A -> option K.
Variable deepcopy_of : V -> copy_kind.

Lemma length_removelast_le {X} (l : list X) :
  l <> [] -> S (length (removelast l)) = length l.
Proof.
  intros Hl. rewrite removelast_firstn_len, length_take.
  destruct l; [contradiction|]. cbn. lia.
Qed.

Lemma cached_func_bound (n : nat) (typed : bool) (a : A)
    (c : cstate (K:=K) (V:=V) (E:=E)) :
  length (entries c) <= n ->
  length (entries (snd (cached_func f make_key (Some n) typed a c))) <= n.
Proof.
  intros Hb. unfold cached_func. destruct n as [|m].
  - unfold call_user. destruct (f a (env c)) as [[v|ex] e']; cbn; exact Hb.
  - destruct (make_key typed a) as [k|]; [|exact Hb].
    destruct (lookup_entry k (entries c)) as [r|] eqn:El; cbn.
    + apply lookup_entry_elem in El.
      pose proof (length_filter_lt (fun e : K * nat => e.1 <> k)
                    (entries c) (k, r) El) as Hlt.
      cbn in Hlt. specialize (Hlt ltac:(tauto)). lia.
    + unfold call_user. destruct (f a (env c)) as [[v|ex] e']; cbn;
        [|exact Hb].
      destruct (decide (S m <= length (entries c))) as [Hfull|Hroom]; cbn.
      * rewrite length_removelast_le; [exact Hb|].
        intros Hnil. rewrite Hnil in Hfull. cbn in Hfull. lia.
      * lia.
Qed.

Lemma step_bound (n : nat) (typed copy : bool)
    (s : session (A:=A) (K:=K) (V:=V) (E:=E)) (o : op) :
  length (entries (st s)) <= n ->
  length (entries (st (step f make_key deepcopy_of (Some n) typed copy s o)))
  <= n.
Proof.
  intros Hb. destruct o as [a|i v]; cbn.
  - unfold lru_copy_cache.
    pose proof (cached_func_bound n typed a (st s) Hb) as Hc.
    destruct (cached_func f make_key (Some n) typed a (st s)) as [[r|ex] c'];
      cbn in Hc.
    + destruct copy; cbn.
      * unfold deepcopy. repeat case_match; simplify_eq; cbn; exact Hc.
      * destruct (heap c' !! r); exact Hc.
    + destruct copy; cbn; exact Hc.
  - destruct (held s !! i); [cbn|]; exact Hb.
Qed.

(** X22.  Under [maxsize = n] the cache never holds more than [n] results,
    whatever is called and with or without copying; under [maxsize = 0] it
    holds none. *)
Theorem lru_cache_bounded (n : nat) (typed copy : bool) (e : E)
    (ops : list op) :
  length (entries (st (run f make_key deepcopy_of (Some n) typed copy e ops)))
  <= n.
Proof.
  unfold run.
  assert (H0 : length (entries (st (start (A:=A) (K:=K) (V:=V) e))) <= n)
    by (cbn; lia).
  revert H0. generalize (start (A:=A) (K:=K) (V:=V) e).
  induction ops as [|o r IH]; intros s Hs; cbn; [exact Hs|].
  apply IH, step_bound, Hs.
Qed.

End Bounded.

Section Repeated.

Context {A K V E : Type} `{EqDecision K}.
Variable f : A -> E -> res V * E.
Variable make_key : bool -> A -> option K.
Variable deepcopy_of : V -> copy_kind.




End Repeated.


End CacheSizeFacts.

(** ** The string methods on file names of the releases *)

Module StringExamples.

Example split_demo : split "_" "SN05el_070409_b01" = ["SN05el"; "070409"; "b01"].
Proof. reflexivity. Qed.
Example lstrip_demo : lstrip "SN" "SN05el" = "05el".
Proof. reflexivity. Qed.
Example rstrip_demo : rstrip ".dat" "des_01248677.dat" = "des_01248677".
Proof. reflexivity. Qed.
Example sorted_demo : sorted ["b"; "a"; "c"; "a"] = ["a"; "a"; "b"; "c"].
Proof. reflexivity. Qed.
Example split_ws_demo : split_ws "  RA:   12.5  deg " = ["RA:"; "12.5"; "deg"].
Proof. reflexivity. Qed.
Example jd_demo : Utils.convert_to_jd 500 = (500 + 53000 + 2400000.5)%Q.
Proof. reflexivity. Qed.

End StringExamples.
